(** * Paged slicing and selection engine of the TimeSeries datatypes

    A shallow embedding of [tvb/datatypes/time_series_framework.py]:
    the framework methods of [TimeSeriesFramework] and of its surface and
    volume variants, over a model of the numpy arrays they manipulate. *)

From Stdlib Require Import String Ascii DecimalString.
From Stdlib Require DecimalPos DecimalZ.
From Stdlib Require Import ZArith Bool Lia PrimFloat List.
From Stdlib Require Uint63 Floats.
Import ListNotations.

Set Warnings "-register-all,-inexact-float".

Local Open Scope Z_scope.

(** ** Exceptions and results *)

(** The exceptions the methods can raise.  [ValidationException] is a
    subclass of [TVBException] in [tvb.basic.traits.exceptions]. *)
Inductive exn : Type :=
| TVBException (msg : string)
| ValidationException (msg : string)
| IndexError
| ValueError
| TypeError
| ZeroDivisionError
| OverflowError.

Definition is_TVBException (e : exn) : bool :=
  match e with
  | TVBException _ | ValidationException _ => true
  | _ => false
  end.

Definition is_ValidationException (e : exn) : bool :=
  match e with
  | ValidationException _ => true
  | _ => false
  end.

Inductive result (A : Type) : Type :=
| Ok (a : A)
| Raise (e : exn).

Arguments Ok {A} a.
Arguments Raise {A} e.

(** Whether a call ended in a [ValidationException]. *)
Definition is_ValidationException_result {A} (r : result A) : bool :=
  match r with
  | Ok _ => false
  | Raise e => is_ValidationException e
  end.

Definition rbind {A B} (r : result A) (f : A -> result B) : result B :=
  match r with
  | Ok a => f a
  | Raise e => Raise e
  end.

Declare Scope result_scope.
Delimit Scope result_scope with result.
Notation "x <- r ;; k" := (rbind r (fun x => k))
  (at level 100, r at next level, right associativity) : result_scope.

(** Monadic traversal: the first failing element decides the exception,
    as in a Python loop. *)
Fixpoint mapM {A B} (f : A -> result B) (l : list A) : result (list B) :=
  match l with
  | [] => Ok []
  | x :: l' =>
      (y <- f x ;;
       ys <- mapM f l' ;;
       Ok (y :: ys))%result
  end.

(** ** Python integers, sequences and slices *)

(** [xrange(n)]: the integers [0 .. n-1], empty when [n <= 0]. *)
Definition xrange (n : Z) : list Z :=
  map Z.of_nat (seq 0 (Z.to_nat n)).

(** [l[i]] for a non-negative position [i] of a sequence. *)
Definition getitem {A} (l : list A) (i : nat) : result A :=
  match nth_error l i with
  | Some x => Ok x
  | None => Raise IndexError
  end.

(** ['%d' % i] and ['{0}'.format(i)]: the decimal numeral of an integer. *)
Definition str_of_int (i : Z) : string :=
  NilZero.string_of_int (Z.to_int i).

(** A slice object [slice(start, stop, step)]; [None] fields are absent. *)
Record slice : Type := Slice {
  sl_start : option Z;
  sl_stop : option Z;
  sl_step : option Z
}.

(** [slice(None)], written [:] in an index. *)
Definition slice_all : slice := Slice None None None.

(** [slice(stop)]. *)
Definition slice_to (stop : Z) : slice := Slice None (Some stop) None.

(** [slice.indices(n)]: the start, stop and step a slice denotes on an axis
    of extent [n] (CPython's [PySlice_AdjustIndices]). *)
Definition slice_indices (s : slice) (n : nat) : result (Z * Z * Z) :=
  let len := Z.of_nat n in
  let step := match sl_step s with Some k => k | None => 1 end in
  if step =? 0 then Raise ValueError
  else
    let lower := if step <? 0 then -1 else 0 in
    let upper := if step <? 0 then len - 1 else len in
    let adjust (v : Z) := if v <? 0 then Z.max (v + len) lower else Z.min v upper in
    let start := match sl_start s with
                 | Some v => adjust v
                 | None => if step <? 0 then upper else lower
                 end in
    let stop := match sl_stop s with
                | Some v => adjust v
                | None => if step <? 0 then lower else upper
                end in
    Ok (start, stop, step).

(** Number of positions in the adjusted range. *)
Definition slice_len (start stop step : Z) : nat :=
  if step <? 0
  then (if stop <? start then Z.to_nat ((start - stop - 1) / (- step) + 1) else 0%nat)
  else (if start <? stop then Z.to_nat ((stop - start - 1) / step + 1) else 0%nat).

(** The positions a slice selects on an axis of extent [n], in order. *)
Definition slice_select (s : slice) (n : nat) : result (list nat) :=
  (r <- slice_indices s n ;;
   let '(start, stop, step) := r in
   Ok (map (fun i => Z.to_nat (start + Z.of_nat i * step))
           (seq 0 (slice_len start stop step))))%result.

(** An integer index on an axis of extent [n]: negative values count from
    the end, anything outside [-n, n) is an [IndexError]. *)
Definition normalize_index (i : Z) (n : nat) : result nat :=
  let len := Z.of_nat n in
  if (i <? - len) || (len <=? i) then Raise IndexError
  else Ok (Z.to_nat (if i <? 0 then i + len else i)).

(** ** numpy arrays *)

(** An array is its shape and its elements in row-major order. *)
Record ndarray : Type := NdArray {
  shape : list nat;
  buf : list float
}.

Definition prod (sh : list nat) : nat := fold_right Nat.mul 1%nat sh.

Definition wf (a : ndarray) : Prop := length (buf a) = prod (shape a).

Definition ndim (a : ndarray) : nat := length (shape a).

(** One component of an index expression [a[i0, i1, ...]]. *)
Inductive indexer : Type :=
| ISlice (s : slice)
| IInt (i : Z)
| ISeq (l : list Z)
| IEllipsis.

Definition is_ellipsis (ix : indexer) : bool :=
  match ix with IEllipsis => true | _ => false end.

(** Replace the ellipsis by [k] full slices; without one, the full slices
    are appended. *)
Fixpoint expand (k : nat) (ix : list indexer) : list indexer :=
  match ix with
  | [] => repeat (ISlice slice_all) k
  | IEllipsis :: r => repeat (ISlice slice_all) k ++ r
  | i :: r => i :: expand k r
  end.

Definition expand_index (rank : nat) (ix : list indexer) : result (list indexer) :=
  let ell := length (filter is_ellipsis ix) in
  let used := (length ix - ell)%nat in
  if (1 <? ell)%nat || (rank <? used)%nat then Raise IndexError
  else Ok (expand (rank - used) ix).

(** The positions an indexer selects on an axis of extent [n], and whether
    the axis survives in the result (an integer index removes it). *)
Definition resolve (n : nat) (ix : indexer) : result (list nat * bool) :=
  match ix with
  | ISlice s => (sel <- slice_select s n ;; Ok (sel, true))%result
  | IInt i => (k <- normalize_index i n ;; Ok ([k], false))%result
  | ISeq l => (sel <- mapM (fun i => normalize_index i n) l ;; Ok (sel, true))%result
  | IEllipsis => Raise IndexError
  end.

Fixpoint resolve_all (sh : list nat) (ix : list indexer) : result (list (list nat * bool)) :=
  match sh, ix with
  | n :: sh', i :: ix' =>
      (r <- resolve n i ;;
       rs <- resolve_all sh' ix' ;;
       Ok (r :: rs))%result
  | _, _ => Ok []
  end.

(** The [i]-th block of a buffer along the leading axis, the remaining axes
    holding [stride] elements. *)
Definition chunk (stride i : nat) (b : list float) : list float :=
  firstn stride (skipn (i * stride) b).

(** Elements at the selected positions of every axis, row-major. *)
Fixpoint gather (sh : list nat) (sels : list (list nat)) (b : list float) : list float :=
  match sh, sels with
  | _ :: sh', sel :: sels' =>
      flat_map (fun i => gather sh' sels' (chunk (prod sh') i b)) sel
  | _, _ => b
  end.

(** [a[ix]] for an index made of slices, integers, at most one index
    sequence and at most one ellipsis. *)
Definition nd_getitem (a : ndarray) (ix : list indexer) : result ndarray :=
  (ix' <- expand_index (ndim a) ix ;;
   rs <- resolve_all (shape a) ix' ;;
   Ok (NdArray (map (fun r => length (fst r)) (filter snd rs))
               (gather (shape a) (map fst rs) (buf a))))%result.

(** Selections that lie on the axes they select from. *)
Definition in_range (sh : list nat) (sels : list (list nat)) : Prop :=
  Forall2 (fun n sel => Forall (fun i => (i < n)%nat) sel) sh sels.

(** [len(a)]: the extent of the first axis; a 0-d array is unsized. *)
Definition nd_len (a : ndarray) : result nat :=
  match shape a with
  | [] => Raise TypeError
  | n :: _ => Ok n
  end.

(** [a.squeeze()]: drop every axis of extent 1. *)
Definition squeeze (a : ndarray) : ndarray :=
  NdArray (filter (fun n => negb (n =? 1)%nat) (shape a)) (buf a).

(** [a.reshape(sh)]: same elements, new shape of the same size. *)
Definition reshape (a : ndarray) (sh : list nat) : result ndarray :=
  if (prod sh =? prod (shape a))%nat then Ok (NdArray sh (buf a))
  else Raise ValueError.

(** Element at a full multi-index, [None] outside the array. *)
Fixpoint get_at (sh : list nat) (ix : list nat) (b : list float) : option float :=
  match sh, ix with
  | [], [] => nth_error b 0
  | n :: sh', i :: ix' =>
      if (i <? n)%nat then get_at sh' ix' (chunk (prod sh') i b) else None
  | _, _ => None
  end.

Definition nd_get (a : ndarray) (ix : list nat) : option float :=
  get_at (shape a) ix (buf a).

(** [a.flatten()]: the elements as one axis. *)
Definition flatten (a : ndarray) : ndarray :=
  NdArray [prod (shape a)] (buf a).

(** Nested sequences, the result of [a.tolist()]. *)
Inductive pylist : Type :=
| PyNum (x : float)
| PyList (l : list pylist).

Fixpoint tolist_at (sh : list nat) (b : list float) : pylist :=
  match sh with
  | [] => match b with x :: _ => PyNum x | [] => PyList [] end
  | n :: sh' => PyList (map (fun i => tolist_at sh' (chunk (prod sh') i b)) (seq 0 n))
  end.

Definition tolist (a : ndarray) : pylist := tolist_at (shape a) (buf a).

(** [p[i0][i1]...]: the number at a position of nested sequences. *)
Fixpoint py_get (ix : list nat) (p : pylist) : option float :=
  match ix, p with
  | [], PyNum x => Some x
  | i :: ix', PyList l =>
      match nth_error l i with
      | Some q => py_get ix' q
      | None => None
      end
  | _, _ => None
  end.

(** The builtin [max] over the elements of a sequence: the first element,
    replaced by each later one that compares greater; an empty sequence
    is a [ValueError]. *)
Fixpoint max_from (m : float) (l : list float) : float :=
  match l with
  | [] => m
  | x :: l' => max_from (if PrimFloat.ltb m x then x else m) l'
  end.

Definition py_max (l : list float) : result float :=
  match l with
  | [] => Raise ValueError
  | x :: l' => Ok (max_from x l')
  end.

(** The builtin [min], likewise. *)
Fixpoint min_from (m : float) (l : list float) : float :=
  match l with
  | [] => m
  | x :: l' => min_from (if PrimFloat.ltb x m then x else m) l'
  end.

Definition py_min (l : list float) : result float :=
  match l with
  | [] => Raise ValueError
  | x :: l' => Ok (min_from x l')
  end.

(** ** Python numbers and numpy's numeric routines *)

(** The double nearest to a natural number below [2^63], ties to even. *)
Definition float_of_uint (a : Z) : float := PrimFloat.of_uint63 (Uint63.of_Z a).

(** A Python integer as a double, as in [n * x] for a float [x]: the
    nearest double, ties to even (above [2^63] through the leading 63 bits
    and a sticky bit); an integer beyond the doubles is an
    [OverflowError]. *)
Definition float_of_int (z : Z) : result float :=
  let a := Z.abs z in
  let sign (f : float) := if z <? 0 then PrimFloat.opp f else f in
  if a <? 2 ^ 63 then Ok (sign (float_of_uint a))
  else
    let k := Z.log2 a - 62 in
    let sticky := if Z.land a (Z.ones k) =? 0 then 0 else 1 in
    let f := FloatOps.Z.ldexp (float_of_uint (Z.lor (Z.shiftr a k) sticky)) k in
    if PrimFloat.is_infinity f then Raise OverflowError else Ok (sign f).

(** The builtin [min(a, b)]: [b] when it compares less, else [a]. *)
Definition py_min2 (a b : float) : float := min_from a [b].

(** numpy's routines, which are not part of this repository, after their
    documentation, in double precision. *)
Module numpy.

(** The length [arange] computes from a quotient: its ceiling as a signed
    64-bit integer; a NaN or an out-of-range quotient has none. *)
Definition ceil_to_intp (x : float) : result Z :=
  match FloatOps.Prim2SF x with
  | SpecFloat.S754_nan => Raise ValueError
  | SpecFloat.S754_infinity _ => Raise OverflowError
  | SpecFloat.S754_zero _ => Ok 0
  | SpecFloat.S754_finite s m e =>
      let num := if s then Z.neg m else Z.pos m in
      let c := if 0 <=? e then num * 2 ^ e else - ((- num) / 2 ^ (- e)) in
      if (- 2 ^ 63 <=? c) && (c <? 2 ^ 63) then Ok c else Raise OverflowError
  end.

(** Element [i] of [arange(start, stop, step)]: the first two are [start]
    and [start + step], the others are filled in as
    [start + i * ((start + step) - start)]. *)
Definition arange_item (start step : float) (i : nat) : float :=
  match i with
  | 0%nat => start
  | 1%nat => (start + step)%float
  | _ => (start + float_of_uint (Z.of_nat i) * ((start + step) - start))%float
  end.

(** [numpy.arange(start, stop, step)] on Python floats:
    [ceil((stop - start) / step)] elements, none when that is not
    positive; a zero step fails in the division. *)
Definition arange (start stop step : float) : result (list float) :=
  if (step =? 0)%float then Raise ZeroDivisionError
  else
    (n <- ceil_to_intp ((stop - start) / step) ;;
     Ok (map (arange_item start step) (seq 0 (Z.to_nat n))))%result.


(** The number of elements, as a double. *)
Definition size (a : ndarray) : float := float_of_uint (Z.of_nat (prod (shape a))).







End numpy.



(** ** The time series object, its backing store and the method monad *)

(** Modelled from the spec: the backing store interface
    ([get_data_shape(name)], [get_data(name, slice_spec)]) of the storage
    layer, which is not part of this module.  The array stored under a name
    either exists, and is then read with numpy's indexing, or every request
    for it raises. *)
Inductive Storage : Type :=
| Stored (a : ndarray)
| Unreadable (e : exn).

(** The attributes of a [TimeSeriesFramework] instance that the methods
    read or assign; [undeclared] holds what is assigned under any other
    name, newest first. *)
Record TimeSeries : Type := MkTimeSeries {
  store : Storage;
  sample_period : float;
  start_time : float;
  nr_dimensions : Z;
  sample_rate : float;
  length_1d : Z;
  length_2d : Z;
  length_3d : Z;
  length_4d : Z;
  undeclared : list (string * Z)
}.

(** What a method does to its collaborators, in order. *)
Inductive event : Type :=
| GetDataShape (name : string)
| GetData (name : string) (data_slice : list indexer)
| LoggerException (msg : string).

Record state : Type := MkState {
  self : TimeSeries;
  trace : list event
}.

(** A method body: it reads and assigns attributes, talks to the store and
    returns or raises; assignments made before an exception persist. *)
Definition M (A : Type) : Type := state -> result A * state.

Definition ret {A} (a : A) : M A := fun s => (Ok a, s).

Definition raise {A} (e : exn) : M A := fun s => (Raise e, s).

Definition bind {A B} (m : M A) (f : A -> M B) : M B :=
  fun s =>
    match m s with
    | (Ok a, s') => f a s'
    | (Raise e, s') => (Raise e, s')
    end.

Definition lift {A} (r : result A) : M A := fun s => (r, s).

(** [try: m except ...: h e]. *)
Definition try_except {A} (m : M A) (h : exn -> M A) : M A :=
  fun s =>
    match m s with
    | (Raise e, s') => h e s'
    | r => r
    end.

Declare Scope method_scope.
Delimit Scope method_scope with method.
Notation "x <- m ;; k" := (bind m (fun x => k))
  (at level 100, m at next level, right associativity) : method_scope.
Notation "m ;; k" := (bind m (fun _ => k))
  (at level 100, right associativity) : method_scope.

Definition getattr {A} (f : TimeSeries -> A) : M A :=
  fun s => (Ok (f (self s)), s).

Definition modify (f : TimeSeries -> TimeSeries) : M unit :=
  fun s => (Ok tt, MkState (f (self s)) (trace s)).

Definition emit (e : event) : M unit :=
  fun s => (Ok tt, MkState (self s) (trace s ++ [e])).

(** [for x in l: body x]. *)
Fixpoint for_each {A} (l : list A) (body : A -> M unit) : M unit :=
  match l with
  | [] => ret tt
  | x :: l' => (body x ;; for_each l' body)%method
  end.

(** A method that assigns no attribute of the instance. *)
Definition keeps_instance {A} (m : M A) : Prop :=
  forall s, self (snd (m s)) = self s.

(** Python's short-circuit [a or b]. *)
Definition por (a : bool) (b : M bool) : M bool :=
  if a then ret true else b.

Definition set_nr_dimensions (v : Z) (o : TimeSeries) : TimeSeries :=
  MkTimeSeries (store o) (sample_period o) (start_time o) v (sample_rate o)
               (length_1d o) (length_2d o) (length_3d o) (length_4d o)
               (undeclared o).

Definition set_sample_rate (v : float) (o : TimeSeries) : TimeSeries :=
  MkTimeSeries (store o) (sample_period o) (start_time o) (nr_dimensions o) v
               (length_1d o) (length_2d o) (length_3d o) (length_4d o)
               (undeclared o).

Definition set_length_1d (v : Z) (o : TimeSeries) : TimeSeries :=
  MkTimeSeries (store o) (sample_period o) (start_time o) (nr_dimensions o)
               (sample_rate o) v (length_2d o) (length_3d o) (length_4d o)
               (undeclared o).

Definition set_length_2d (v : Z) (o : TimeSeries) : TimeSeries :=
  MkTimeSeries (store o) (sample_period o) (start_time o) (nr_dimensions o)
               (sample_rate o) (length_1d o) v (length_3d o) (length_4d o)
               (undeclared o).

Definition set_length_3d (v : Z) (o : TimeSeries) : TimeSeries :=
  MkTimeSeries (store o) (sample_period o) (start_time o) (nr_dimensions o)
               (sample_rate o) (length_1d o) (length_2d o) v (length_4d o)
               (undeclared o).

Definition set_length_4d (v : Z) (o : TimeSeries) : TimeSeries :=
  MkTimeSeries (store o) (sample_period o) (start_time o) (nr_dimensions o)
               (sample_rate o) (length_1d o) (length_2d o) (length_3d o) v
               (undeclared o).

Definition set_undeclared (name : string) (v : Z) (o : TimeSeries) : TimeSeries :=
  MkTimeSeries (store o) (sample_period o) (start_time o) (nr_dimensions o)
               (sample_rate o) (length_1d o) (length_2d o) (length_3d o) (length_4d o)
               ((name, v) :: undeclared o).

(** [setattr(self, name, v)], the name being computed as in [configure]:
    one of the per-axis length attributes, or else a name the class does
    not declare, which Python adds to the instance. *)
Definition setattr (name : string) (v : Z) : M unit :=
  if String.eqb name "length_1d" then modify (set_length_1d v)
  else if String.eqb name "length_2d" then modify (set_length_2d v)
  else if String.eqb name "length_3d" then modify (set_length_3d v)
  else if String.eqb name "length_4d" then modify (set_length_4d v)
  else modify (set_undeclared name v).

(** [self.get_data_shape(name)] of the storage layer. *)
Definition get_data_shape (name : string) : M (list nat) :=
  (emit (GetDataShape name) ;;
   st <- getattr store ;;
   match st with
   | Stored a => ret (shape a)
   | Unreadable e => raise e
   end)%method.

(** [self.get_data(name, data_slice)] of the storage layer. *)
Definition get_data (name : string) (data_slice : list indexer) : M ndarray :=
  (emit (GetData name data_slice) ;;
   st <- getattr store ;;
   match st with
   | Stored a => lift (nd_getitem a data_slice)
   | Unreadable e => raise e
   end)%method.

(** [self.logger.exception(msg)]. *)
Definition logger_exception (msg : string) : M unit :=
  emit (LoggerException msg).

(** Python's float division: a zero divisor raises. *)
Definition float_div (x y : float) : result float :=
  if PrimFloat.eqb y 0%float then Raise ZeroDivisionError
  else Ok (PrimFloat.div x y).

(** The values [json.loads] yields on the texts these methods receive:
    [null] or an array of integers. *)
Inductive json : Type :=
| JNull
| JArray (l : list Z).

(** Truth value of a decoded selection: [None] and [[]] are false. *)
Definition json_true (j : json) : bool :=
  match j with
  | JArray (_ :: _) => true
  | _ => false
  end.

(** [tuple(channels_list)] when the decoded list is true, else
    [slice(None)]. *)
Definition channel_indexer (channels_list : json) : indexer :=
  match channels_list with
  | JArray l => if json_true channels_list then ISeq l else ISlice slice_all
  | JNull => ISlice slice_all
  end.

(** The [specific_slices] argument: a serialized text or a sequence. *)
Inductive slices_arg : Type :=
| SlicesText (s : string)
| SlicesList (l : list Z).

(** ** TimeSeriesFramework *)

(** The methods take their index arguments after the [int(...)]
    conversions that open each body, and an absent optional argument as
    [None]. *)

Section TimeSeriesFramework.

(** [json.loads] of the standard library. *)
Variable json_loads : string -> result json.

(** [TimeSeriesData.configure], the inherited part of [configure]. *)
Variable super_configure : M unit.

(** [read_data_shape]: the shape of ['data']; a [TVBException] from the
    store is logged and replaced by the domain-specific one. *)
Definition read_data_shape : M (list nat) :=
  try_except (get_data_shape "data")
    (fun e =>
       if is_TVBException e
       then (logger_exception "Could not read data shape for TS!" ;;
             raise (TVBException "Invalid empty TimeSeries!"))%method
       else raise e).

Definition read_data_slice (data_slice : list indexer) : M ndarray :=
  get_data "data" data_slice.

(** [configure]: derive the shape-dependent attributes. *)
Definition configure : M unit :=
  (super_configure ;;
   data_shape <- read_data_shape ;;
   modify (set_nr_dimensions (Z.of_nat (length data_shape))) ;;
   period <- getattr sample_period ;;
   rate <- lift (float_div 1%float period) ;;
   modify (set_sample_rate rate) ;;
   dims <- getattr nr_dimensions ;;
   for_each (xrange (Z.min dims 4))
     (fun i =>
        n <- lift (getitem data_shape (Z.to_nat i)) ;;
        setattr ("length_" ++ str_of_int (i + 1) ++ "d") (Z.of_nat n)))%method.

(** The slice [read_data_page] builds for axis [i]. *)
Definition page_slice (from_idx to_idx step : Z) (specific_slices : option (list Z))
           (overall_shape : list nat) (i : nat) : result slice :=
  if (i =? 0)%nat then
    (n0 <- getitem overall_shape 0 ;;
     Ok (Slice (Some from_idx) (Some (Z.min to_idx (Z.of_nat n0))) (Some step)))%result
  else if (i =? 2)%nat then
    (n <- getitem overall_shape i ;;
     Ok (slice_to (Z.of_nat n)))%result
  else
    match specific_slices with
    | None => Ok (Slice (Some 0) (Some 1) None)
    | Some l =>
        (k <- getitem l i ;;
         n <- getitem overall_shape i ;;
         Ok (Slice (Some k) (Some (Z.min (k + 1) (Z.of_nat n))) (Some 1)))%result
    end.

(** [specific_slices] once a textual form has been decoded. *)
Definition decode_slices (specific_slices : option slices_arg)
  : result (option (list Z)) :=
  match specific_slices with
  | Some (SlicesText s) =>
      (j <- json_loads s ;;
       Ok (match j with JNull => None | JArray l => Some l end))%result
  | Some (SlicesList l) => Ok (Some l)
  | None => Ok None
  end.

(** The decoded [channels_list]: a false value is not decoded. *)
Definition decode_channels (channels_list : option string) : result json :=
  match channels_list with
  | None => Ok JNull
  | Some EmptyString => Ok JNull
  | Some s => json_loads s
  end.

(** The slice of axis [i] in closed form, for an axis the shape and
    [specific_slices] both reach. *)
Definition axis_slice (from_idx to_idx step : Z) (specific_slices : option (list Z))
           (overall_shape : list nat) (i : nat) : slice :=
  if (i =? 0)%nat then
    Slice (Some from_idx)
          (Some (Z.min to_idx (Z.of_nat (nth 0%nat overall_shape 0%nat)))) (Some step)
  else if (i =? 2)%nat then slice_to (Z.of_nat (nth i overall_shape 0%nat))
  else match specific_slices with
       | None => Slice (Some 0) (Some 1) None
       | Some l =>
           Slice (Some (nth i l 0))
                 (Some (Z.min (nth i l 0 + 1) (Z.of_nat (nth i overall_shape 0%nat))))
                 (Some 1)
       end.

(** The post-processing of [read_data_page]: a single time step is
    squeezed and put back as a row, anything else is squeezed. *)
Definition squeeze_page (data : ndarray) : result ndarray :=
  (n <- nd_len data ;;
   if (n =? 1)%nat then
     let data := squeeze data in
     n' <- nd_len data ;;
     reshape data [1%nat; n']
   else
     Ok (squeeze data))%result.

(** [read_data_page]: one page of data, paged over time. *)
Definition read_data_page (from_idx to_idx : Z) (step : option Z)
           (specific_slices : option slices_arg) : M ndarray :=
  (specific_slices <- lift (decode_slices specific_slices) ;;
   let step := match step with None => 1 | Some k => k end in
   overall_shape <- read_data_shape ;;
   slices <- lift (mapM (page_slice from_idx to_idx step specific_slices overall_shape)
                        (seq 0 (length overall_shape))) ;;
   data <- read_data_slice (map ISlice slices) ;;
   lift (squeeze_page data))%method.

(** [read_channels_page]: the data page restricted to a list of channels. *)
Definition read_channels_page (from_idx to_idx : Z) (step : option Z)
           (specific_slices : option slices_arg) (channels_list : option string)
  : M ndarray :=
  (channels_list <- lift (decode_channels channels_list) ;;
   let channel_slice := channel_indexer channels_list in
   data_page <- read_data_page from_idx to_idx step specific_slices ;;
   if (length (shape data_page) =? 1)%nat then
     n <- lift (getitem (shape data_page) 0) ;;
     lift (reshape data_page [n; 1%nat])
   else
     lift (nd_getitem data_page [ISlice slice_all; channel_slice]))%method.

End TimeSeriesFramework.

(** [read_time_page]: the time stamps of one page. *)
Definition read_time_page (current_page page_size : Z) (max_size : option Z)
  : M (list float) :=
  (let max_size := match max_size with None => page_size | Some m => m end in
   period <- getattr sample_period ;;
   size <- lift (float_of_int page_size) ;;
   let page_real_size := (size * period)%float in
   origin <- getattr start_time ;;
   page <- lift (float_of_int current_page) ;;
   let start_time := (origin + page * page_real_size)%float in
   limit <- lift (float_of_int max_size) ;;
   let end_time := (start_time + py_min2 page_real_size (limit * period))%float in
   lift (numpy.arange start_time end_time period))%method.

(** The position [read_data_page] reads on an axis other than the time
    axis and axis 2: [specific_slices[i]], or [0] without
    [specific_slices]. *)
Definition page_position (specific_slices : option (list Z)) (i : nat) : nat :=
  Z.to_nat (match specific_slices with None => 0 | Some l => nth i l 0 end).

(** [list(enumerate(l))]. *)
Definition enumerate {A} (l : list A) : list (Z * A) :=
  combine (xrange (Z.of_nat (length l))) l.

(** [TimeSeriesFramework.get_space_labels]: a label per point of the third
    dimension. *)
Definition get_space_labels (o : TimeSeries) : list string :=
  if nr_dimensions o >? 2
  then map (fun i => ("signal-" ++ str_of_int i)%string) (xrange (length_3d o))
  else [].

(** The methods below call [self.get_space_labels()], which a subclass may
    override: they take the method of the instance's class. *)
Definition get_grouped_space_labels {Self} (labels_of : Self -> list string) (o : Self)
  : list (string * list (Z * string)) :=
  [(EmptyString, enumerate (labels_of o))].

Definition get_default_selection {Self} (labels_of : Self -> list string) (o : Self)
  : list Z :=
  xrange (Z.of_nat (length (labels_of o))).

Definition get_measure_points_selection_gid {Self} (o : Self) : string :=
  EmptyString.

(** ** TimeSeriesSensorsFramework *)

Module TimeSeriesSensorsFramework.

(** Modelled from the spec: the sensor object of the label source
    interface, exposing [labels] and [gid]. *)
Record Sensors : Type := MkSensors {
  labels : list string;
  gid : string
}.

(** A sensors series: the series and its [sensors] attribute. *)
Record Series : Type := MkSeries {
  series : TimeSeries;
  sensors : option Sensors
}.

Definition get_space_labels (o : Series) : list string :=
  match sensors o with
  | Some sn => labels sn
  | None => []
  end.

Definition get_measure_points_selection_gid (o : Series) : string :=
  match sensors o with
  | Some sn => gid sn
  | None => EmptyString
  end.

(** Only the first 8 channels are selected. *)
Definition get_default_selection (o : Series) : list Z :=
  match sensors o with
  | Some _ => xrange (Z.min 8 (Z.of_nat (length (get_space_labels o))))
  | None => []
  end.

End TimeSeriesSensorsFramework.

(** ** TimeSeriesSurfaceFramework *)

Module TimeSeriesSurfaceFramework.

Definition SELECTION_LIMIT : Z := 100.

(** Labels of the first [SELECTION_LIMIT] vertices. *)
Definition get_space_labels (o : TimeSeries) : list string :=
  map (fun i => ("signal-" ++ str_of_int i)%string)
      (xrange (Z.min (length_3d o) SELECTION_LIMIT)).

End TimeSeriesSurfaceFramework.

(** ** TimeSeriesVolumeFramework *)

Module TimeSeriesVolumeFramework.

(** [from_idx > to_idx or to_idx > overall_shape[0] or from_idx < 0]. *)
Definition bad_time_indexes (from_idx to_idx : Z) (overall_shape : list nat) : M bool :=
  por (from_idx >? to_idx)
      (n0 <- lift (getitem overall_shape 0) ;;
       por (to_idx >? Z.of_nat n0) (ret (from_idx <? 0)))%method.

(** [x > overall_shape[1] or y > overall_shape[2] or z > overall_shape[3]]. *)
Definition bad_coordinates (x y z : Z) (overall_shape : list nat) : M bool :=
  (n1 <- lift (getitem overall_shape 1) ;;
   por (x >? Z.of_nat n1)
       (n2 <- lift (getitem overall_shape 2) ;;
        por (y >? Z.of_nat n2)
            (n3 <- lift (getitem overall_shape 3) ;;
             ret (z >? Z.of_nat n3))))%method.

(** The index [(slice(from_idx, to_idx), slice(shape[1]), slice(shape[2]),
    slice(shape[3]))] of a sub-volume. *)
Definition volume_slices (from_idx to_idx : Z) (overall_shape : list nat)
  : result (list indexer) :=
  (n1 <- getitem overall_shape 1 ;;
   n2 <- getitem overall_shape 2 ;;
   n3 <- getitem overall_shape 3 ;;
   Ok [ISlice (Slice (Some from_idx) (Some to_idx) None);
       ISlice (slice_to (Z.of_nat n1));
       ISlice (slice_to (Z.of_nat n2));
       ISlice (slice_to (Z.of_nat n3))])%result.

(** [a[..., ::-1]]. *)
Definition reverse_last : list indexer :=
  [IEllipsis; ISlice (Slice None None (Some (-1)))].

Definition get_rotated_volume_slice (from_idx to_idx : Z) : M ndarray :=
  (overall_shape <- read_data_shape ;;
   bad <- bad_time_indexes from_idx to_idx overall_shape ;;
   if bad then
     raise (ValidationException
              ("Bad time indexes: From " ++ str_of_int from_idx
               ++ " to " ++ str_of_int to_idx))
   else
     slices <- lift (volume_slices from_idx to_idx overall_shape) ;;
     slices <- read_data_slice slices ;;
     lift (nd_getitem slices reverse_last))%method.

(** The three cross-sections [get_volume_view] cuts out of a rotated
    sub-volume: [slices[..., z_plane]], [slices[:, x_plane, ...]] and
    [slices[..., y_plane, :]], each as nested lists. *)
Definition cross_sections (slices : ndarray) (x_plane y_plane z_plane : Z)
  : result (list pylist) :=
  (slicex <- nd_getitem slices [IEllipsis; IInt z_plane] ;;
   slicey <- nd_getitem slices [ISlice slice_all; IInt x_plane; IEllipsis] ;;
   slicez <- nd_getitem slices [IEllipsis; IInt y_plane; ISlice slice_all] ;;
   Ok [tolist slicex; tolist slicey; tolist slicez])%result.

Definition get_volume_view (from_idx to_idx x_plane y_plane z_plane : Z)
  : M (list pylist) :=
  (overall_shape <- read_data_shape ;;
   bad <- bad_time_indexes from_idx to_idx overall_shape ;;
   if bad then
     raise (ValidationException
              ("Time indexes out of boundaries: from " ++ str_of_int from_idx
               ++ " to " ++ str_of_int to_idx))
   else
     bad <- bad_coordinates x_plane y_plane z_plane overall_shape ;;
     if bad then
       raise (ValidationException
                ("Coordinates out of boundaries: " ++ str_of_int x_plane ++ ", "
                 ++ str_of_int y_plane ++ ", " ++ str_of_int z_plane))
     else
       slices <- lift (volume_slices from_idx to_idx overall_shape) ;;
       slices <- read_data_slice slices ;;
       slices <- lift (nd_getitem slices reverse_last) ;;
       lift (cross_sections slices x_plane y_plane z_plane))%method.

(** The dictionary [get_voxel_time_series] returns. *)
Record voxel_series : Type := MkVoxelSeries {
  vs_data : pylist;
  vs_max : float;
  vs_min : float;
  vs_mean : float;
  vs_median : float;
  vs_variance : float;
  vs_deviation : float
}.

Section VoxelStatistics.

(** [numpy.mean], [numpy.median], [numpy.var] and [numpy.std]. *)
Variables numpy_mean numpy_median numpy_var numpy_std : ndarray -> float.

Definition get_voxel_time_series (x y z : Z) : M voxel_series :=
  (overall_shape <- read_data_shape ;;
   bad <- bad_coordinates x y z overall_shape ;;
   if bad then
     raise (ValidationException
              ("Coordinates out of boundaries: [x,y,z] = [" ++ str_of_int x ++ ", "
               ++ str_of_int y ++ ", " ++ str_of_int z ++ "]"))
   else
     n0 <- lift (getitem overall_shape 0) ;;
     n3 <- lift (getitem overall_shape 3) ;;
     slices <- read_data_slice [ISlice (slice_to (Z.of_nat n0));
                                ISlice (Slice (Some x) (Some (x + 1)) None);
                                ISlice (Slice (Some y) (Some (y + 1)) None);
                                ISlice (slice_to (Z.of_nat n3))] ;;
     slices <- lift (nd_getitem slices reverse_last) ;;
     slices <- lift (nd_getitem slices [IEllipsis; IInt z]) ;;
     let slices := flatten slices in
     hi <- lift (py_max (buf slices)) ;;
     lo <- lift (py_min (buf slices)) ;;
     ret (MkVoxelSeries (tolist slices) hi lo (numpy_mean slices)
                        (numpy_median slices) (numpy_var slices)
                        (numpy_std slices)))%method.

End VoxelStatistics.

End TimeSeriesVolumeFramework.

(** ** Sample objects *)

(** A decoder that reads no text, for requests that carry none. *)
Definition no_json (_ : string) : result json := Raise ValueError.

(** A decoder that knows the text of one channel list. *)
Definition one_channel_json (s : string) : result json :=
  if String.eqb s "[2]" then Ok (JArray [2]) else Raise ValueError.

(** A statistic that is not looked at. *)
Definition no_statistic (_ : ndarray) : float := 0%float.

(** An inherited [configure] that leaves the instance alone. *)
Definition plain_configure : M unit := ret tt.

(** Attribute [length_kd], for [k] from 1 to 4. *)
Definition length_nd (k : nat) (o : TimeSeries) : Z :=
  match k with
  | 1%nat => length_1d o
  | 2%nat => length_2d o
  | 3%nat => length_3d o
  | _ => length_4d o
  end.

(** A series over the stored array [a], before [configure]. *)
Definition series_of (a : ndarray) (period : float) : state :=
  MkState (MkTimeSeries (Stored a) period 0%float 0 0%float 0 0 0 0 []) [].

(** An array of the given shape holding [0, 1, 2, ...] in storage order. *)
Fixpoint ramp (k : nat) (x : float) : list float :=
  match k with
  | O => []
  | S k' => x :: ramp k' (x + 1)%float
  end.

Definition arange_array (sh : list nat) : ndarray := NdArray sh (ramp (prod sh) 0%float).

(** A configured surface series with 500 vertices. *)
Definition surface_500 : TimeSeries :=
  MkTimeSeries (Stored (arange_array [10; 1; 500]%nat)) 1%float 0%float
               3 1%float 10 1 500 0 [].

(** * Properties *)

Import TimeSeriesVolumeFramework.

(** ** Running method bodies *)

Lemma bind_ok {A B} (m : M A) (f : A -> M B) (s s' : state) (a : A) :
  m s = (Ok a, s') -> bind m f s = f a s'.
Proof. intros H. unfold bind. now rewrite H. Qed.

Lemma bind_raise {A B} (m : M A) (f : A -> M B) (s s' : state) (e : exn) :
  m s = (Raise e, s') -> bind m f s = (Raise e, s').
Proof. intros H. unfold bind. now rewrite H. Qed.

Lemma read_data_shape_stored (s : state) (a : ndarray) :
  store (self s) = Stored a ->
  read_data_shape s
  = (Ok (shape a), MkState (self s) (trace s ++ [GetDataShape "data"])).
Proof.
  intros H. unfold read_data_shape, try_except, get_data_shape, bind, emit, getattr.
  cbn. now rewrite H.
Qed.

Lemma read_data_shape_unreadable (s : state) (e : exn) :
  store (self s) = Unreadable e ->
  fst (read_data_shape s)
  = Raise (if is_TVBException e then TVBException "Invalid empty TimeSeries!" else e).
Proof.
  intros H. unfold read_data_shape, try_except, get_data_shape, bind, emit, getattr.
  cbn. rewrite H. cbn. now destruct (is_TVBException e).
Qed.

Lemma read_data_slice_stored (s : state) (a : ndarray) (ix : list indexer) :
  store (self s) = Stored a ->
  read_data_slice ix s
  = (nd_getitem a ix, MkState (self s) (trace s ++ [GetData "data" ix])).
Proof.
  intros H. unfold read_data_slice, get_data, bind, emit, getattr, lift.
  cbn. now rewrite H.
Qed.

(** ** Labels of a surface series *)

Lemma xrange_length (n : Z) : length (xrange n) = Z.to_nat n.
Proof. unfold xrange. now rewrite length_map, length_seq. Qed.

Lemma xrange_nth (n i : Z) :
  0 <= i < n -> nth_error (xrange n) (Z.to_nat i) = Some i.
Proof.
  intros H. unfold xrange.
  rewrite nth_error_map, nth_error_seq.
  destruct (Nat.ltb_spec (Z.to_nat i) (Z.to_nat n)); [|lia].
  cbn. f_equal. lia.
Qed.

(** C9: a surface series yields exactly [min(length_3d, 100)] labels,
    label [i] being ["signal-i"]; with [length_3d = 500] these are the 100
    labels ["signal-0"] to ["signal-99"]. *)
Theorem surface_space_labels_capped (o : TimeSeries) :
  0 <= length_3d o ->
  let labels := TimeSeriesSurfaceFramework.get_space_labels o in
  Z.of_nat (length labels) = Z.min (length_3d o) 100 /\
  (forall i, 0 <= i < Z.min (length_3d o) 100 ->
             nth_error labels (Z.to_nat i) = Some ("signal-" ++ str_of_int i)%string) /\
  (length_3d o = 500 ->
   labels = map (fun i => ("signal-" ++ str_of_int i)%string) (xrange 100) /\
   length labels = 100%nat /\
   hd_error labels = Some "signal-0"%string /\
   last labels ""%string = "signal-99"%string).
Proof.
  intros Hpos labels. subst labels.
  unfold TimeSeriesSurfaceFramework.get_space_labels,
    TimeSeriesSurfaceFramework.SELECTION_LIMIT.
  repeat split.
  - rewrite length_map, xrange_length. lia.
  - intros i Hi. rewrite nth_error_map, xrange_nth by assumption. reflexivity.
  - rewrite H. reflexivity.
  - rewrite H. reflexivity.
  - rewrite H. reflexivity.
  - rewrite H. vm_compute. reflexivity.
Qed.

Lemma surface_space_labels_capped_witness :
  length (TimeSeriesSurfaceFramework.get_space_labels surface_500) = 100%nat /\
  last (TimeSeriesSurfaceFramework.get_space_labels surface_500) ""%string
  = "signal-99"%string.
Proof.
  assert (Hpos : 0 <= length_3d surface_500) by (cbn; lia).
  destruct (surface_space_labels_capped surface_500 Hpos) as (_ & _ & H500).
  destruct (H500 eq_refl) as (_ & Hlen & _ & Hlast).
  split; assumption.
Defined.

(** ** Slices *)

Ltac triple_lia := apply f_equal; apply f_equal2; [apply f_equal2|]; lia.

Lemma map_offset_seq (k : nat) (s : Z) :
  0 <= s ->
  map (fun i => Z.to_nat (s + Z.of_nat i * 1)) (seq 0 k) = seq (Z.to_nat s) k.
Proof.
  revert s. induction k as [|k IH]; intros s Hs; [reflexivity|].
  cbn [seq map]. f_equal; [f_equal; lia|].
  rewrite <- seq_shift, map_map.
  replace (S (Z.to_nat s)) with (Z.to_nat (s + 1)) by lia.
  rewrite <- IH by lia.
  apply map_ext. intros i. f_equal. lia.
Qed.

Lemma slice_len_unit (start stop : Z) :
  slice_len start stop 1 = Z.to_nat (stop - start).
Proof.
  unfold slice_len. cbn [Z.ltb Z.compare].
  destruct (Z.ltb_spec start stop).
  - rewrite Z.div_1_r. lia.
  - lia.
Qed.

(** A slice with unit step selects a contiguous run. *)
Lemma slice_select_unit (s : slice) (n : nat) (start stop step : Z) :
  slice_indices s n = Ok (start, stop, step) -> step = 1 -> 0 <= start ->
  slice_select s n = Ok (seq (Z.to_nat start) (Z.to_nat (stop - start))).
Proof.
  intros H -> Hs. unfold slice_select. rewrite H. cbn [rbind].
  now rewrite slice_len_unit, map_offset_seq.
Qed.

Lemma slice_select_all (n : nat) : slice_select slice_all n = Ok (seq 0 n).
Proof.
  erewrite slice_select_unit; [| reflexivity | reflexivity | cbn; lia].
  cbn. f_equal. f_equal. lia.
Qed.

Lemma slice_select_to (n : nat) : slice_select (slice_to (Z.of_nat n)) n = Ok (seq 0 n).
Proof.
  assert (H : slice_indices (slice_to (Z.of_nat n)) n = Ok (0, Z.of_nat n, 1)).
  { unfold slice_indices. cbn.
    destruct (Z.ltb_spec (Z.of_nat n) 0); [lia|].
    triple_lia. }
  rewrite (slice_select_unit _ _ _ _ _ H) by lia.
  cbn [Z.to_nat]. now rewrite Z.sub_0_r, Nat2Z.id.
Qed.

Lemma slice_select_range (from_idx to_idx : Z) (n : nat) :
  0 <= from_idx <= to_idx -> to_idx <= Z.of_nat n ->
  slice_select (Slice (Some from_idx) (Some to_idx) None) n
  = Ok (seq (Z.to_nat from_idx) (Z.to_nat (to_idx - from_idx))).
Proof.
  intros Hf Ht.
  assert (H : slice_indices (Slice (Some from_idx) (Some to_idx) None) n
              = Ok (from_idx, to_idx, 1)).
  { unfold slice_indices. cbn.
    destruct (Z.ltb_spec from_idx 0); [lia|].
    destruct (Z.ltb_spec to_idx 0); [lia|].
    triple_lia. }
  now rewrite (slice_select_unit _ _ _ _ _ H) by lia.
Qed.

Lemma slice_select_single (k : Z) (n : nat) :
  0 <= k < Z.of_nat n ->
  slice_select (Slice (Some k) (Some (Z.min (k + 1) (Z.of_nat n))) (Some 1)) n
  = Ok [Z.to_nat k].
Proof.
  intros Hk.
  assert (H : slice_indices (Slice (Some k) (Some (Z.min (k + 1) (Z.of_nat n))) (Some 1)) n
              = Ok (k, k + 1, 1)).
  { unfold slice_indices. cbn.
    destruct (Z.ltb_spec k 0); [lia|].
    destruct (Z.ltb_spec (Z.min (k + 1) (Z.of_nat n)) 0); [lia|].
    triple_lia. }
  rewrite (slice_select_unit _ _ _ _ _ H) by lia.
  now replace (k + 1 - k) with 1 by lia.
Qed.

Lemma slice_select_first (n : nat) :
  (0 < n)%nat -> slice_select (Slice (Some 0) (Some 1) None) n = Ok [0%nat].
Proof.
  intros Hn.
  assert (H : slice_indices (Slice (Some 0) (Some 1) None) n = Ok (0, 1, 1)).
  { unfold slice_indices. cbn. triple_lia. }
  now rewrite (slice_select_unit _ _ _ _ _ H) by lia.
Qed.

Lemma slice_select_reversed (n : nat) :
  slice_select (Slice None None (Some (-1))) n = Ok (rev (seq 0 n)).
Proof.
  unfold slice_select, slice_indices. cbn [sl_step sl_start sl_stop rbind Z.eqb Z.ltb Z.compare].
  f_equal. unfold slice_len. cbn [Z.ltb Z.compare Z.opp].
  destruct (Z.ltb_spec (-1) (Z.of_nat n - 1)).
  - rewrite Z.div_1_r.
    match goal with |- map _ (seq 0 ?k) = _ => replace k with n by lia end.
    apply nth_error_ext. intros i.
    rewrite nth_error_map, nth_error_seq, nth_error_rev, length_seq, nth_error_seq.
    destruct (Nat.ltb_spec i n) as [Hi|Hi]; [|reflexivity].
    destruct (Nat.ltb_spec (n - S i) n); [|lia].
    cbn [option_map Nat.add]. f_equal. lia.
  - assert (n = 0%nat) by lia. subst n. reflexivity.
Qed.

(** What [slice_indices] guarantees about the adjusted bounds. *)
Lemma slice_indices_bounds (s : slice) (n : nat) (start stop step : Z) :
  slice_indices s n = Ok (start, stop, step) ->
  (0 < step /\ 0 <= start <= Z.of_nat n /\ 0 <= stop <= Z.of_nat n) \/
  (step < 0 /\ -1 <= start <= Z.of_nat n - 1 /\ -1 <= stop <= Z.of_nat n - 1).
Proof.
  unfold slice_indices. destruct s as [a b c]. cbn [sl_start sl_stop sl_step].
  set (k := match c with Some k => k | None => 1 end).
  destruct (Z.eqb_spec k 0); [discriminate|].
  intros H. injection H as <- <- <-.
  destruct (Z.ltb_spec k 0); [right|left]; (split; [lia|]);
    destruct a as [a|], b as [b|];
    repeat match goal with |- context [if ?x <? ?y then _ else _] => destruct (Z.ltb_spec x y) end;
    lia.
Qed.

Lemma slice_select_ok (s : slice) (n : nat) :
  sl_step s <> Some 0 -> exists sel, slice_select s n = Ok sel.
Proof.
  intros Hs. unfold slice_select, slice_indices.
  destruct (sl_step s) as [k|].
  - destruct (Z.eqb_spec k 0); [congruence|]. cbn. eauto.
  - cbn. eauto.
Qed.

(** Every position a slice selects lies on the axis. *)
Lemma slice_select_in_range (s : slice) (n : nat) (sel : list nat) :
  slice_select s n = Ok sel -> Forall (fun i => (i < n)%nat) sel.
Proof.
  unfold slice_select.
  destruct (slice_indices s n) as [[[start stop] step]|e] eqn:E; [|discriminate].
  cbn [rbind]. intros H. injection H as <-.
  apply slice_indices_bounds in E.
  apply Forall_forall. intros x Hx.
  apply in_map_iff in Hx. destruct Hx as (i & <- & Hi).
  apply in_seq in Hi. unfold slice_len in Hi.
  destruct E as [(Hstep & Hstart & Hstop)|(Hstep & Hstart & Hstop)].
  - destruct (Z.ltb_spec step 0); [lia|].
    destruct (Z.ltb_spec start stop); [|lia].
    assert (Hq : Z.of_nat i <= (stop - start - 1) / step).
    { assert (0 <= (stop - start - 1) / step) by (apply Z.div_pos; lia). lia. }
    assert (Hm : step * ((stop - start - 1) / step) <= stop - start - 1)
      by (apply Z.mul_div_le; lia).
    nia.
  - destruct (Z.ltb_spec step 0); [|lia].
    destruct (Z.ltb_spec stop start); [|lia].
    assert (Hq : Z.of_nat i <= (start - stop - 1) / (- step)).
    { assert (0 <= (start - stop - 1) / (- step)) by (apply Z.div_pos; lia). lia. }
    assert (Hm : (- step) * ((start - stop - 1) / (- step)) <= start - stop - 1)
      by (apply Z.mul_div_le; lia).
    nia.
Qed.

(** ** Shape resolution and [configure] *)

Lemma setattr_length (k : nat) (v : Z) :
  (k < 4)%nat ->
  setattr ("length_" ++ str_of_int (Z.of_nat k + 1) ++ "d") v
  = modify (match k with
            | 0%nat => set_length_1d v
            | 1%nat => set_length_2d v
            | 2%nat => set_length_3d v
            | _ => set_length_4d v
            end).
Proof.
  intros Hk.
  destruct k as [|[|[|[|k]]]]; [reflexivity | reflexivity | reflexivity | reflexivity | lia].
Qed.

Lemma length_nd_set_nr_dimensions k v o : length_nd k (set_nr_dimensions v o) = length_nd k o.
Proof. now destruct k as [|[|[|[|k]]]]. Qed.

Lemma length_nd_set_sample_rate k v o : length_nd k (set_sample_rate v o) = length_nd k o.
Proof. now destruct k as [|[|[|[|k]]]]. Qed.

(** [read_data_shape] when the store raises something that is not a
    [TVBException]: the exception passes through, and nothing is logged. *)
Lemma read_data_shape_passes (s : state) (e : exn) :
  store (self s) = Unreadable e -> is_TVBException e = false ->
  read_data_shape s = (Raise e, MkState (self s) (trace s ++ [GetDataShape "data"])).
Proof.
  intros H He. unfold read_data_shape, try_except, get_data_shape, bind, emit, getattr.
  cbn. rewrite H. cbn. now rewrite He.
Qed.

(** [read_data_shape] when the store raises a [TVBException]. *)
Lemma read_data_shape_replaced (s : state) (e : exn) :
  store (self s) = Unreadable e -> is_TVBException e = true ->
  read_data_shape s
  = (Raise (TVBException "Invalid empty TimeSeries!"),
     MkState (self s)
             (trace s ++ [GetDataShape "data";
                          LoggerException "Could not read data shape for TS!"])).
Proof.
  intros H He. unfold read_data_shape, try_except, get_data_shape, bind, emit, getattr.
  cbn. rewrite H. cbn. rewrite He. cbn. now rewrite <- app_assoc.
Qed.

(** An empty stored array is no failure: [read_data_shape] returns its
    shape, whose extent is 0 and not a positive integer, and [configure]
    succeeds with [length_1d = 0]; and an exception of the store that is
    not a [TVBException] is not replaced by the domain-specific one. *)
Lemma read_data_shape_empty_array :
  fst (read_data_shape (series_of (NdArray [0%nat] []) 1%float)) = Ok [0%nat] /\
  ~ Forall (fun n => (0 < n)%nat) [0%nat] /\
  (exists s2,
     configure plain_configure (series_of (NdArray [0%nat] []) 1%float) = (Ok tt, s2) /\
     nr_dimensions (self s2) = 1 /\ length_1d (self s2) = 0) /\
  fst (read_data_shape
         (MkState (MkTimeSeries (Unreadable ValueError) 1%float 0%float
                                0 0%float 0 0 0 0 []) []))
  = Raise ValueError.
Proof.
  split; [reflexivity|]. split.
  - intros H. inversion H as [|n l Hn _]; subst. lia.
  - split; [|reflexivity]. eexists. split; [reflexivity|]. split; reflexivity.
Qed.

(** C8, as amended: [read_data_shape] returns the shape the store
    reports, one extent per axis, for every stored array, an empty one
    included; it raises the domain-specific
    [TVBException "Invalid empty TimeSeries!"] (the spec's
    InvalidTimeSeriesError), after logging, exactly when the shape request
    of the store raises a [TVBException], and lets any other exception of
    the store through unchanged; [configure] asks for the shape exactly
    once, sets [nr_dimensions] to its length, [sample_rate] to
    [1 / sample_period] and [length_(i+1)d] to [shape[i]] for every
    [i < min(nr_dimensions, 4)], and assigns nothing else: the lengths
    beyond the rank, the attributes it reads and the names the class does
    not declare stay as the inherited [configure] left them. *)
Theorem configure_derives_shape_fields
        (super_configure : M unit) (s s1 : state) (a : ndarray) :
  super_configure s = (Ok tt, s1) ->
  store (self s1) = Stored a ->
  PrimFloat.eqb (sample_period (self s1)) 0 = false ->
  read_data_shape s1
  = (Ok (shape a), MkState (self s1) (trace s1 ++ [GetDataShape "data"])) /\
  (forall s' e, store (self s') = Unreadable e ->
     read_data_shape s'
     = if is_TVBException e
       then (Raise (TVBException "Invalid empty TimeSeries!"),
             MkState (self s')
                     (trace s' ++ [GetDataShape "data";
                                   LoggerException "Could not read data shape for TS!"]))
       else (Raise e, MkState (self s') (trace s' ++ [GetDataShape "data"]))) /\
  (forall s', fst (read_data_shape s') = Raise (TVBException "Invalid empty TimeSeries!")
              <-> exists e, store (self s') = Unreadable e /\ is_TVBException e = true) /\
  exists s2,
    configure super_configure s = (Ok tt, s2) /\
    trace s2 = trace s1 ++ [GetDataShape "data"] /\
    nr_dimensions (self s2) = Z.of_nat (length (shape a)) /\
    sample_rate (self s2) = (1 / sample_period (self s1))%float /\
    (forall i n, (i < 4)%nat -> nth_error (shape a) i = Some n ->
                 length_nd (S i) (self s2) = Z.of_nat n) /\
    (forall i, (i < 4)%nat -> (length (shape a) <= i)%nat ->
               length_nd (S i) (self s2) = length_nd (S i) (self s1)) /\
    undeclared (self s2) = undeclared (self s1) /\
    store (self s2) = store (self s1) /\
    sample_period (self s2) = sample_period (self s1) /\
    start_time (self s2) = start_time (self s1).
Proof.
  intros Hsuper Hstore Hperiod.
  split; [now apply read_data_shape_stored|].
  split.
  { intros s' e Hs'. destruct (is_TVBException e) eqn:He.
    - now apply (read_data_shape_replaced s' e).
    - now apply (read_data_shape_passes s' e). }
  split.
  { intros s'. split.
    - intros H. destruct (store (self s')) as [a'|e] eqn:Hs'.
      + rewrite (read_data_shape_stored _ _ Hs') in H. discriminate.
      + exists e. split; [reflexivity|].
        rewrite (read_data_shape_unreadable _ _ Hs') in H.
        destruct (is_TVBException e) eqn:He; [reflexivity|].
        injection H as ->. discriminate.
    - intros (e & Hs' & He). now rewrite (read_data_shape_replaced _ _ Hs' He). }
  unfold configure.
  rewrite (bind_ok _ _ _ _ _ Hsuper).
  rewrite (bind_ok _ _ _ _ _ (read_data_shape_stored _ _ Hstore)).
  unfold bind at 1. unfold modify at 1. cbn [self trace].
  unfold bind at 1. unfold getattr at 1. cbn [self trace sample_period set_nr_dimensions].
  unfold bind at 1. unfold lift at 1, float_div. rewrite Hperiod.
  unfold bind at 1. unfold modify at 1. cbn [self trace].
  unfold bind at 1. unfold getattr at 1.
  cbn [self trace nr_dimensions set_nr_dimensions set_sample_rate].
  destruct s1 as [o tr]. cbn [self trace] in *.
  destruct a as [sh b]. cbn [shape] in *.
  destruct sh as [|n0 [|n1 [|n2 [|n3 rest]]]].
  5: replace (Z.min (Z.of_nat (length (n0 :: n1 :: n2 :: n3 :: rest))) 4) with 4
      by (cbn [length]; lia).
  all: cbn [length Z.of_nat Z.min Z.compare Pos.of_succ_nat Pos.succ Pos.compare Pos.compare_cont].
  all: match goal with |- context [xrange ?k] =>
         let l := eval vm_compute in (xrange k) in change (xrange k) with l end.
  all: cbn [for_each].
  all: repeat (unfold bind at 1; unfold lift at 1; cbn [getitem nth_error Z.to_nat Pos.to_nat Pos.iter_op Nat.add];
               match goal with |- context [setattr ?n ?v] =>
                 let t := eval vm_compute in n in change n with t end;
               unfold setattr at 1; cbn [String.eqb Ascii.eqb Bool.eqb]; unfold modify at 1; cbn [self trace]).
  all: unfold ret.
  all: eexists; split; [reflexivity|]; cbn [self trace].
  all: repeat split; try reflexivity.
  all: intros i; intros;
    destruct i as [|[|[|[|i]]]]; cbn [nth_error length] in *; try lia;
    try discriminate;
    repeat match goal with H : Some _ = Some _ |- _ => injection H as <- end;
    reflexivity.
Qed.

Lemma configure_derives_shape_fields_witness :
  exists s2,
    configure plain_configure (series_of (arange_array [100; 10; 10; 5; 2]%nat) 0.5%float)
    = (Ok tt, s2) /\
    trace s2 = [GetDataShape "data"] /\
    nr_dimensions (self s2) = 5 /\
    sample_rate (self s2) = 2%float /\
    length_1d (self s2) = 100 /\ length_2d (self s2) = 10 /\
    length_3d (self s2) = 10 /\ length_4d (self s2) = 5 /\
    undeclared (self s2) = [].
Proof.
  destruct (configure_derives_shape_fields plain_configure
              (series_of (arange_array [100; 10; 10; 5; 2]%nat) 0.5%float)
              (series_of (arange_array [100; 10; 10; 5; 2]%nat) 0.5%float)
              (arange_array [100; 10; 10; 5; 2]%nat) eq_refl eq_refl eq_refl)
    as (_ & _ & _ & s2 & Hrun & Htrace & Hdims & Hrate & Hlen & _ & Hund & _).
  exists s2. repeat split.
  - exact Hrun.
  - exact Htrace.
  - exact Hdims.
  - exact Hrate.
  - exact (Hlen 0%nat 100%nat ltac:(lia) eq_refl).
  - exact (Hlen 1%nat 10%nat ltac:(lia) eq_refl).
  - exact (Hlen 2%nat 10%nat ltac:(lia) eq_refl).
  - exact (Hlen 3%nat 5%nat ltac:(lia) eq_refl).
  - exact Hund.
Defined.

(** ** The slices of a data page *)

Lemma mapM_ok {A B} (f : A -> result B) (g : A -> B) (l : list A) :
  (forall x, In x l -> f x = Ok (g x)) -> mapM f l = Ok (map g l).
Proof.
  induction l as [|x l IH]; intros H; [reflexivity|].
  cbn [mapM map]. rewrite (H x (or_introl eq_refl)). cbn [rbind].
  rewrite IH by (intros y Hy; apply H; now right). reflexivity.
Qed.

Lemma getitem_nth {A} (l : list A) (i : nat) (d : A) :
  (i < length l)%nat -> getitem l i = Ok (nth i l d).
Proof.
  intros H. unfold getitem.
  now rewrite (nth_error_nth' l d H).
Qed.

(** [read_data_page] as a function of the stored array: the shape is
    requested, then the slices, and the page is post-processed. *)
Lemma read_data_page_stored (json_loads : string -> result json) (s : state)
      (a : ndarray) (from_idx to_idx : Z) (step : option Z)
      (arg : option slices_arg) (ss : option (list Z)) (slices : list slice) :
  store (self s) = Stored a ->
  decode_slices json_loads arg = Ok ss ->
  mapM (page_slice from_idx to_idx (match step with None => 1 | Some k => k end)
                   ss (shape a))
       (seq 0 (length (shape a))) = Ok slices ->
  read_data_page json_loads from_idx to_idx step arg s
  = ((data <- nd_getitem a (map ISlice slices) ;; squeeze_page data)%result,
     MkState (self s)
             (trace s ++ [GetDataShape "data"; GetData "data" (map ISlice slices)])).
Proof.
  intros Hstore Hdec Hmap. unfold read_data_page.
  unfold bind at 1. unfold lift at 1. rewrite Hdec.
  rewrite (bind_ok _ _ _ _ _ (read_data_shape_stored _ _ Hstore)).
  unfold bind at 1. unfold lift at 1. rewrite Hmap.
  unfold bind. rewrite (read_data_slice_stored _ a) by exact Hstore.
  cbn [self trace]. rewrite <- app_assoc. cbn [app].
  unfold lift. destruct (nd_getitem a (map ISlice slices)); reflexivity.
Qed.

(** A single-index slice whose index lies past the end of its axis selects
    nothing: the clamped upper bound makes it no error. *)
Lemma slice_select_past_end (k : Z) (n : nat) :
  Z.of_nat n <= k ->
  slice_select (Slice (Some k) (Some (Z.min (k + 1) (Z.of_nat n))) (Some 1)) n = Ok [].
Proof.
  intros Hk.
  assert (H : slice_indices (Slice (Some k) (Some (Z.min (k + 1) (Z.of_nat n))) (Some 1)) n
              = Ok (Z.of_nat n, Z.of_nat n, 1)).
  { unfold slice_indices. cbn.
    destruct (Z.ltb_spec k 0); [lia|].
    destruct (Z.ltb_spec (Z.min (k + 1) (Z.of_nat n)) 0); [lia|].
    triple_lia. }
  rewrite (slice_select_unit _ _ _ _ _ H) by lia.
  now rewrite Z.sub_diag.
Qed.

(** What [specific_slices] holds once [read_data_page] has decoded it, read
    off the argument: a list as it is, a text through [json.loads]. *)
Lemma decode_slices_given (json_loads : string -> result json)
      (arg : option slices_arg) (given : option (list Z)) :
  match arg with
  | None => given = None
  | Some (SlicesList l) => given = Some l
  | Some (SlicesText t) =>
      json_loads t = Ok (match given with None => JNull | Some l => JArray l end)
  end ->
  decode_slices json_loads arg = Ok given.
Proof.
  destruct arg as [[t|l]|]; cbn [decode_slices].
  - intros ->. cbn [rbind]. now destruct given.
  - now intros ->.
  - now intros ->.
Qed.

(** C3: [read_data_page] hands the store one slice per axis.  The time
    axis gets [from_idx : min(to_idx, shape[0]) : step]: a request that
    reaches past the end is the request that stops at the extent, and with
    a non-zero step the slice selects positions of the axis and is no
    error.  Axis 2 gets [slice(shape[2])], the whole axis, whatever
    [specific_slices] says.  Every other axis gets [0:1] when
    [specific_slices] is absent (or a text that decodes to [null]) and
    [k : min(k + 1, shape[i]) : 1] for [k = specific_slices[i]] when it is
    a list (or a text that decodes to one): that slice selects position
    [k] alone when [k] lies on the axis, and nothing, without an error,
    when [k] lies past its end. *)
Theorem read_data_page_slices (json_loads : string -> result json) (s : state)
        (a : ndarray) (from_idx to_idx : Z) (step : option Z)
        (arg : option slices_arg) (given : option (list Z)) :
  store (self s) = Stored a ->
  match arg with
  | None => given = None
  | Some (SlicesList l) => given = Some l
  | Some (SlicesText t) =>
      json_loads t = Ok (match given with None => JNull | Some l => JArray l end)
  end ->
  (forall l i, given = Some l -> (0 < i < ndim a)%nat -> i <> 2%nat -> (i < length l)%nat) ->
  exists slices,
    trace (snd (read_data_page json_loads from_idx to_idx step arg s))
    = trace s ++ [GetDataShape "data"; GetData "data" (map ISlice slices)] /\
    length slices = ndim a /\
    (forall n0, nth_error (shape a) 0 = Some n0 ->
       nth_error slices 0
       = Some (Slice (Some from_idx) (Some (Z.min to_idx (Z.of_nat n0)))
                     (Some (match step with None => 1 | Some k => k end))) /\
       (Z.of_nat n0 <= to_idx ->
        nth_error slices 0
        = Some (Slice (Some from_idx) (Some (Z.of_nat n0))
                      (Some (match step with None => 1 | Some k => k end)))) /\
       (step <> Some 0 ->
        exists sel,
          slice_select (Slice (Some from_idx) (Some (Z.min to_idx (Z.of_nat n0)))
                              (Some (match step with None => 1 | Some k => k end))) n0
          = Ok sel /\
          Forall (fun t => (t < n0)%nat) sel)) /\
    (forall n2, nth_error (shape a) 2 = Some n2 ->
       nth_error slices 2 = Some (slice_to (Z.of_nat n2)) /\
       slice_select (slice_to (Z.of_nat n2)) n2 = Ok (seq 0 n2)) /\
    (forall i n, i <> 0%nat -> i <> 2%nat -> nth_error (shape a) i = Some n ->
       match given with
       | None => nth_error slices i = Some (Slice (Some 0) (Some 1) None)
       | Some l =>
           exists k, nth_error l i = Some k /\
             nth_error slices i
             = Some (Slice (Some k) (Some (Z.min (k + 1) (Z.of_nat n))) (Some 1)) /\
             (0 <= k < Z.of_nat n ->
              slice_select (Slice (Some k) (Some (Z.min (k + 1) (Z.of_nat n))) (Some 1)) n
              = Ok [Z.to_nat k]) /\
             (Z.of_nat n <= k ->
              slice_select (Slice (Some k) (Some (Z.min (k + 1) (Z.of_nat n))) (Some 1)) n
              = Ok [])
       end).
Proof.
  intros Hstore Hgiven Hss.
  pose proof (decode_slices_given json_loads arg given Hgiven) as Hdec.
  set (st := match step with None => 1 | Some k => k end).
  set (expected := fun i : nat =>
         if (i =? 0)%nat then
           Slice (Some from_idx) (Some (Z.min to_idx (Z.of_nat (nth 0%nat (shape a) 0%nat)))) (Some st)
         else if (i =? 2)%nat then slice_to (Z.of_nat (nth i (shape a) 0%nat))
         else match given with
              | None => Slice (Some 0) (Some 1) None
              | Some l => Slice (Some (nth i l 0))
                                (Some (Z.min (nth i l 0 + 1) (Z.of_nat (nth i (shape a) 0%nat))))
                                (Some 1)
              end).
  assert (Hmap : mapM (page_slice from_idx to_idx st given (shape a))
                      (seq 0 (length (shape a)))
                 = Ok (map expected (seq 0 (length (shape a))))).
  { apply mapM_ok. intros i Hi. apply in_seq in Hi.
    unfold page_slice, expected.
    destruct (Nat.eqb_spec i 0) as [->|H0].
    - now rewrite (getitem_nth _ _ 0%nat) by lia.
    - destruct (Nat.eqb_spec i 2) as [->|H2].
      + now rewrite (getitem_nth _ _ 0%nat) by lia.
      + destruct given as [l|]; [|reflexivity].
        rewrite (getitem_nth l i 0) by (apply (Hss l i eq_refl); unfold ndim; lia).
        now rewrite (getitem_nth _ _ 0%nat) by lia. }
  exists (map expected (seq 0 (length (shape a)))).
  assert (Hnth : forall i n, nth_error (shape a) i = Some n ->
                   nth_error (map expected (seq 0 (length (shape a)))) i = Some (expected i)
                   /\ nth i (shape a) 0%nat = n /\ (i < length (shape a))%nat).
  { intros i n Hi.
    assert (Hlt : (i < length (shape a))%nat) by (apply nth_error_Some; congruence).
    rewrite nth_error_map, nth_error_seq.
    destruct (Nat.ltb_spec i (length (shape a))); [|lia].
    repeat split; [|lia]. now apply nth_error_nth. }
  split; [|split; [|split; [|split]]].
  - rewrite (read_data_page_stored _ _ _ _ _ _ _ _ _ Hstore Hdec Hmap). reflexivity.
  - now rewrite length_map, length_seq.
  - intros n0 H0. destruct (Hnth _ _ H0) as (-> & <- & _).
    change (expected 0%nat)
      with (Slice (Some from_idx)
                  (Some (Z.min to_idx (Z.of_nat (nth 0%nat (shape a) 0%nat)))) (Some st)).
    split; [reflexivity|]. split.
    + intros Hlong. now rewrite Z.min_r by exact Hlong.
    + intros Hstep.
      destruct (slice_select_ok
                  (Slice (Some from_idx)
                         (Some (Z.min to_idx (Z.of_nat (nth 0%nat (shape a) 0%nat))))
                         (Some st)) (nth 0%nat (shape a) 0%nat)) as (sel & Hsel).
      { cbn. subst st. destruct step as [k|]; congruence. }
      exists sel. split; [exact Hsel|]. now apply (slice_select_in_range _ _ _ Hsel).
  - intros n2 H2. destruct (Hnth _ _ H2) as (-> & <- & _).
    split; [reflexivity | apply slice_select_to].
  - intros i n H0 H2 Hi. destruct (Hnth _ _ Hi) as (Hs & Hn & Hlt).
    unfold expected in Hs.
    destruct (Nat.eqb_spec i 0); [contradiction|].
    destruct (Nat.eqb_spec i 2); [contradiction|].
    destruct given as [l|]; [|exact Hs].
    exists (nth i l 0). rewrite Hn in Hs. split; [|split; [|split]].
    + apply nth_error_nth'. apply (Hss l i eq_refl); unfold ndim; lia.
    + exact Hs.
    + apply slice_select_single.
    + apply slice_select_past_end.
Qed.

Lemma read_data_page_slices_witness :
  trace (snd (read_data_page no_json 1 50 (Some 2) (Some (SlicesList [0; 1; 0; 5]))
                             (series_of (arange_array [10; 2; 3; 2]%nat) 1%float)))
  = [GetDataShape "data";
     GetData "data" [ISlice (Slice (Some 1) (Some 10) (Some 2));
                     ISlice (Slice (Some 1) (Some 2) (Some 1));
                     ISlice (Slice None (Some 3) None);
                     ISlice (Slice (Some 5) (Some 2) (Some 1))]].
Proof.
  destruct (read_data_page_slices no_json
              (series_of (arange_array [10; 2; 3; 2]%nat) 1%float)
              (arange_array [10; 2; 3; 2]%nat) 1 50 (Some 2)
              (Some (SlicesList [0; 1; 0; 5])) (Some [0; 1; 0; 5]) eq_refl eq_refl)
    as (slices & Htrace & Hlen & Htime & Hspace & Hother).
  - intros l i Hl Hi _. injection Hl as <-. cbn in *. lia.
  - rewrite Htrace.
    destruct slices as [|s0 [|s1 [|s2 [|s3 [|s4 slices]]]]]; try discriminate Hlen.
    destruct (Htime 10%nat eq_refl) as (H0 & _).
    destruct (Hspace 3%nat eq_refl) as (H2 & _).
    destruct (Hother 1%nat 2%nat ltac:(discriminate) ltac:(discriminate) eq_refl)
      as (k1 & Hk1 & H1 & _).
    destruct (Hother 3%nat 2%nat ltac:(discriminate) ltac:(discriminate) eq_refl)
      as (k3 & Hk3 & H3 & _).
    cbn in H0, H1, H2, H3, Hk1, Hk3.
    injection Hk1 as <-. injection Hk3 as <-.
    injection H0 as ->. injection H1 as ->. injection H2 as ->. injection H3 as ->.
    reflexivity.
Defined.

(** ** Arrays: blocks, gathering and element access *)

Lemma chunk_length (P n i : nat) (b : list float) :
  length b = (n * P)%nat -> (i < n)%nat -> length (chunk P i b) = P.
Proof.
  intros Hb Hi. unfold chunk. rewrite length_firstn, length_skipn, Hb. nia.
Qed.

Lemma flat_map_length_uniform {A} (G : A -> list float) (l : list A) (P : nat) :
  (forall x, In x l -> length (G x) = P) ->
  length (flat_map G l) = (length l * P)%nat.
Proof.
  induction l as [|x l IH]; intros H; [reflexivity|].
  cbn [flat_map length]. rewrite length_app, (H x (or_introl eq_refl)).
  rewrite IH by (intros y Hy; apply H; now right). lia.
Qed.

(** The [j]-th block of a concatenation of equally long blocks. *)
Lemma flat_map_chunk {A} (G : A -> list float) (l : list A) (P j : nat) (d : A) :
  (forall x, In x l -> length (G x) = P) -> (j < length l)%nat ->
  chunk P j (flat_map G l) = G (nth j l d).
Proof.
  revert j. induction l as [|x l IH]; intros j H Hj; [cbn in Hj; lia|].
  assert (Hx : length (G x) = P) by (apply H; now left).
  cbn [flat_map]. destruct j as [|j].
  - unfold chunk. cbn [Nat.mul skipn nth].
    rewrite firstn_app, Hx, Nat.sub_diag, firstn_O, app_nil_r.
    rewrite <- Hx. apply firstn_all.
  - cbn [nth]. rewrite <- (IH j) by (try (intros y Hy; apply H; now right); cbn in Hj; lia).
    unfold chunk. f_equal.
    replace (S j * P)%nat with (length (G x) + j * P)%nat by (rewrite Hx; lia).
    now rewrite skipn_app, skipn_all2, Nat.add_comm, Nat.add_sub by lia.
Qed.

Lemma gather_length (sh : list nat) (sels : list (list nat)) (b : list float) :
  in_range sh sels -> length b = prod sh ->
  length (gather sh sels b) = prod (map (@length nat) sels).
Proof.
  intros H. revert b. induction H as [|n sel sh sels Hsel Hrest IH]; intros b Hb.
  - exact Hb.
  - cbn [gather map prod fold_right].
    apply flat_map_length_uniform. intros i Hi.
    apply IH. apply (chunk_length _ n); [exact Hb|].
    rewrite Forall_forall in Hsel. now apply Hsel.
Qed.

(** Element [j] of a gathered array is the element of the source at the
    positions the selections hold at [j]. *)
Lemma gather_get (sh : list nat) (sels : list (list nat)) (b : list float) (j : list nat) :
  in_range sh sels -> length b = prod sh ->
  Forall2 (fun sel k => (k < length sel)%nat) sels j ->
  get_at (map (@length nat) sels) j (gather sh sels b)
  = get_at sh (map (fun p => nth (snd p) (fst p) 0%nat) (combine sels j)) b.
Proof.
  intros H. revert b j. induction H as [|n sel sh sels Hsel Hrest IH]; intros b j Hb Hj.
  - inversion Hj; subst. reflexivity.
  - inversion Hj as [|sel' k sels' j' Hk Hj']; subst.
    cbn [map combine fst snd get_at gather].
    assert (Hn : (nth k sel 0 < n)%nat).
    { rewrite Forall_forall in Hsel. apply Hsel. now apply nth_In. }
    destruct (Nat.ltb_spec k (length sel)); [|lia].
    destruct (Nat.ltb_spec (nth k sel 0%nat) n); [|lia].
    rewrite (flat_map_chunk _ _ _ _ 0%nat).
    + apply IH; [|exact Hj']. now apply (chunk_length _ n).
    + intros i Hi. apply gather_length; [exact Hrest|].
      apply (chunk_length _ n); [exact Hb|].
      rewrite Forall_forall in Hsel. now apply Hsel.
    + exact Hk.
Qed.

(** ** Sub-volumes of a 4-D series *)

(** Indexing a 4-D array with one slice per axis. *)
Lemma nd_getitem_slices4 (n0 n1 n2 n3 : nat) (b : list float)
      (s0 s1 s2 s3 : slice) (l0 l1 l2 l3 : list nat) :
  slice_select s0 n0 = Ok l0 -> slice_select s1 n1 = Ok l1 ->
  slice_select s2 n2 = Ok l2 -> slice_select s3 n3 = Ok l3 ->
  nd_getitem (NdArray [n0; n1; n2; n3] b) [ISlice s0; ISlice s1; ISlice s2; ISlice s3]
  = Ok (NdArray (map (@length nat) [l0; l1; l2; l3])
                (gather [n0; n1; n2; n3] [l0; l1; l2; l3] b)).
Proof.
  intros H0 H1 H2 H3. unfold nd_getitem, expand_index.
  cbn [ndim shape buf length filter is_ellipsis Nat.sub Nat.ltb Nat.leb orb expand repeat
       rbind resolve_all resolve].
  rewrite H0, H1, H2, H3. reflexivity.
Qed.

(** [a[..., ::-1]] on a 4-D array. *)
Lemma nd_getitem_reverse_last4 (n0 n1 n2 n3 : nat) (b : list float) :
  nd_getitem (NdArray [n0; n1; n2; n3] b) reverse_last
  = Ok (NdArray (map (@length nat) [seq 0 n0; seq 0 n1; seq 0 n2; rev (seq 0 n3)])
                (gather [n0; n1; n2; n3] [seq 0 n0; seq 0 n1; seq 0 n2; rev (seq 0 n3)] b)).
Proof.
  unfold nd_getitem, expand_index, reverse_last.
  cbn [ndim shape buf length filter is_ellipsis Nat.sub Nat.ltb Nat.leb orb expand repeat app
       rbind resolve_all resolve].
  rewrite !slice_select_all, slice_select_reversed. reflexivity.
Qed.

Lemma seq_in_range (start len n : nat) :
  (start + len <= n)%nat -> Forall (fun i => (i < n)%nat) (seq start len).
Proof. intros H. apply Forall_forall. intros i Hi. apply in_seq in Hi. lia. Qed.

Lemma rev_seq_in_range (n : nat) : Forall (fun i => (i < n)%nat) (rev (seq 0 n)).
Proof. apply Forall_rev, seq_in_range. lia. Qed.

Lemma nth_rev_seq (n k : nat) : (k < n)%nat -> nth k (rev (seq 0 n)) 0%nat = (n - 1 - k)%nat.
Proof.
  intros H. rewrite rev_nth by (rewrite length_seq; lia).
  rewrite length_seq, seq_nth by lia. lia.
Qed.

(** The time bounds a volume query must satisfy. *)
Lemma bad_time_indexes_spec (from_idx to_idx : Z) (n0 : nat) (rest : list nat) (s : state) :
  bad_time_indexes from_idx to_idx (n0 :: rest) s
  = (Ok ((from_idx >? to_idx) || (to_idx >? Z.of_nat n0) || (from_idx <? 0)), s).
Proof.
  unfold bad_time_indexes, por, bind, lift, ret. cbn [getitem nth_error].
  destruct (from_idx >? to_idx); [reflexivity|].
  destruct (to_idx >? Z.of_nat n0); reflexivity.
Qed.

Lemma bad_time_false (from_idx to_idx : Z) (n0 : nat) :
  (from_idx >? to_idx) || (to_idx >? Z.of_nat n0) || (from_idx <? 0) = false
  <-> 0 <= from_idx <= to_idx /\ to_idx <= Z.of_nat n0.
Proof.
  rewrite !orb_false_iff, !Z.gtb_ltb, !Z.ltb_ge. lia.
Qed.

(** [get_rotated_volume_slice] on a stored 4-D array with valid bounds. *)
Lemma get_rotated_volume_slice_run (s : state) (n0 n1 n2 n3 : nat) (b : list float)
      (from_idx to_idx : Z) :
  store (self s) = Stored (NdArray [n0; n1; n2; n3] b) ->
  0 <= from_idx <= to_idx -> to_idx <= Z.of_nat n0 ->
  let l0 := seq (Z.to_nat from_idx) (Z.to_nat (to_idx - from_idx)) in
  let sels := [l0; seq 0 n1; seq 0 n2; seq 0 n3] in
  let r1 := NdArray (map (@length nat) sels) (gather [n0; n1; n2; n3] sels b) in
  get_rotated_volume_slice from_idx to_idx s
  = ((r <- Ok r1 ;; nd_getitem r reverse_last)%result,
     MkState (self s)
       (trace s ++ [GetDataShape "data";
                    GetData "data" [ISlice (Slice (Some from_idx) (Some to_idx) None);
                                    ISlice (slice_to (Z.of_nat n1));
                                    ISlice (slice_to (Z.of_nat n2));
                                    ISlice (slice_to (Z.of_nat n3))]])).
Proof.
  intros Hstore Hft Ht l0 sels r1. unfold get_rotated_volume_slice.
  rewrite (bind_ok _ _ _ _ _ (read_data_shape_stored _ _ Hstore)). cbn [shape].
  rewrite (bind_ok _ _ _ _ _ (bad_time_indexes_spec _ _ _ _ _)).
  replace ((from_idx >? to_idx) || (to_idx >? Z.of_nat n0) || (from_idx <? 0)) with false
    by (symmetry; apply bad_time_false; lia).
  unfold bind at 1. unfold lift at 1, volume_slices. cbn [getitem nth_error rbind].
  unfold bind. erewrite read_data_slice_stored by exact Hstore. cbn [self trace].
  rewrite <- app_assoc. cbn [app].
  rewrite (nd_getitem_slices4 _ _ _ _ _ _ _ _ _ _ _ _ _
             (slice_select_range _ _ _ Hft Ht) (slice_select_to n1)
             (slice_select_to n2) (slice_select_to n3)).
  reflexivity.
Qed.

(** An index inside a well-formed array has an element. *)
Lemma get_at_in_bounds (sh ix : list nat) (b : list float) :
  length b = prod sh -> Forall2 (fun i n => (i < n)%nat) ix sh ->
  exists x, get_at sh ix b = Some x.
Proof.
  intros Hb H. revert b Hb. induction H as [|i n ix sh Hi Hrest IH]; intros b Hb.
  - cbn in *. destruct b as [|x b]; [discriminate|]. now exists x.
  - cbn [get_at]. destruct (Nat.ltb_spec i n); [|lia].
    apply IH. now apply (chunk_length _ n).
Qed.

(** C5: with [0 <= from_idx <= to_idx <= shape[0]] on a 4-D series,
    [get_rotated_volume_slice] returns the sub-volume
    [from_idx:to_idx, :, :, :] with its last axis reversed:
    [result[t, i, j, k] = raw[from_idx + t, i, j, shape[3] - 1 - k]]. *)
Theorem get_rotated_volume_slice_reverses_depth
        (s : state) (a : ndarray) (n0 n1 n2 n3 : nat) (from_idx to_idx : Z) :
  store (self s) = Stored a -> wf a -> shape a = [n0; n1; n2; n3] ->
  0 <= from_idx <= to_idx -> to_idx <= Z.of_nat n0 ->
  exists r,
    fst (get_rotated_volume_slice from_idx to_idx s) = Ok r /\
    shape r = [Z.to_nat (to_idx - from_idx); n1; n2; n3] /\
    wf r /\
    forall t i j k,
      (t < Z.to_nat (to_idx - from_idx))%nat -> (i < n1)%nat -> (j < n2)%nat ->
      (k < n3)%nat ->
      nd_get r [t; i; j; k]
      = nd_get a [(Z.to_nat from_idx + t)%nat; i; j; (n3 - 1 - k)%nat] /\
      nd_get r [t; i; j; k] <> None.
Proof.
  intros Hstore Hwf Hshape Hft Ht.
  destruct a as [sh b]. unfold wf in Hwf. cbn [shape buf] in *. subst sh.
  set (F := Z.to_nat from_idx). set (L := Z.to_nat (to_idx - from_idx)).
  set (sels1 := [seq F L; seq 0 n1; seq 0 n2; seq 0 n3]).
  set (sels2 := [seq 0 L; seq 0 n1; seq 0 n2; rev (seq 0 n3)]).
  assert (E1 : map (@length nat) sels1 = [L; n1; n2; n3])
    by (cbn; now rewrite !length_seq).
  assert (E2 : map (@length nat) sels2 = [L; n1; n2; n3])
    by (cbn; now rewrite length_rev, !length_seq).
  assert (R1 : in_range [n0; n1; n2; n3] sels1).
  { repeat constructor; apply seq_in_range; unfold F, L; lia. }
  assert (R2 : in_range [L; n1; n2; n3] sels2).
  { repeat constructor; try (apply seq_in_range; lia). apply rev_seq_in_range. }
  set (b1 := gather [n0; n1; n2; n3] sels1 b).
  assert (W1 : length b1 = prod [L; n1; n2; n3]).
  { unfold b1. rewrite <- E1. now apply gather_length. }
  rewrite (get_rotated_volume_slice_run _ _ _ _ _ _ _ _ Hstore Hft Ht).
  cbn [fst rbind]. fold F L sels1 b1. rewrite E1, nd_getitem_reverse_last4. fold sels2.
  eexists. split; [reflexivity|]. cbn [shape buf]. split; [exact E2|].
  split.
  { unfold wf. cbn [shape buf]. now apply gather_length. }
  intros t i j k Ht' Hi Hj Hk. unfold nd_get. cbn [shape buf].
  assert (Hget : get_at (map (@length nat) sels2) [t; i; j; k]
                        (gather [L; n1; n2; n3] sels2 b1)
                 = get_at [n0; n1; n2; n3] [(F + t)%nat; i; j; (n3 - 1 - k)%nat] b).
  { rewrite gather_get; [|exact R2|exact W1|].
    2: { unfold sels2. repeat constructor; rewrite ?length_rev, length_seq; lia. }
    unfold sels2. cbn [combine map fst snd].
    rewrite !seq_nth, nth_rev_seq by lia. cbn [Nat.add].
    rewrite <- E1. unfold b1. rewrite gather_get; [|exact R1|exact Hwf|].
    2: { unfold sels1. repeat constructor; rewrite length_seq; lia. }
    unfold sels1. cbn [combine map fst snd].
    now rewrite !seq_nth by lia. }
  split; [exact Hget|].
  rewrite Hget.
  destruct (get_at_in_bounds [n0; n1; n2; n3] [(F + t)%nat; i; j; (n3 - 1 - k)%nat] b Hwf)
    as (x & Hx).
  { repeat constructor; unfold F, L in *; lia. }
  rewrite Hx. discriminate.
Qed.

Lemma get_rotated_volume_slice_reverses_depth_witness :
  exists r,
    fst (get_rotated_volume_slice 1 3 (series_of (arange_array [4; 2; 2; 3]%nat) 1%float))
    = Ok r /\
    shape r = [2; 2; 2; 3]%nat /\
    nd_get r [0; 1; 0; 0]%nat = nd_get (arange_array [4; 2; 2; 3]%nat) [1; 1; 0; 2]%nat.
Proof.
  destruct (get_rotated_volume_slice_reverses_depth
              (series_of (arange_array [4; 2; 2; 3]%nat) 1%float)
              (arange_array [4; 2; 2; 3]%nat) 4 2 2 3 1 3
              eq_refl eq_refl eq_refl ltac:(lia) ltac:(lia))
    as (r & Hrun & Hshape & _ & Hget).
  exists r. split; [exact Hrun|]. split; [exact Hshape|].
  exact (proj1 (Hget 0%nat 1%nat 0%nat 0%nat ltac:(cbn; lia) ltac:(lia) ltac:(lia) ltac:(lia))).
Defined.

Example get_rotated_volume_slice_example :
  fst (get_rotated_volume_slice 0 1 (series_of (arange_array [2; 1; 2; 3]%nat) 1%float))
  = Ok (NdArray [1; 1; 2; 3]%nat [2; 1; 0; 5; 4; 3]%float).
Proof. reflexivity. Qed.

(** ** Bounds validation of the volume queries *)

Lemma bad_coordinates_spec (x y z : Z) (n0 n1 n2 n3 : nat) (rest : list nat) (s : state) :
  bad_coordinates x y z (n0 :: n1 :: n2 :: n3 :: rest) s
  = (Ok ((x >? Z.of_nat n1) || (y >? Z.of_nat n2) || (z >? Z.of_nat n3)), s).
Proof.
  unfold bad_coordinates, por, bind, lift, ret. cbn [getitem nth_error].
  destruct (x >? Z.of_nat n1); [reflexivity|].
  destruct (y >? Z.of_nat n2); reflexivity.
Qed.

Lemma bad_coordinates_false (x y z : Z) (n1 n2 n3 : nat) :
  (x >? Z.of_nat n1) || (y >? Z.of_nat n2) || (z >? Z.of_nat n3) = false
  <-> x <= Z.of_nat n1 /\ y <= Z.of_nat n2 /\ z <= Z.of_nat n3.
Proof.
  rewrite !orb_false_iff, !Z.gtb_ltb, !Z.ltb_ge. lia.
Qed.

Lemma normalize_index_cases (i : Z) (n : nat) :
  (- Z.of_nat n <= i < Z.of_nat n /\ exists k, normalize_index i n = Ok k /\ (k < n)%nat) \/
  ((i < - Z.of_nat n \/ Z.of_nat n <= i) /\ normalize_index i n = Raise IndexError).
Proof.
  unfold normalize_index.
  destruct (Z.ltb_spec i (- Z.of_nat n)); [right; split; [lia | reflexivity]|].
  destruct (Z.leb_spec (Z.of_nat n) i); [right; split; [lia | reflexivity]|].
  left. split; [lia|]. cbn [orb]. eexists. split; [reflexivity|].
  destruct (Z.ltb_spec i 0); lia.
Qed.

(** [get_volume_view] on a stored 4-D array, once validation has passed. *)
Lemma get_volume_view_run (s : state) (n0 n1 n2 n3 : nat) (b : list float)
      (from_idx to_idx x y z : Z) :
  store (self s) = Stored (NdArray [n0; n1; n2; n3] b) ->
  0 <= from_idx <= to_idx -> to_idx <= Z.of_nat n0 ->
  x <= Z.of_nat n1 -> y <= Z.of_nat n2 -> z <= Z.of_nat n3 ->
  let l0 := seq (Z.to_nat from_idx) (Z.to_nat (to_idx - from_idx)) in
  let sels := [l0; seq 0 n1; seq 0 n2; seq 0 n3] in
  let r1 := NdArray (map (@length nat) sels) (gather [n0; n1; n2; n3] sels b) in
  get_volume_view from_idx to_idx x y z s
  = ((r <- nd_getitem r1 reverse_last ;; cross_sections r x y z)%result,
     MkState (self s)
       (trace s ++ [GetDataShape "data";
                    GetData "data" [ISlice (Slice (Some from_idx) (Some to_idx) None);
                                    ISlice (slice_to (Z.of_nat n1));
                                    ISlice (slice_to (Z.of_nat n2));
                                    ISlice (slice_to (Z.of_nat n3))]])).
Proof.
  intros Hstore Hft Ht Hx Hy Hz l0 sels r1. unfold get_volume_view.
  rewrite (bind_ok _ _ _ _ _ (read_data_shape_stored _ _ Hstore)). cbn [shape].
  rewrite (bind_ok _ _ _ _ _ (bad_time_indexes_spec _ _ _ _ _)).
  replace ((from_idx >? to_idx) || (to_idx >? Z.of_nat n0) || (from_idx <? 0)) with false
    by (symmetry; apply bad_time_false; lia).
  rewrite (bind_ok _ _ _ _ _ (bad_coordinates_spec _ _ _ _ _ _ _ _ _)).
  replace ((x >? Z.of_nat n1) || (y >? Z.of_nat n2) || (z >? Z.of_nat n3)) with false
    by (symmetry; apply bad_coordinates_false; lia).
  unfold bind at 1. unfold lift at 1, volume_slices. cbn [getitem nth_error rbind].
  unfold bind at 1. erewrite read_data_slice_stored by exact Hstore. cbn [self trace].
  rewrite <- app_assoc. cbn [app].
  rewrite (nd_getitem_slices4 _ _ _ _ _ _ _ _ _ _ _ _ _
             (slice_select_range _ _ _ Hft Ht) (slice_select_to n1)
             (slice_select_to n2) (slice_select_to n3)).
  fold l0 sels r1. unfold bind, lift.
  destruct (nd_getitem r1 reverse_last) as [r|e]; reflexivity.
Qed.

(** A volume query with bad time bounds is refused. *)
Lemma get_rotated_volume_slice_refused (s : state) (a : ndarray) (n0 : nat)
      (rest : list nat) (from_idx to_idx : Z) :
  store (self s) = Stored a -> shape a = n0 :: rest ->
  from_idx < 0 \/ from_idx > to_idx \/ to_idx > Z.of_nat n0 ->
  fst (get_rotated_volume_slice from_idx to_idx s)
  = Raise (ValidationException
             ("Bad time indexes: From " ++ str_of_int from_idx
              ++ " to " ++ str_of_int to_idx)).
Proof.
  intros Hstore Hshape Hbad. unfold get_rotated_volume_slice.
  rewrite (bind_ok _ _ _ _ _ (read_data_shape_stored _ _ Hstore)). rewrite Hshape.
  rewrite (bind_ok _ _ _ _ _ (bad_time_indexes_spec _ _ _ _ _)).
  destruct ((from_idx >? to_idx) || (to_idx >? Z.of_nat n0) || (from_idx <? 0)) eqn:E;
    [reflexivity|].
  apply bad_time_false in E. lia.
Qed.

Lemma get_volume_view_refused_time (s : state) (a : ndarray) (n0 : nat)
      (rest : list nat) (from_idx to_idx x y z : Z) :
  store (self s) = Stored a -> shape a = n0 :: rest ->
  from_idx < 0 \/ from_idx > to_idx \/ to_idx > Z.of_nat n0 ->
  fst (get_volume_view from_idx to_idx x y z s)
  = Raise (ValidationException
             ("Time indexes out of boundaries: from " ++ str_of_int from_idx
              ++ " to " ++ str_of_int to_idx)).
Proof.
  intros Hstore Hshape Hbad. unfold get_volume_view.
  rewrite (bind_ok _ _ _ _ _ (read_data_shape_stored _ _ Hstore)). rewrite Hshape.
  rewrite (bind_ok _ _ _ _ _ (bad_time_indexes_spec _ _ _ _ _)).
  destruct ((from_idx >? to_idx) || (to_idx >? Z.of_nat n0) || (from_idx <? 0)) eqn:E;
    [reflexivity|].
  apply bad_time_false in E. lia.
Qed.

Lemma get_volume_view_refused_plane (s : state) (a : ndarray) (n0 n1 n2 n3 : nat)
      (rest : list nat) (from_idx to_idx x y z : Z) :
  store (self s) = Stored a -> shape a = n0 :: n1 :: n2 :: n3 :: rest ->
  0 <= from_idx <= to_idx -> to_idx <= Z.of_nat n0 ->
  x > Z.of_nat n1 \/ y > Z.of_nat n2 \/ z > Z.of_nat n3 ->
  fst (get_volume_view from_idx to_idx x y z s)
  = Raise (ValidationException
             ("Coordinates out of boundaries: " ++ str_of_int x ++ ", "
              ++ str_of_int y ++ ", " ++ str_of_int z)).
Proof.
  intros Hstore Hshape Hft Ht Hbad. unfold get_volume_view.
  rewrite (bind_ok _ _ _ _ _ (read_data_shape_stored _ _ Hstore)). rewrite Hshape.
  rewrite (bind_ok _ _ _ _ _ (bad_time_indexes_spec _ _ _ _ _)).
  replace ((from_idx >? to_idx) || (to_idx >? Z.of_nat n0) || (from_idx <? 0)) with false
    by (symmetry; apply bad_time_false; lia).
  rewrite (bind_ok _ _ _ _ _ (bad_coordinates_spec _ _ _ _ _ _ _ _ _)).
  destruct ((x >? Z.of_nat n1) || (y >? Z.of_nat n2) || (z >? Z.of_nat n3)) eqn:E;
    [reflexivity|].
  apply bad_coordinates_false in E. lia.
Qed.

(** The three integer indexings of [get_volume_view] on a 4-D array. *)
Lemma nd_getitem_depth (m0 m1 m2 m3 : nat) (b : list float) (z : Z) :
  nd_getitem (NdArray [m0; m1; m2; m3] b) [IEllipsis; IInt z]
  = (k <- normalize_index z m3 ;;
     Ok (NdArray (map (@length nat) [seq 0 m0; seq 0 m1; seq 0 m2])
                 (gather [m0; m1; m2; m3] [seq 0 m0; seq 0 m1; seq 0 m2; [k]] b)))%result.
Proof.
  unfold nd_getitem, expand_index.
  cbn [ndim shape buf length filter is_ellipsis Nat.sub Nat.ltb Nat.leb orb expand repeat app
       rbind resolve_all resolve].
  rewrite !slice_select_all. cbn [rbind].
  destruct (normalize_index z m3); reflexivity.
Qed.

Lemma nd_getitem_row (m0 m1 m2 m3 : nat) (b : list float) (x : Z) :
  nd_getitem (NdArray [m0; m1; m2; m3] b) [ISlice slice_all; IInt x; IEllipsis]
  = (k <- normalize_index x m1 ;;
     Ok (NdArray (map (@length nat) [seq 0 m0; seq 0 m2; seq 0 m3])
                 (gather [m0; m1; m2; m3] [seq 0 m0; [k]; seq 0 m2; seq 0 m3] b)))%result.
Proof.
  unfold nd_getitem, expand_index.
  cbn [ndim shape buf length filter is_ellipsis Nat.sub Nat.ltb Nat.leb orb expand repeat app
       rbind resolve_all resolve].
  rewrite !slice_select_all. cbn [rbind].
  destruct (normalize_index x m1); reflexivity.
Qed.

Lemma nd_getitem_column (m0 m1 m2 m3 : nat) (b : list float) (y : Z) :
  nd_getitem (NdArray [m0; m1; m2; m3] b) [IEllipsis; IInt y; ISlice slice_all]
  = (k <- normalize_index y m2 ;;
     Ok (NdArray (map (@length nat) [seq 0 m0; seq 0 m1; seq 0 m3])
                 (gather [m0; m1; m2; m3] [seq 0 m0; seq 0 m1; [k]; seq 0 m3] b)))%result.
Proof.
  unfold nd_getitem, expand_index.
  cbn [ndim shape buf length filter is_ellipsis Nat.sub Nat.ltb Nat.leb orb expand repeat app
       rbind resolve_all resolve].
  rewrite !slice_select_all. cbn [rbind].
  destruct (normalize_index y m2); reflexivity.
Qed.

(** The cross-sections exist exactly when every plane is a valid index of
    its axis; otherwise the extraction raises [IndexError]. *)
Lemma cross_sections_cases (m0 m1 m2 m3 : nat) (b : list float) (x y z : Z) :
  (- Z.of_nat m1 <= x < Z.of_nat m1 /\ - Z.of_nat m2 <= y < Z.of_nat m2 /\
   - Z.of_nat m3 <= z < Z.of_nat m3 /\
   exists planes, cross_sections (NdArray [m0; m1; m2; m3] b) x y z = Ok planes) \/
  (~ (- Z.of_nat m1 <= x < Z.of_nat m1 /\ - Z.of_nat m2 <= y < Z.of_nat m2 /\
      - Z.of_nat m3 <= z < Z.of_nat m3) /\
   cross_sections (NdArray [m0; m1; m2; m3] b) x y z = Raise IndexError).
Proof.
  unfold cross_sections.
  rewrite nd_getitem_depth, nd_getitem_row, nd_getitem_column.
  destruct (normalize_index_cases z m3) as [(Hz & kz & -> & _)|(Hz & ->)];
    [|right; split; [lia | reflexivity]].
  destruct (normalize_index_cases x m1) as [(Hx & kx & -> & _)|(Hx & ->)];
    [|right; split; [lia | reflexivity]].
  destruct (normalize_index_cases y m2) as [(Hy & ky & -> & _)|(Hy & ->)];
    [|right; split; [lia | reflexivity]].
  left. repeat split; try lia. eexists. reflexivity.
Qed.

(** C4: on a 4-D series both volume queries raise [ValidationException],
    with the offending indices in the message, exactly when
    [from_idx < 0], [from_idx > to_idx] or [to_idx > shape[0]], and
    [get_volume_view] also when a plane exceeds its extent; an accepted
    query reads [from_idx:to_idx] as given, with no clamping, and planes
    are only checked from above, so negative ones are accepted. *)
Theorem volume_queries_validate_bounds
        (s : state) (a : ndarray) (n0 n1 n2 n3 : nat) (from_idx to_idx x y z : Z) :
  store (self s) = Stored a -> shape a = [n0; n1; n2; n3] ->
  let bad_time := from_idx < 0 \/ from_idx > to_idx \/ to_idx > Z.of_nat n0 in
  let bad_plane := x > Z.of_nat n1 \/ y > Z.of_nat n2 \/ z > Z.of_nat n3 in
  let requests :=
    [GetDataShape "data";
     GetData "data" [ISlice (Slice (Some from_idx) (Some to_idx) None);
                     ISlice (slice_to (Z.of_nat n1));
                     ISlice (slice_to (Z.of_nat n2));
                     ISlice (slice_to (Z.of_nat n3))]] in
  (bad_time ->
   fst (get_rotated_volume_slice from_idx to_idx s)
   = Raise (ValidationException
              ("Bad time indexes: From " ++ str_of_int from_idx
               ++ " to " ++ str_of_int to_idx))) /\
  (~ bad_time ->
   exists r,
     get_rotated_volume_slice from_idx to_idx s
     = (Ok r, MkState (self s) (trace s ++ requests)) /\
     nd_len r = Ok (Z.to_nat (to_idx - from_idx))) /\
  (bad_time ->
   fst (get_volume_view from_idx to_idx x y z s)
   = Raise (ValidationException
              ("Time indexes out of boundaries: from " ++ str_of_int from_idx
               ++ " to " ++ str_of_int to_idx))) /\
  (~ bad_time -> bad_plane ->
   fst (get_volume_view from_idx to_idx x y z s)
   = Raise (ValidationException
              ("Coordinates out of boundaries: " ++ str_of_int x ++ ", "
               ++ str_of_int y ++ ", " ++ str_of_int z))) /\
  (~ bad_time -> ~ bad_plane ->
   is_ValidationException_result (fst (get_volume_view from_idx to_idx x y z s)) = false /\
   trace (snd (get_volume_view from_idx to_idx x y z s)) = trace s ++ requests).
Proof.
  intros Hstore Hshape bad_time bad_plane requests.
  split; [|split; [|split; [|split]]].
  - intros Hbad. now apply (get_rotated_volume_slice_refused _ _ _ _ _ _ Hstore Hshape).
  - intros Hok. unfold bad_time in Hok.
    destruct a as [sh b]. cbn [shape] in Hshape. subst sh.
    rewrite (get_rotated_volume_slice_run _ _ _ _ _ _ _ _ Hstore) by lia.
    cbn [rbind map]. rewrite nd_getitem_reverse_last4.
    eexists. split; [reflexivity|].
    unfold nd_len. cbn [shape map]. now rewrite !length_seq.
  - intros Hbad. now apply (get_volume_view_refused_time _ _ _ _ _ _ _ _ _ Hstore Hshape).
  - intros Hok Hbad. unfold bad_time in Hok. unfold bad_plane in Hbad.
    apply (get_volume_view_refused_plane _ _ _ _ _ _ _ _ _ _ _ _ Hstore Hshape); lia.
  - intros Hok Hplane. unfold bad_time in Hok. unfold bad_plane in Hplane.
    destruct a as [sh b]. cbn [shape] in Hshape. subst sh.
    rewrite (get_volume_view_run _ _ _ _ _ _ _ _ _ _ _ Hstore) by lia.
    cbn [fst snd trace map]. split; [|reflexivity].
    rewrite nd_getitem_reverse_last4. cbn [rbind map].
    match goal with |- context [cross_sections (NdArray [?m0; ?m1; ?m2; ?m3] ?b') x y z] =>
      destruct (cross_sections_cases m0 m1 m2 m3 b' x y z)
        as [(_ & _ & _ & planes & ->)|(_ & ->)]
    end; reflexivity.
Qed.

Lemma volume_queries_validate_bounds_witness :
  fst (get_rotated_volume_slice 3 9 (series_of (arange_array [4; 2; 2; 3]%nat) 1%float))
  = Raise (ValidationException "Bad time indexes: From 3 to 9") /\
  fst (get_volume_view 0 1 5 (-1) 0 (series_of (arange_array [4; 2; 2; 3]%nat) 1%float))
  = Raise (ValidationException "Coordinates out of boundaries: 5, -1, 0").
Proof.
  split.
  - destruct (volume_queries_validate_bounds
                (series_of (arange_array [4; 2; 2; 3]%nat) 1%float)
                (arange_array [4; 2; 2; 3]%nat) 4 2 2 3 3 9 0 0 0 eq_refl eq_refl)
      as (Hrefused & _).
    apply Hrefused. right. right. lia.
  - destruct (volume_queries_validate_bounds
                (series_of (arange_array [4; 2; 2; 3]%nat) 1%float)
                (arange_array [4; 2; 2; 3]%nat) 4 2 2 3 0 1 5 (-1) 0 eq_refl eq_refl)
      as (_ & _ & _ & Hrefused & _).
    apply Hrefused; [lia|]. left. lia.
Defined.

(** Negative plane coordinates pass validation and count from the end. *)
Example get_volume_view_negative_planes :
  fst (get_volume_view 0 1 (-1) (-1) (-1)
         (series_of (arange_array [1; 2; 2; 2]%nat) 1%float))
  = Ok [PyList [PyList [PyList [PyNum 0; PyNum 2]; PyList [PyNum 4; PyNum 6]]];
        PyList [PyList [PyList [PyNum 5; PyNum 4]; PyList [PyNum 7; PyNum 6]]];
        PyList [PyList [PyList [PyNum 3; PyNum 2]; PyList [PyNum 7; PyNum 6]]]]%float.
Proof. reflexivity. Qed.

(** ** A plane on the boundary of its axis *)

(** C10: a plane coordinate equal to the extent of its axis passes the
    bounds validation of [get_volume_view], whose checks are strict, and
    the extraction of the cross-sections then indexes one position past
    the end: the call raises [IndexError], not a [ValidationException]. *)
Theorem get_volume_view_boundary_plane
        (s : state) (a : ndarray) (n0 n1 n2 n3 : nat) (from_idx to_idx x y z : Z) :
  store (self s) = Stored a -> shape a = [n0; n1; n2; n3] ->
  0 <= from_idx <= to_idx -> to_idx <= Z.of_nat n0 ->
  x <= Z.of_nat n1 -> y <= Z.of_nat n2 -> z <= Z.of_nat n3 ->
  x = Z.of_nat n1 \/ y = Z.of_nat n2 \/ z = Z.of_nat n3 ->
  bad_time_indexes from_idx to_idx (shape a) s = (Ok false, s) /\
  bad_coordinates x y z (shape a) s = (Ok false, s) /\
  fst (get_volume_view from_idx to_idx x y z s) = Raise IndexError.
Proof.
  intros Hstore Hshape Hft Ht Hx Hy Hz Hedge.
  destruct a as [sh b]. cbn [shape] in *. subst sh.
  split; [|split].
  - rewrite bad_time_indexes_spec. do 2 f_equal. apply bad_time_false. lia.
  - rewrite bad_coordinates_spec. do 2 f_equal. apply bad_coordinates_false. lia.
  - rewrite (get_volume_view_run _ _ _ _ _ _ _ _ _ _ _ Hstore) by lia.
    cbn [fst map]. rewrite nd_getitem_reverse_last4. cbn [rbind map].
    repeat rewrite length_rev. repeat rewrite length_seq.
    match goal with |- cross_sections (NdArray [?m0; ?m1; ?m2; ?m3] ?b') x y z = _ =>
      destruct (cross_sections_cases m0 m1 m2 m3 b' x y z)
        as [(Hx' & Hy' & Hz' & _)|(_ & ->)]
    end; [|reflexivity].
    lia.
Qed.

Lemma get_volume_view_boundary_plane_witness :
  fst (get_volume_view 0 2 2 0 0 (series_of (arange_array [4; 2; 2; 3]%nat) 1%float))
  = Raise IndexError.
Proof.
  apply (get_volume_view_boundary_plane
           (series_of (arange_array [4; 2; 2; 3]%nat) 1%float)
           (arange_array [4; 2; 2; 3]%nat) 4 2 2 3 0 2 2 0 0 eq_refl eq_refl);
    cbn; lia.
Defined.

(** ** The shape of a data page *)

Lemma expand_slices (l : list slice) : expand 0 (map ISlice l) = map ISlice l.
Proof. induction l as [|x l IH]; [reflexivity|]. cbn [map expand]. now rewrite IH. Qed.

Lemma no_ellipsis_slices (l : list slice) : filter is_ellipsis (map ISlice l) = [].
Proof. induction l as [|x l IH]; [reflexivity|]. exact IH. Qed.

Lemma expand_index_slices (l : list slice) :
  expand_index (length l) (map ISlice l) = Ok (map ISlice l).
Proof.
  unfold expand_index.
  rewrite no_ellipsis_slices, length_map. cbn [length].
  rewrite Nat.sub_0_r, Nat.sub_diag, expand_slices, Nat.ltb_irrefl.
  reflexivity.
Qed.

Lemma resolve_all_slices (sh : list nat) (f : nat -> slice) (g : nat -> list nat) (k0 : nat) :
  (forall i n, nth_error sh i = Some n -> slice_select (f (k0 + i)%nat) n = Ok (g (k0 + i)%nat)) ->
  resolve_all sh (map ISlice (map f (seq k0 (length sh))))
  = Ok (map (fun i => (g i, true)) (seq k0 (length sh))).
Proof.
  revert k0. induction sh as [|n sh IH]; intros k0 H; [reflexivity|].
  cbn [length seq map resolve_all resolve].
  pose proof (H 0%nat n eq_refl) as H0. rewrite Nat.add_0_r in H0. rewrite H0.
  cbn [rbind]. rewrite IH; [reflexivity|].
  intros i m Hi. replace (S k0 + i)%nat with (k0 + S i)%nat by lia. now apply H.
Qed.

Lemma kept_lengths (g : nat -> list nat) (l : list nat) :
  map (fun r : list nat * bool => length (fst r))
      (filter snd (map (fun i => (g i, true)) l))
  = map (fun i => length (g i)) l.
Proof. induction l as [|x l IH]; [reflexivity|]. cbn. now rewrite IH. Qed.

(** Indexing with one slice per axis, the slices and what they select being
    given per axis position. *)
Lemma nd_getitem_axis_slices (a : ndarray) (f : nat -> slice) (g : nat -> list nat) :
  (forall i n, nth_error (shape a) i = Some n -> slice_select (f i) n = Ok (g i)) ->
  nd_getitem a (map ISlice (map f (seq 0 (ndim a))))
  = Ok (NdArray (map (fun i => length (g i)) (seq 0 (ndim a)))
                (gather (shape a) (map g (seq 0 (ndim a))) (buf a))).
Proof.
  intros H. unfold nd_getitem.
  replace (ndim a) with (length (map f (seq 0 (ndim a)))) at 1
    by now rewrite length_map, length_seq.
  rewrite expand_index_slices. cbn [rbind]. unfold ndim.
  rewrite (resolve_all_slices _ f g 0) by exact H. cbn [rbind].
  now rewrite kept_lengths, map_map.
Qed.

(** The slices [read_data_page] builds, in closed form. *)
Lemma page_slices_closed (from_idx to_idx step : Z) (ss : option (list Z)) (sh : list nat) :
  (forall l i, ss = Some l -> (0 < i < length sh)%nat -> i <> 2%nat -> (i < length l)%nat) ->
  mapM (page_slice from_idx to_idx step ss sh) (seq 0 (length sh))
  = Ok (map (axis_slice from_idx to_idx step ss sh) (seq 0 (length sh))).
Proof.
  intros Hss. apply mapM_ok. intros i Hi. apply in_seq in Hi.
  unfold page_slice, axis_slice.
  destruct (Nat.eqb_spec i 0) as [->|H0].
  - now rewrite (getitem_nth _ _ 0%nat) by lia.
  - destruct (Nat.eqb_spec i 2) as [->|H2].
    + now rewrite (getitem_nth _ _ 0%nat) by lia.
    + destruct ss as [l|]; [|reflexivity].
      rewrite (getitem_nth l i 0) by (apply (Hss l i eq_refl); lia).
      now rewrite (getitem_nth _ _ 0%nat) by lia.
Qed.

Lemma squeeze_ones (l : list nat) :
  Forall (fun n => n = 1%nat) l -> filter (fun n => negb (n =? 1)%nat) l = [].
Proof.
  induction 1 as [|n l Hn _ IH]; [reflexivity|]. subst n. cbn. exact IH.
Qed.

(** C1, as amended: for a backing array of rank 3 or more whose other
    non-time axes each yield one element and a non-zero step,
    [read_data_page] returns the (time x space) array of shape [(L, N)]
    when the extent [N] of axis 2 is not 1, [L] being the number of time
    steps selected, a single step included; when [N = 1] and [L <> 1] the
    page is the 1-D array of shape [(L,)]. *)
Theorem read_data_page_shape (json_loads : string -> result json) (s : state)
        (a : ndarray) (T S N : nat) (rest : list nat) (from_idx to_idx : Z)
        (step : option Z) (arg : option slices_arg) (ss : option (list Z)) :
  store (self s) = Stored a -> shape a = T :: S :: N :: rest ->
  decode_slices json_loads arg = Ok ss ->
  step <> Some 0 ->
  (forall i n, i <> 0%nat -> i <> 2%nat -> nth_error (shape a) i = Some n ->
     match ss with
     | None => (0 < n)%nat
     | Some l => exists k, nth_error l i = Some k /\ 0 <= k < Z.of_nat n
     end) ->
  exists sel,
    slice_select (Slice (Some from_idx) (Some (Z.min to_idx (Z.of_nat T)))
                        (Some (match step with None => 1 | Some k => k end))) T
    = Ok sel /\
    (N <> 1%nat ->
     exists page,
       fst (read_data_page json_loads from_idx to_idx step arg s) = Ok page /\
       shape page = [length sel; N]) /\
    (N = 1%nat -> length sel <> 1%nat ->
     exists page,
       fst (read_data_page json_loads from_idx to_idx step arg s) = Ok page /\
       shape page = [length sel]).
Proof.
  intros Hstore Hshape Hdec Hstep Haux.
  set (st := match step with None => 1 | Some k => k end).
  destruct (slice_select_ok
              (Slice (Some from_idx) (Some (Z.min to_idx (Z.of_nat T))) (Some st)) T)
    as (sel & Hsel).
  { cbn. subst st. destruct step as [k|]; congruence. }
  exists sel. split; [exact Hsel|].
  set (g := fun i : nat =>
         if (i =? 0)%nat then sel
         else if (i =? 2)%nat then seq 0 N
         else [Z.to_nat (match ss with None => 0 | Some l => nth i l 0 end)]).
  assert (Hg : forall i n, nth_error (shape a) i = Some n ->
                 slice_select (axis_slice from_idx to_idx st ss (shape a) i) n = Ok (g i)).
  { intros i n Hi. unfold axis_slice, g.
    destruct (Nat.eqb_spec i 0) as [->|H0].
    - rewrite Hshape in *. cbn in Hi. injection Hi as <-. exact Hsel.
    - destruct (Nat.eqb_spec i 2) as [->|H2].
      + rewrite Hshape in *. cbn in Hi. injection Hi as <-. apply slice_select_to.
      + specialize (Haux i n H0 H2 Hi). rewrite (nth_error_nth _ _ 0%nat Hi).
        destruct ss as [l|].
        * destruct Haux as (k & Hk & Hrange).
          rewrite (nth_error_nth _ _ 0 Hk). now apply slice_select_single.
        * now apply slice_select_first. }
  assert (Hslices : mapM (page_slice from_idx to_idx st ss (shape a))
                         (seq 0 (length (shape a)))
                    = Ok (map (axis_slice from_idx to_idx st ss (shape a))
                              (seq 0 (length (shape a))))).
  { apply page_slices_closed. intros l i -> Hi H2.
    destruct (nth_error (shape a) i) as [n|] eqn:E;
      [|apply nth_error_None in E; lia].
    destruct (Haux i n ltac:(lia) H2 E) as (k & Hk & _).
    apply nth_error_Some. congruence. }
  rewrite (read_data_page_stored json_loads s a from_idx to_idx step arg ss _ Hstore Hdec Hslices).
  cbn [fst].
  change (length (shape a)) with (ndim a).
  rewrite (nd_getitem_axis_slices a _ g Hg). cbn [rbind].
  unfold ndim. rewrite Hshape. cbn [length seq map].
  assert (Hones : filter (fun n => negb (n =? 1)%nat)
                         (map (fun i => length (g i)) (seq 3 (length rest))) = []).
  { apply squeeze_ones, Forall_forall. intros n Hn.
    apply in_map_iff in Hn. destruct Hn as (i & <- & Hi). apply in_seq in Hi.
    unfold g. destruct (Nat.eqb_spec i 0); [lia|].
    destruct (Nat.eqb_spec i 2); [lia|]. reflexivity. }
  change (g 0%nat) with sel. change (length (g 1%nat)) with 1%nat.
  change (g 2%nat) with (seq 0 N). rewrite length_seq.
  unfold squeeze_page, nd_len, squeeze. cbn [shape buf rbind filter].
  rewrite Hones.
  split.
  - intros HN. destruct (Nat.eqb_spec (length sel) 1) as [E|E].
    + rewrite E. cbn [Nat.eqb negb].
      destruct (Nat.eqb_spec N 1); [contradiction|]. cbn [negb shape rbind].
      unfold reshape. cbn [shape buf].
      rewrite (proj2 (Nat.eqb_eq _ _)) by (cbn; lia).
      eexists. split; reflexivity.
    + destruct (Nat.eqb_spec N 1); [contradiction|]. cbn [negb].
      eexists. split; reflexivity.
  - intros -> HL.
    destruct (Nat.eqb_spec (length sel) 1) as [E|E]; [contradiction|].
    cbn [Nat.eqb negb]. eexists. split; reflexivity.
Qed.

Lemma read_data_page_shape_witness :
  exists page,
    fst (read_data_page no_json 1 2 None None
                        (series_of (arange_array [3; 1; 4]%nat) 1%float)) = Ok page /\
    shape page = [1; 4]%nat.
Proof.
  destruct (read_data_page_shape no_json
              (series_of (arange_array [3; 1; 4]%nat) 1%float)
              (arange_array [3; 1; 4]%nat) 3 1 4 [] 1 2 None None None
              eq_refl eq_refl eq_refl ltac:(discriminate))
    as (sel & Hsel & Hpage & _).
  - intros i n H0 H2 Hi. destruct i as [|[|[|i]]]; try contradiction.
    + cbn in Hi. injection Hi as <-. lia.
    + cbn in Hi. destruct i; discriminate.
  - destruct (Hpage ltac:(discriminate)) as (page & Hrun & Hshape).
    exists page. split; [exact Hrun|].
    cbv in Hsel. injection Hsel as <-. exact Hshape.
Defined.

(** The page of a rank-2 backing array is 1-D, as is the page of several
    time steps of a series with a single node (the case
    [read_channels_page] provides for). *)
Lemma read_data_page_rank1_page :
  ndim (arange_array [3; 2]%nat) = 2%nat /\
  exists page,
    fst (read_data_page no_json 0 2 None None
                        (series_of (arange_array [3; 2]%nat) 1%float)) = Ok page /\
    page = NdArray [2]%nat [0; 2]%float /\
    ndim page = 1%nat.
Proof.
  split; [reflexivity|]. eexists. split; [reflexivity|]. split; reflexivity.
Qed.

Example read_data_page_single_node :
  fst (read_data_page no_json 0 3 None None
                      (series_of (arange_array [3; 1; 1]%nat) 1%float))
  = Ok (NdArray [3]%nat [0; 1; 2]%float).
Proof. reflexivity. Qed.

(** A single time step of a series with a single node: squeezing leaves a
    0-d array, which has no length. *)
Example read_data_page_single_step_single_node :
  fst (read_data_page no_json 0 1 None None
                      (series_of (arange_array [3; 1; 1]%nat) 1%float))
  = Raise TypeError.
Proof. reflexivity. Qed.

(** A request reaching past the data ends at the true extent. *)
Example read_data_page_over_long :
  fst (read_data_page no_json 1 50 None None
                      (series_of (arange_array [3; 2; 2]%nat) 1%float))
  = Ok (NdArray [2; 2]%nat [4; 5; 8; 9]%float).
Proof. reflexivity. Qed.

Example read_data_page_single_step :
  fst (read_data_page no_json 2 3 None None
                      (series_of (arange_array [3; 2; 4]%nat) 1%float))
  = Ok (NdArray [1; 4]%nat [16; 17; 18; 19]%float).
Proof. reflexivity. Qed.

(** ** Channel selection *)

Lemma normalize_index_on_axis (c : Z) (n : nat) :
  0 <= c < Z.of_nat n -> normalize_index c n = Ok (Z.to_nat c).
Proof.
  intros H. unfold normalize_index.
  destruct (Z.ltb_spec c (- Z.of_nat n)); [lia|].
  destruct (Z.leb_spec (Z.of_nat n) c); [lia|].
  destruct (Z.ltb_spec c 0); [lia|]. reflexivity.
Qed.

(** Selecting channels on the second axis of a 2-D page. *)
Lemma nd_getitem_channels (n0 n1 : nat) (b : list float) (l : list Z) :
  Forall (fun c => 0 <= c < Z.of_nat n1) l ->
  nd_getitem (NdArray [n0; n1] b) [ISlice slice_all; ISeq l]
  = Ok (NdArray (map (@length nat) [seq 0 n0; map Z.to_nat l])
                (gather [n0; n1] [seq 0 n0; map Z.to_nat l] b)).
Proof.
  intros Hl. unfold nd_getitem, expand_index.
  cbn [ndim shape buf length filter is_ellipsis Nat.sub Nat.ltb Nat.leb orb expand repeat app
       rbind resolve_all resolve].
  rewrite slice_select_all. cbn [rbind].
  rewrite (mapM_ok _ Z.to_nat).
  - reflexivity.
  - intros c Hc. apply normalize_index_on_axis.
    rewrite Forall_forall in Hl. now apply Hl.
Qed.

(** On a 2-D page the second axis is the last one. *)
Lemma second_axis_is_last (page : ndarray) (ix : indexer) :
  ndim page = 2%nat -> is_ellipsis ix = false ->
  nd_getitem page [ISlice slice_all; ix] = nd_getitem page [IEllipsis; ix].
Proof.
  intros Hrank Hix. unfold nd_getitem, expand_index. rewrite Hrank.
  destruct ix; try discriminate; reflexivity.
Qed.

Lemma channel_indexer_not_ellipsis (j : json) : is_ellipsis (channel_indexer j) = false.
Proof. destruct j as [|[|c l]]; reflexivity. Qed.

(** C7, as amended: [read_channels_page] first reads the data page; a 1-D
    page of [n] elements is returned as the column [(n, 1)] with no channel
    filtering; for any other page the channel selection (decoded from its
    JSON text when one is given, every channel otherwise) is applied over
    the second axis, [data_page[:, channel_slice]], which is the last axis
    when the page is 2-D: then [result[t, j] = page[t, channels[j]]]. *)
Theorem read_channels_page_selects (json_loads : string -> result json)
        (s s' : state) (from_idx to_idx : Z) (step : option Z)
        (arg : option slices_arg) (channels_list : option string)
        (channels : json) (page : ndarray) :
  decode_channels json_loads channels_list = Ok channels ->
  read_data_page json_loads from_idx to_idx step arg s = (Ok page, s') ->
  (forall n, shape page = [n] ->
     read_channels_page json_loads from_idx to_idx step arg channels_list s
     = (Ok (NdArray [n; 1%nat] (buf page)), s')) /\
  (ndim page <> 1%nat ->
     read_channels_page json_loads from_idx to_idx step arg channels_list s
     = (nd_getitem page [ISlice slice_all; channel_indexer channels], s')) /\
  (ndim page = 2%nat ->
     nd_getitem page [ISlice slice_all; channel_indexer channels]
     = nd_getitem page [IEllipsis; channel_indexer channels]) /\
  (json_true channels = false -> channel_indexer channels = ISlice slice_all) /\
  (forall n0 n1 l,
     shape page = [n0; n1] -> wf page -> channels = JArray l -> l <> [] ->
     Forall (fun c => 0 <= c < Z.of_nat n1) l ->
     exists r,
       read_channels_page json_loads from_idx to_idx step arg channels_list s = (Ok r, s') /\
       shape r = [n0; length l] /\
       forall t j c, (t < n0)%nat -> nth_error l j = Some c ->
                     nd_get r [t; j] = nd_get page [t; Z.to_nat c]).
Proof.
  intros Hdec Hpage.
  assert (Hrun : read_channels_page json_loads from_idx to_idx step arg channels_list s
                 = (if (length (shape page) =? 1)%nat
                    then (n <- getitem (shape page) 0 ;; reshape page [n; 1%nat])%result
                    else nd_getitem page [ISlice slice_all; channel_indexer channels], s')).
  { unfold read_channels_page. unfold bind at 1. unfold lift at 1. rewrite Hdec.
    rewrite (bind_ok _ _ _ _ _ Hpage).
    destruct (length (shape page) =? 1)%nat; [|reflexivity].
    unfold bind, lift. destruct (getitem (shape page) 0); reflexivity. }
  split; [|split; [|split; [|split]]].
  - intros n Hn. rewrite Hrun, Hn. cbn [length Nat.eqb getitem nth_error rbind].
    unfold reshape. rewrite Hn.
    now rewrite (proj2 (Nat.eqb_eq _ _)) by (cbn; lia).
  - intros Hrank. rewrite Hrun.
    destruct (Nat.eqb_spec (length (shape page)) 1); [contradiction|reflexivity].
  - intros Hrank. apply second_axis_is_last; [exact Hrank|].
    apply channel_indexer_not_ellipsis.
  - intros Hfalse. destruct channels as [|[|c l]]; [reflexivity|reflexivity|discriminate].
  - intros n0 n1 l Hshape Hwf -> Hl Hrange.
    rewrite Hrun, Hshape. cbn [length Nat.eqb].
    destruct page as [sh b]. cbn [shape] in Hshape. subst sh.
    replace (channel_indexer (JArray l)) with (ISeq l)
      by (destruct l; [contradiction|reflexivity]).
    rewrite (nd_getitem_channels _ _ _ _ Hrange).
    eexists. split; [reflexivity|]. cbn [shape map].
    split; [now rewrite length_seq, length_map|].
    intros t j c Ht Hj. unfold nd_get. cbn [shape buf].
    assert (Hjl : (j < length l)%nat) by (apply nth_error_Some; congruence).
    change [length (seq 0 n0); length (map Z.to_nat l)]
      with (map (@length nat) [seq 0 n0; map Z.to_nat l]).
    rewrite gather_get.
    + cbn [combine map fst snd]. rewrite seq_nth by lia. cbn [Nat.add].
      rewrite (nth_indep _ 0%nat (Z.to_nat 0)) by (rewrite length_map; lia).
      rewrite map_nth. now rewrite (nth_error_nth _ _ 0 Hj).
    + repeat constructor; [apply seq_in_range; lia|].
      apply Forall_map. eapply Forall_impl; [|exact Hrange]. cbn. lia.
    + exact Hwf.
    + repeat constructor; [rewrite length_seq; lia | rewrite length_map; lia].
Qed.

Lemma read_channels_page_selects_witness :
  exists r,
    fst (read_channels_page one_channel_json 0 3 None None (Some "[2]"%string)
           (series_of (arange_array [3; 2; 4]%nat) 1%float)) = Ok r /\
    shape r = [3; 1]%nat /\
    nd_get r [1; 0]%nat = Some 10%float.
Proof.
  pose proof (read_channels_page_selects one_channel_json
                (series_of (arange_array [3; 2; 4]%nat) 1%float) _ 0 3 None None
                (Some "[2]"%string) (JArray [2]) _ eq_refl eq_refl)
    as (_ & _ & _ & _ & Hsel).
  destruct (Hsel 3%nat 4%nat [2] eq_refl eq_refl eq_refl ltac:(discriminate))
    as (r & Hrun & Hshape & Hget).
  - repeat constructor; cbn; lia.
  - exists r. split; [now rewrite Hrun|]. split; [exact Hshape|].
    rewrite (Hget 1%nat 0%nat 2 ltac:(lia) eq_refl). reflexivity.
Defined.

(** A page that is neither 1-D nor 2-D: the selection is applied over its
    second axis, of extent 0 here, and fails, where a selection over the
    last axis would yield an empty array. *)
Lemma read_channels_page_second_axis :
  exists page,
    fst (read_data_page one_channel_json 0 2 None (Some (SlicesList [0; 5; 0]))
           (series_of (arange_array [2; 2; 3]%nat) 1%float)) = Ok page /\
    shape page = [2; 0; 3]%nat /\
    nd_getitem page [IEllipsis; ISeq [2]] = Ok (NdArray [2; 0; 1]%nat []) /\
    fst (read_channels_page one_channel_json 0 2 None (Some (SlicesList [0; 5; 0]))
           (Some "[2]"%string)
           (series_of (arange_array [2; 2; 3]%nat) 1%float)) = Raise IndexError.
Proof.
  eexists. split; [reflexivity|]. repeat split.
Qed.

Example read_channels_page_column :
  fst (read_channels_page no_json 0 3 None None None
         (series_of (arange_array [3; 1; 1]%nat) 1%float))
  = Ok (NdArray [3; 1]%nat [0; 1; 2]%float).
Proof. reflexivity. Qed.

(** ** Labels, grouping and default selection *)

Lemma str_of_int_inj (i j : Z) : str_of_int i = str_of_int j -> i = j.
Proof.
  unfold str_of_int. intros H.
  assert (Hnil : forall z, Z.to_int z <> Decimal.Pos Decimal.Nil
                           /\ Z.to_int z <> Decimal.Neg Decimal.Nil).
  { intros [|p|p]; cbn; split; try discriminate; intros [= E];
      now apply (DecimalPos.Unsigned.to_uint_nonnil p). }
  apply DecimalZ.to_int_inj.
  assert (E : Some (Z.to_int i) = Some (Z.to_int j)).
  { rewrite <- (NilZero.isi (Z.to_int i)) by apply Hnil.
    rewrite <- (NilZero.isi (Z.to_int j)) by apply Hnil.
    now rewrite H. }
  now injection E.
Qed.

Lemma signal_label_inj (i j : Z) :
  ("signal-" ++ str_of_int i)%string = ("signal-" ++ str_of_int j)%string -> i = j.
Proof. cbn. intros [= H]. now apply str_of_int_inj. Qed.

Lemma NoDup_map_inj {A B} (f : A -> B) (l : list A) :
  (forall x y, f x = f y -> x = y) -> NoDup l -> NoDup (map f l).
Proof.
  intros Hinj. induction 1 as [|x l Hx _ IH]; cbn; constructor; [|exact IH].
  intros Hin. apply in_map_iff in Hin. destruct Hin as (y & Hy & Hin).
  apply Hinj in Hy. now subst y.
Qed.

Lemma xrange_NoDup (n : Z) : NoDup (xrange n).
Proof.
  unfold xrange. apply NoDup_map_inj; [intros x y; lia | apply seq_NoDup].
Qed.

Lemma xrange_In (n i : Z) : In i (xrange n) <-> 0 <= i < n.
Proof.
  unfold xrange. rewrite in_map_iff. split.
  - intros (k & <- & Hk). apply in_seq in Hk. lia.
  - intros H. exists (Z.to_nat i). split; [lia|]. apply in_seq. lia.
Qed.

Lemma xrange_firstn (n : Z) (k : nat) :
  firstn k (xrange n) = xrange (Z.min n (Z.of_nat k)).
Proof.
  unfold xrange. rewrite firstn_map. f_equal.
  apply nth_error_ext. intros i.
  rewrite nth_error_firstn, !nth_error_seq.
  destruct (Nat.ltb_spec i k), (Nat.ltb_spec i (Z.to_nat n)),
    (Nat.ltb_spec i (Z.to_nat (Z.min n (Z.of_nat k)))); try reflexivity; lia.
Qed.

(** X1: the generic labels are ["signal-0"], ["signal-1"], ... one per point of
    the third dimension of a series with more than two dimensions, none
    otherwise, and no two of them are equal. *)
Theorem get_space_labels_distinct (o : TimeSeries) :
  length (get_space_labels o)
  = (if nr_dimensions o >? 2 then Z.to_nat (length_3d o) else 0%nat) /\
  (forall i l, nth_error (get_space_labels o) i = Some l ->
               l = ("signal-" ++ str_of_int (Z.of_nat i))%string) /\
  NoDup (get_space_labels o).
Proof.
  unfold get_space_labels. destruct (nr_dimensions o >? 2).
  - split; [now rewrite length_map, xrange_length|]. split.
    + intros i l H. rewrite nth_error_map in H.
      destruct (nth_error (xrange (length_3d o)) i) as [k|] eqn:E; [|discriminate].
      injection H as <-. unfold xrange in E. rewrite nth_error_map, nth_error_seq in E.
      destruct (i <? Z.to_nat (length_3d o))%nat; [|discriminate].
      cbn in E. now injection E as <-.
    + apply NoDup_map_inj; [apply signal_label_inj | apply xrange_NoDup].
  - split; [reflexivity|]. split; [|constructor].
    intros [|i] l H; discriminate.
Qed.

Lemma combine_seq_nth {A} (l : list A) (k i : nat) :
  nth_error (combine (map Z.of_nat (seq k (length l))) l) i
  = option_map (fun x => (Z.of_nat (k + i), x)) (nth_error l i).
Proof.
  revert k i. induction l as [|x l IH]; intros k i.
  - now destruct i.
  - destruct i as [|i]; cbn; [now rewrite Nat.add_0_r|].
    rewrite IH. now replace (S k + i)%nat with (k + S i)%nat by lia.
Qed.

Lemma enumerate_nth {A} (l : list A) (i : nat) :
  nth_error (enumerate l) i = option_map (fun x => (Z.of_nat i, x)) (nth_error l i).
Proof.
  unfold enumerate, xrange. rewrite Nat2Z.id. apply combine_seq_nth.
Qed.

Lemma enumerate_snd {A} (l : list A) : map snd (enumerate l) = l.
Proof.
  apply nth_error_ext. intros i. rewrite nth_error_map, enumerate_nth.
  now destruct (nth_error l i).
Qed.

Lemma enumerate_fst {A} (l : list A) :
  map fst (enumerate l) = xrange (Z.of_nat (length l)).
Proof.
  apply nth_error_ext. intros i. rewrite nth_error_map, enumerate_nth.
  unfold xrange. rewrite Nat2Z.id, nth_error_map, nth_error_seq.
  destruct (nth_error l i) eqn:E.
  - assert (i < length l)%nat by (apply nth_error_Some; congruence).
    destruct (Nat.ltb_spec i (length l)); [reflexivity | lia].
  - apply nth_error_None in E.
    destruct (Nat.ltb_spec i (length l)); [lia | reflexivity].
Qed.

(** X2: whatever class provides the labels, the grouped labels are one group
    named [''] that pairs every label with its position, and the default
    selection is exactly the positions of that group: every selected index
    has a label and every label is selected. *)
Theorem grouping_and_selection_cover_labels {Self : Type}
        (labels_of : Self -> list string) (o : Self) :
  exists entries,
    get_grouped_space_labels labels_of o = [(EmptyString, entries)] /\
    map snd entries = labels_of o /\
    map fst entries = get_default_selection labels_of o /\
    (forall i, In i (get_default_selection labels_of o)
               <-> 0 <= i /\ exists l, nth_error (labels_of o) (Z.to_nat i) = Some l) /\
    (forall i l, nth_error (labels_of o) i = Some l ->
                 nth_error entries i = Some (Z.of_nat i, l)).
Proof.
  exists (enumerate (labels_of o)). unfold get_grouped_space_labels, get_default_selection.
  split; [reflexivity|]. split; [apply enumerate_snd|]. split; [apply enumerate_fst|].
  split.
  - intros i. rewrite xrange_In. split.
    + intros Hi. split; [lia|].
      destruct (nth_error (labels_of o) (Z.to_nat i)) as [l|] eqn:E; [now exists l|].
      apply nth_error_None in E. lia.
    + intros (Hi & l & Hl). split; [exact Hi|].
      assert (Z.to_nat i < length (labels_of o))%nat by (apply nth_error_Some; congruence).
      lia.
  - intros i l H. now rewrite enumerate_nth, H.
Qed.

(** X3: a surface series shows the first 100 of the labels, and of the default
    selection, that the generic methods give. *)
Theorem surface_labels_prefix (o : TimeSeries) :
  nr_dimensions o > 2 ->
  TimeSeriesSurfaceFramework.get_space_labels o = firstn 100 (get_space_labels o) /\
  get_default_selection TimeSeriesSurfaceFramework.get_space_labels o
  = firstn 100 (get_default_selection get_space_labels o) /\
  (length (get_default_selection TimeSeriesSurfaceFramework.get_space_labels o) <= 100)%nat.
Proof.
  intros Hdim.
  assert (Hlabels : TimeSeriesSurfaceFramework.get_space_labels o
                    = firstn 100 (get_space_labels o)).
  { unfold TimeSeriesSurfaceFramework.get_space_labels,
      TimeSeriesSurfaceFramework.SELECTION_LIMIT, get_space_labels.
    destruct (Z.gtb_spec (nr_dimensions o) 2); [|lia].
    now rewrite firstn_map, xrange_firstn. }
  split; [exact Hlabels|].
  unfold get_default_selection. rewrite Hlabels, xrange_firstn, length_firstn.
  split; [f_equal; lia|].
  rewrite xrange_length. lia.
Qed.

Lemma surface_labels_prefix_witness :
  (length (get_default_selection TimeSeriesSurfaceFramework.get_space_labels surface_500)
   <= 100)%nat.
Proof.
  exact (proj2 (proj2 (surface_labels_prefix surface_500 ltac:(cbn; lia)))).
Defined.

(** X4: a sensors series selects by default the positions of its first 8
    labels, or of all of them when it has fewer: each selected index has a
    label; without a sensors object there are no labels, no selection and
    no gid. *)
Theorem sensors_default_selection (o : TimeSeriesSensorsFramework.Series) :
  TimeSeriesSensorsFramework.get_default_selection o
  = firstn 8 (get_default_selection TimeSeriesSensorsFramework.get_space_labels o) /\
  length (TimeSeriesSensorsFramework.get_default_selection o)
  = Nat.min 8 (length (TimeSeriesSensorsFramework.get_space_labels o)) /\
  (forall i, In i (TimeSeriesSensorsFramework.get_default_selection o) ->
             0 <= i < 8 /\
             exists l, nth_error (TimeSeriesSensorsFramework.get_space_labels o)
                                 (Z.to_nat i) = Some l) /\
  (TimeSeriesSensorsFramework.sensors o = None ->
   TimeSeriesSensorsFramework.get_space_labels o = [] /\
   TimeSeriesSensorsFramework.get_default_selection o = [] /\
   TimeSeriesSensorsFramework.get_measure_points_selection_gid o = EmptyString).
Proof.
  assert (Hsel : TimeSeriesSensorsFramework.get_default_selection o
                 = xrange (Z.min 8 (Z.of_nat
                     (length (TimeSeriesSensorsFramework.get_space_labels o))))).
  { unfold TimeSeriesSensorsFramework.get_default_selection,
      TimeSeriesSensorsFramework.get_space_labels.
    destruct (TimeSeriesSensorsFramework.sensors o); reflexivity. }
  split; [|split; [|split]].
  - rewrite Hsel. unfold get_default_selection. rewrite xrange_firstn. f_equal. lia.
  - rewrite Hsel, xrange_length. lia.
  - intros i Hi. rewrite Hsel in Hi. apply xrange_In in Hi. split; [lia|].
    destruct (nth_error (TimeSeriesSensorsFramework.get_space_labels o) (Z.to_nat i))
      as [l|] eqn:E; [now exists l|].
    apply nth_error_None in E. lia.
  - intros Hnone.
    unfold TimeSeriesSensorsFramework.get_space_labels,
      TimeSeriesSensorsFramework.get_default_selection,
      TimeSeriesSensorsFramework.get_measure_points_selection_gid.
    rewrite Hnone. now repeat split.
Qed.

(** ** What the read methods leave alone *)

Lemma keeps_bind {A B} (m : M A) (f : A -> M B) :
  keeps_instance m -> (forall a, keeps_instance (f a)) -> keeps_instance (bind m f).
Proof.
  intros Hm Hf s. unfold bind. specialize (Hm s).
  destruct (m s) as [[a|e] s']; cbn [snd] in *; [|exact Hm].
  now rewrite Hf.
Qed.

Lemma keeps_lift {A} (r : result A) : keeps_instance (lift r).
Proof. now intros s. Qed.

Lemma keeps_ret {A} (a : A) : keeps_instance (ret a).
Proof. now intros s. Qed.

Lemma keeps_raise {A} (e : exn) : keeps_instance (@raise A e).
Proof. now intros s. Qed.

Lemma keeps_emit (e : event) : keeps_instance (emit e).
Proof. now intros s. Qed.

Lemma keeps_getattr {A} (f : TimeSeries -> A) : keeps_instance (getattr f).
Proof. now intros s. Qed.

Lemma keeps_por (a : bool) (b : M bool) : keeps_instance b -> keeps_instance (por a b).
Proof. intros H. unfold por. destruct a; [apply keeps_ret | exact H]. Qed.

Lemma keeps_try_except {A} (m : M A) (h : exn -> M A) :
  keeps_instance m -> (forall e, keeps_instance (h e)) -> keeps_instance (try_except m h).
Proof.
  intros Hm Hh s. unfold try_except. specialize (Hm s).
  destruct (m s) as [[a|e] s']; cbn [snd] in *; [exact Hm|].
  now rewrite Hh.
Qed.

Ltac keeps :=
  repeat first
    [ apply keeps_lift | apply keeps_ret | apply keeps_raise | apply keeps_emit
    | apply keeps_getattr
    | apply keeps_por
    | apply keeps_try_except; [|intros ?]
    | apply keeps_bind; [|intros ?]
    | match goal with
      | |- keeps_instance (if ?b then _ else _) => destruct b
      | |- keeps_instance (match ?x with _ => _ end) => destruct x
      end ].

Lemma keeps_read_data_shape : keeps_instance read_data_shape.
Proof. unfold read_data_shape, get_data_shape, logger_exception. keeps. Qed.

Lemma keeps_read_data_slice (ix : list indexer) : keeps_instance (read_data_slice ix).
Proof. unfold read_data_slice, get_data. keeps. Qed.

Lemma keeps_read_data_page (json_loads : string -> result json) (from_idx to_idx : Z)
      (step : option Z) (arg : option slices_arg) :
  keeps_instance (read_data_page json_loads from_idx to_idx step arg).
Proof.
  unfold read_data_page.
  keeps; try apply keeps_read_data_shape; try apply keeps_read_data_slice.
Qed.

(** X5: no read method assigns an attribute of the instance, whatever the
    request and whatever the store answers: pages, channel pages,
    sub-volumes, cross-sections and voxel time series leave the series as
    it was. *)
Theorem read_methods_keep_instance
        (json_loads : string -> result json)
        (numpy_mean numpy_median numpy_var numpy_std : ndarray -> float)
        (from_idx to_idx x y z : Z) (step : option Z) (arg : option slices_arg)
        (channels_list : option string) :
  keeps_instance (read_data_page json_loads from_idx to_idx step arg) /\
  keeps_instance (read_channels_page json_loads from_idx to_idx step arg channels_list) /\
  keeps_instance (get_rotated_volume_slice from_idx to_idx) /\
  keeps_instance (get_volume_view from_idx to_idx x y z) /\
  keeps_instance (get_voxel_time_series numpy_mean numpy_median numpy_var numpy_std x y z).
Proof.
  split; [apply keeps_read_data_page|].
  split.
  { unfold read_channels_page. keeps; apply keeps_read_data_page. }
  split.
  { unfold get_rotated_volume_slice, bad_time_indexes.
    keeps; try apply keeps_read_data_shape; try apply keeps_read_data_slice. }
  split.
  { unfold get_volume_view, bad_time_indexes, bad_coordinates.
    keeps; try apply keeps_read_data_shape; try apply keeps_read_data_slice. }
  unfold get_voxel_time_series, bad_coordinates.
  keeps; try apply keeps_read_data_shape; try apply keeps_read_data_slice.
Qed.

(** ** Failures of a page request *)

(** [read_data_page] on a stored array, whatever comes of the slices. *)
Lemma read_data_page_run (json_loads : string -> result json) (s : state)
      (a : ndarray) (from_idx to_idx : Z) (step : option Z)
      (arg : option slices_arg) (ss : option (list Z)) :
  store (self s) = Stored a ->
  decode_slices json_loads arg = Ok ss ->
  read_data_page json_loads from_idx to_idx step arg s
  = match mapM (page_slice from_idx to_idx (match step with None => 1 | Some k => k end)
                           ss (shape a))
               (seq 0 (length (shape a))) with
    | Ok slices =>
        ((data <- nd_getitem a (map ISlice slices) ;; squeeze_page data)%result,
         MkState (self s)
                 (trace s ++ [GetDataShape "data"; GetData "data" (map ISlice slices)]))
    | Raise e => (Raise e, MkState (self s) (trace s ++ [GetDataShape "data"]))
    end.
Proof.
  intros Hstore Hdec.
  destruct (mapM _ _) as [slices|e] eqn:Hmap.
  - now apply (read_data_page_stored _ _ _ _ _ _ _ ss).
  - unfold read_data_page.
    unfold bind at 1. unfold lift at 1. rewrite Hdec.
    rewrite (bind_ok _ _ _ _ _ (read_data_shape_stored _ _ Hstore)).
    unfold bind at 1. unfold lift at 1. now rewrite Hmap.
Qed.

Lemma mapM_raise {A B} (f : A -> result B) (l : list A) (e : exn) :
  (forall x, In x l -> (exists y, f x = Ok y) \/ f x = Raise e) ->
  (exists x, In x l /\ f x = Raise e) ->
  mapM f l = Raise e.
Proof.
  induction l as [|x l IH]; intros Hall (x0 & Hin & Hx0); [contradiction|].
  cbn [mapM]. destruct (Hall x (or_introl eq_refl)) as [(y & Hy)|Hy]; rewrite Hy;
    [|reflexivity].
  cbn [rbind]. rewrite IH; [reflexivity | intros z Hz; apply Hall; now right |].
  destruct Hin as [->|Hin]; [congruence|]. now exists x0.
Qed.

Lemma getitem_cases {A} (l : list A) (i : nat) :
  (exists x, getitem l i = Ok x) \/ getitem l i = Raise IndexError.
Proof. unfold getitem. destruct (nth_error l i); eauto. Qed.

Lemma page_slice_cases (from_idx to_idx step : Z) (ss : option (list Z))
      (sh : list nat) (i : nat) :
  (exists sl, page_slice from_idx to_idx step ss sh i = Ok sl) \/
  page_slice from_idx to_idx step ss sh i = Raise IndexError.
Proof.
  unfold page_slice.
  destruct (i =? 0)%nat.
  { destruct (getitem_cases sh 0) as [(x & ->)| ->]; cbn; eauto. }
  destruct (i =? 2)%nat.
  { destruct (getitem_cases sh i) as [(x & ->)| ->]; cbn; eauto. }
  destruct ss as [l|]; [|eauto].
  destruct (getitem_cases l i) as [(k & ->)| ->]; cbn; [|eauto].
  destruct (getitem_cases sh i) as [(x & ->)| ->]; cbn; eauto.
Qed.

(** X6: a [specific_slices] list too short for an axis it must index makes
    [read_data_page] raise [IndexError] once the shape is known, before
    any data is requested from the store. *)
Theorem read_data_page_short_slices (json_loads : string -> result json) (s : state)
        (a : ndarray) (from_idx to_idx : Z) (step : option Z)
        (arg : option slices_arg) (l : list Z) (i : nat) :
  store (self s) = Stored a ->
  decode_slices json_loads arg = Ok (Some l) ->
  (0 < i < ndim a)%nat -> i <> 2%nat -> (length l <= i)%nat ->
  read_data_page json_loads from_idx to_idx step arg s
  = (Raise IndexError, MkState (self s) (trace s ++ [GetDataShape "data"])).
Proof.
  intros Hstore Hdec Hi H2 Hl.
  rewrite (read_data_page_run _ _ _ _ _ _ _ _ Hstore Hdec).
  rewrite (mapM_raise _ _ IndexError); [reflexivity | |].
  - intros k _. apply page_slice_cases.
  - exists i. split; [apply in_seq; unfold ndim in Hi; lia|].
    unfold page_slice.
    destruct (Nat.eqb_spec i 0); [lia|]. destruct (Nat.eqb_spec i 2); [contradiction|].
    unfold getitem at 1. now rewrite (proj2 (nth_error_None l i) Hl).
Qed.

Lemma read_data_page_short_slices_witness :
  read_data_page no_json 0 2 None (Some (SlicesList [0]))
                 (series_of (arange_array [3; 2; 4]%nat) 1%float)
  = (Raise IndexError,
     MkState (self (series_of (arange_array [3; 2; 4]%nat) 1%float))
             [GetDataShape "data"]).
Proof.
  apply (read_data_page_short_slices no_json
           (series_of (arange_array [3; 2; 4]%nat) 1%float)
           (arange_array [3; 2; 4]%nat) 0 2 None (Some (SlicesList [0])) [0] 1%nat
           eq_refl eq_refl); cbn; lia.
Defined.

Lemma mapM_ext {A B} (f g : A -> result B) (l : list A) :
  (forall x, In x l -> f x = g x) -> mapM f l = mapM g l.
Proof.
  induction l as [|x l IH]; intros H; [reflexivity|].
  cbn [mapM]. rewrite (H x (or_introl eq_refl)).
  rewrite IH by (intros y Hy; apply H; now right). reflexivity.
Qed.

(** X7: a request that reaches past the end of the data is the request that
    ends at the true extent: same page or exception, same requests to the
    store. *)
Theorem read_data_page_over_long_request (json_loads : string -> result json)
        (s : state) (a : ndarray) (T : nat) (rest : list nat) (from_idx to_idx : Z)
        (step : option Z) (arg : option slices_arg) :
  store (self s) = Stored a -> shape a = T :: rest -> Z.of_nat T <= to_idx ->
  read_data_page json_loads from_idx to_idx step arg s
  = read_data_page json_loads from_idx (Z.of_nat T) step arg s.
Proof.
  intros Hstore Hshape Hto.
  destruct (decode_slices json_loads arg) as [ss|e] eqn:Hdec.
  - rewrite !(read_data_page_run _ _ _ _ _ _ _ _ Hstore Hdec).
    rewrite (mapM_ext
               (page_slice from_idx to_idx (match step with None => 1 | Some k => k end)
                           ss (shape a))
               (page_slice from_idx (Z.of_nat T)
                           (match step with None => 1 | Some k => k end) ss (shape a)));
      [reflexivity|].
    intros i _. unfold page_slice. destruct (i =? 0)%nat; [|reflexivity].
    rewrite Hshape. cbn [getitem nth_error rbind]. now rewrite Z.min_r, Z.min_id by lia.
  - unfold read_data_page, bind, lift. now rewrite Hdec.
Qed.

Lemma read_data_page_over_long_request_witness :
  read_data_page no_json 1 50 None None (series_of (arange_array [3; 2; 2]%nat) 1%float)
  = read_data_page no_json 1 3 None None (series_of (arange_array [3; 2; 2]%nat) 1%float).
Proof.
  apply (read_data_page_over_long_request no_json
           (series_of (arange_array [3; 2; 2]%nat) 1%float)
           (arange_array [3; 2; 2]%nat) 3 [2; 2]%nat 1 50 None None eq_refl eq_refl).
  cbn. lia.
Defined.

(** ** Requests that never reach the data *)

(** X8: when the store cannot report the shape of ['data'], every read method
    raises the domain-specific [TVBException] after one shape request and
    one logged message, and requests no data; [configure] fails the same
    way and assigns nothing. *)
Theorem unreadable_store_stops_reads
        (json_loads : string -> result json)
        (numpy_mean numpy_median numpy_var numpy_std : ndarray -> float)
        (s : state) (e : exn) (from_idx to_idx x y z : Z) (step : option Z)
        (arg : option slices_arg) (ss : option (list Z)) :
  store (self s) = Unreadable e -> is_TVBException e = true ->
  decode_slices json_loads arg = Ok ss ->
  let failed :=
    MkState (self s)
            (trace s ++ [GetDataShape "data";
                         LoggerException "Could not read data shape for TS!"]) in
  let invalid := TVBException "Invalid empty TimeSeries!" in
  read_data_page json_loads from_idx to_idx step arg s = (Raise invalid, failed) /\
  get_rotated_volume_slice from_idx to_idx s = (Raise invalid, failed) /\
  get_volume_view from_idx to_idx x y z s = (Raise invalid, failed) /\
  get_voxel_time_series numpy_mean numpy_median numpy_var numpy_std x y z s
  = (Raise invalid, failed) /\
  configure plain_configure s = (Raise invalid, failed).
Proof.
  intros Hstore He Hdec failed invalid.
  pose proof (read_data_shape_replaced s e Hstore He) as Hshape.
  repeat split.
  - unfold read_data_page. unfold bind at 1. unfold lift at 1. rewrite Hdec.
    now rewrite (bind_raise _ _ _ _ _ Hshape).
  - unfold get_rotated_volume_slice. now rewrite (bind_raise _ _ _ _ _ Hshape).
  - unfold get_volume_view. now rewrite (bind_raise _ _ _ _ _ Hshape).
  - unfold get_voxel_time_series. now rewrite (bind_raise _ _ _ _ _ Hshape).
  - unfold configure, plain_configure. unfold bind at 1. unfold ret at 1.
    now rewrite (bind_raise _ _ _ _ _ Hshape).
Qed.

Lemma unreadable_store_stops_reads_witness :
  get_rotated_volume_slice 0 1
    (MkState (MkTimeSeries (Unreadable (TVBException "no dataset")) 1%float 0%float
                           0 0%float 0 0 0 0 []) [])
  = (Raise (TVBException "Invalid empty TimeSeries!"),
     MkState (MkTimeSeries (Unreadable (TVBException "no dataset")) 1%float 0%float
                           0 0%float 0 0 0 0 [])
             [GetDataShape "data"; LoggerException "Could not read data shape for TS!"]).
Proof.
  exact (proj1 (proj2 (unreadable_store_stops_reads
                         no_json no_statistic no_statistic no_statistic no_statistic
                         (MkState (MkTimeSeries (Unreadable (TVBException "no dataset"))
                                                1%float 0%float 0 0%float 0 0 0 0 []) [])
                         (TVBException "no dataset") 0 1 0 0 0 None None None
                         eq_refl eq_refl eq_refl))).
Defined.

(** X9: a volume query refused for its time bounds has asked the store for the
    shape and for nothing else. *)
Theorem refused_volume_queries_read_no_data
        (s : state) (a : ndarray) (n0 : nat) (rest : list nat)
        (from_idx to_idx x y z : Z) :
  store (self s) = Stored a -> shape a = n0 :: rest ->
  from_idx < 0 \/ from_idx > to_idx \/ to_idx > Z.of_nat n0 ->
  snd (get_rotated_volume_slice from_idx to_idx s)
  = MkState (self s) (trace s ++ [GetDataShape "data"]) /\
  snd (get_volume_view from_idx to_idx x y z s)
  = MkState (self s) (trace s ++ [GetDataShape "data"]).
Proof.
  intros Hstore Hshape Hbad.
  assert (E : (from_idx >? to_idx) || (to_idx >? Z.of_nat n0) || (from_idx <? 0) = true).
  { destruct ((from_idx >? to_idx) || (to_idx >? Z.of_nat n0) || (from_idx <? 0)) eqn:E;
      [reflexivity|]. apply bad_time_false in E. lia. }
  split.
  - unfold get_rotated_volume_slice.
    rewrite (bind_ok _ _ _ _ _ (read_data_shape_stored _ _ Hstore)). rewrite Hshape.
    rewrite (bind_ok _ _ _ _ _ (bad_time_indexes_spec _ _ _ _ _)). now rewrite E.
  - unfold get_volume_view.
    rewrite (bind_ok _ _ _ _ _ (read_data_shape_stored _ _ Hstore)). rewrite Hshape.
    rewrite (bind_ok _ _ _ _ _ (bad_time_indexes_spec _ _ _ _ _)). now rewrite E.
Qed.

Lemma refused_volume_queries_read_no_data_witness :
  snd (get_volume_view 2 1 0 0 0 (series_of (arange_array [4; 2; 2; 3]%nat) 1%float))
  = MkState (self (series_of (arange_array [4; 2; 2; 3]%nat) 1%float))
            [GetDataShape "data"].
Proof.
  exact (proj2 (refused_volume_queries_read_no_data
                  (series_of (arange_array [4; 2; 2; 3]%nat) 1%float)
                  (arange_array [4; 2; 2; 3]%nat) 4 [2; 2; 3]%nat 2 1 0 0 0
                  eq_refl eq_refl ltac:(right; left; lia))).
Defined.

(** ** Voxel time series: validation *)

(** [get_voxel_time_series] on a stored 4-D array, once validation has
    passed. *)
Lemma get_voxel_time_series_run
      (numpy_mean numpy_median numpy_var numpy_std : ndarray -> float)
      (s : state) (a : ndarray) (n0 n1 n2 n3 : nat) (x y z : Z) :
  store (self s) = Stored a -> shape a = [n0; n1; n2; n3] ->
  x <= Z.of_nat n1 -> y <= Z.of_nat n2 -> z <= Z.of_nat n3 ->
  get_voxel_time_series numpy_mean numpy_median numpy_var numpy_std x y z s
  = ((r1 <- nd_getitem a [ISlice (slice_to (Z.of_nat n0));
                          ISlice (Slice (Some x) (Some (x + 1)) None);
                          ISlice (Slice (Some y) (Some (y + 1)) None);
                          ISlice (slice_to (Z.of_nat n3))] ;;
      r2 <- nd_getitem r1 reverse_last ;;
      r3 <- nd_getitem r2 [IEllipsis; IInt z] ;;
      hi <- py_max (buf (flatten r3)) ;;
      lo <- py_min (buf (flatten r3)) ;;
      Ok (MkVoxelSeries (tolist (flatten r3)) hi lo (numpy_mean (flatten r3))
                        (numpy_median (flatten r3)) (numpy_var (flatten r3))
                        (numpy_std (flatten r3))))%result,
     MkState (self s)
       (trace s ++ [GetDataShape "data";
                    GetData "data" [ISlice (slice_to (Z.of_nat n0));
                                    ISlice (Slice (Some x) (Some (x + 1)) None);
                                    ISlice (Slice (Some y) (Some (y + 1)) None);
                                    ISlice (slice_to (Z.of_nat n3))]])).
Proof.
  intros Hstore Hshape Hx Hy Hz. unfold get_voxel_time_series.
  rewrite (bind_ok _ _ _ _ _ (read_data_shape_stored _ _ Hstore)). rewrite Hshape.
  rewrite (bind_ok _ _ _ _ _ (bad_coordinates_spec _ _ _ _ _ _ _ _ _)).
  replace ((x >? Z.of_nat n1) || (y >? Z.of_nat n2) || (z >? Z.of_nat n3)) with false
    by (symmetry; apply bad_coordinates_false; lia).
  unfold bind at 1. unfold lift at 1. cbn [getitem nth_error].
  unfold bind at 1. unfold lift at 1. cbn [getitem nth_error].
  unfold bind at 1. erewrite read_data_slice_stored by exact Hstore.
  cbn [self trace]. rewrite <- app_assoc. cbn [app].
  destruct (nd_getitem a _) as [r1|e1]; [|reflexivity]. cbn [rbind].
  unfold bind at 1. unfold lift at 1.
  destruct (nd_getitem r1 reverse_last) as [r2|e2]; [|reflexivity]. cbn [rbind].
  unfold bind at 1. unfold lift at 1.
  destruct (nd_getitem r2 _) as [r3|e3]; [|reflexivity]. cbn [rbind].
  unfold bind at 1. unfold lift at 1.
  destruct (py_max _) as [hi|e4]; [|reflexivity]. cbn [rbind].
  unfold bind at 1. unfold lift at 1.
  destruct (py_min _) as [lo|e5]; reflexivity.
Qed.

Lemma py_max_cases (l : list float) :
  (l = [] /\ py_max l = Raise ValueError) \/ (l <> [] /\ exists m, py_max l = Ok m).
Proof. destruct l; [left | right]; split; try reflexivity; [discriminate | eexists; reflexivity]. Qed.

Lemma py_min_cases (l : list float) :
  (l = [] /\ py_min l = Raise ValueError) \/ (l <> [] /\ exists m, py_min l = Ok m).
Proof. destruct l; [left | right]; split; try reflexivity; [discriminate | eexists; reflexivity]. Qed.

(** X10: on a 4-D series [get_voxel_time_series] raises [ValidationException],
    naming the three coordinates, exactly when one of them exceeds the
    extent of its axis, and then requests no data; coordinates are not
    checked from below. *)
Theorem get_voxel_time_series_validates
        (numpy_mean numpy_median numpy_var numpy_std : ndarray -> float)
        (s : state) (a : ndarray) (n0 n1 n2 n3 : nat) (x y z : Z) :
  store (self s) = Stored a -> shape a = [n0; n1; n2; n3] ->
  (x > Z.of_nat n1 \/ y > Z.of_nat n2 \/ z > Z.of_nat n3 ->
   get_voxel_time_series numpy_mean numpy_median numpy_var numpy_std x y z s
   = (Raise (ValidationException
               ("Coordinates out of boundaries: [x,y,z] = [" ++ str_of_int x ++ ", "
                ++ str_of_int y ++ ", " ++ str_of_int z ++ "]")),
      MkState (self s) (trace s ++ [GetDataShape "data"]))) /\
  (x <= Z.of_nat n1 -> y <= Z.of_nat n2 -> z <= Z.of_nat n3 ->
   is_ValidationException_result
     (fst (get_voxel_time_series numpy_mean numpy_median numpy_var numpy_std x y z s))
   = false /\
   trace (snd (get_voxel_time_series numpy_mean numpy_median numpy_var numpy_std x y z s))
   = trace s ++ [GetDataShape "data";
                 GetData "data" [ISlice (slice_to (Z.of_nat n0));
                                 ISlice (Slice (Some x) (Some (x + 1)) None);
                                 ISlice (Slice (Some y) (Some (y + 1)) None);
                                 ISlice (slice_to (Z.of_nat n3))]]).
Proof.
  intros Hstore Hshape. split.
  - intros Hbad. unfold get_voxel_time_series.
    rewrite (bind_ok _ _ _ _ _ (read_data_shape_stored _ _ Hstore)). rewrite Hshape.
    rewrite (bind_ok _ _ _ _ _ (bad_coordinates_spec _ _ _ _ _ _ _ _ _)).
    destruct ((x >? Z.of_nat n1) || (y >? Z.of_nat n2) || (z >? Z.of_nat n3)) eqn:E;
      [reflexivity|].
    apply bad_coordinates_false in E. lia.
  - intros Hx Hy Hz.
    rewrite (get_voxel_time_series_run _ _ _ _ _ _ _ _ _ _ _ _ _ Hstore Hshape Hx Hy Hz).
    cbn [fst snd trace]. split; [|reflexivity].
    destruct a as [sh b]. cbn [shape] in Hshape. subst sh.
    destruct (slice_select_ok (Slice (Some x) (Some (x + 1)) None) n1) as (lx & Hlx);
      [discriminate|].
    destruct (slice_select_ok (Slice (Some y) (Some (y + 1)) None) n2) as (ly & Hly);
      [discriminate|].
    rewrite (nd_getitem_slices4 _ _ _ _ _ _ _ _ _ _ _ _ _
               (slice_select_to n0) Hlx Hly (slice_select_to n3)).
    cbn [map rbind]. rewrite nd_getitem_reverse_last4. cbn [map rbind].
    rewrite nd_getitem_depth.
    match goal with |- context [normalize_index z ?n] =>
      destruct (normalize_index_cases z n) as [(_ & k & -> & _)|(_ & ->)]
    end; [|reflexivity].
    cbn [rbind].
    match goal with |- context [py_max ?l] =>
      destruct (py_max_cases l) as [(_ & ->)|(Hne & hi & ->)]
    end; [reflexivity|]. cbn [rbind].
    match goal with |- context [py_min ?l] =>
      destruct (py_min_cases l) as [(_ & ->)|(_ & lo & ->)]
    end; reflexivity.
Qed.

Lemma get_voxel_time_series_validates_witness :
  fst (get_voxel_time_series no_statistic no_statistic no_statistic no_statistic 0 5 0
         (series_of (arange_array [4; 2; 2; 3]%nat) 1%float))
  = Raise (ValidationException "Coordinates out of boundaries: [x,y,z] = [0, 5, 0]").
Proof.
  destruct (get_voxel_time_series_validates
              no_statistic no_statistic no_statistic no_statistic
              (series_of (arange_array [4; 2; 2; 3]%nat) 1%float)
              (arange_array [4; 2; 2; 3]%nat) 4 2 2 3 0 5 0 eq_refl eq_refl)
    as (Hrefused & _).
  now rewrite Hrefused by (right; left; lia).
Defined.

(** ** Nested lists and unit axes *)

(** Reading a nested list at a position is reading the array there. *)
Lemma py_get_tolist_at (sh ix : list nat) (b : list float) :
  py_get ix (tolist_at sh b) = get_at sh ix b.
Proof.
  revert ix b. induction sh as [|n sh IH]; intros ix b.
  - cbn [tolist_at get_at]. destruct ix as [|i ix], b as [|x b]; try reflexivity.
    cbn. now destruct i.
  - cbn [tolist_at]. destruct ix as [|i ix]; [reflexivity|].
    cbn [py_get get_at]. rewrite nth_error_map, nth_error_seq.
    destruct (i <? n)%nat; [|reflexivity]. cbn [option_map Nat.add]. apply IH.
Qed.

Lemma py_get_tolist (a : ndarray) (ix : list nat) : py_get ix (tolist a) = nd_get a ix.
Proof. apply py_get_tolist_at. Qed.

Lemma prod_app (sh1 sh2 : list nat) : prod (sh1 ++ sh2) = (prod sh1 * prod sh2)%nat.
Proof.
  unfold prod. induction sh1 as [|n sh1 IH]; cbn [app fold_right].
  - now rewrite Nat.mul_1_l.
  - rewrite IH. apply Nat.mul_assoc.
Qed.

Lemma chunk_whole (P : nat) (b : list float) : length b = P -> chunk P 0 b = b.
Proof. intros <-. unfold chunk. cbn [Nat.mul skipn]. apply firstn_all. Qed.

(** An axis of extent 1, read at position 0, can be added or removed
    without changing what an index reads. *)
Lemma get_at_unit_axis (sh1 sh2 ix1 ix2 : list nat) (b : list float) :
  length sh1 = length ix1 -> length b = prod (sh1 ++ sh2) ->
  get_at (sh1 ++ 1%nat :: sh2) (ix1 ++ 0%nat :: ix2) b = get_at (sh1 ++ sh2) (ix1 ++ ix2) b.
Proof.
  revert ix1 b. induction sh1 as [|n sh1 IH]; intros ix1 b Hlen Hb.
  - destruct ix1; [|discriminate]. cbn [app get_at Nat.ltb Nat.leb].
    cbn [app] in Hb. now rewrite chunk_whole.
  - destruct ix1 as [|i ix1]; [discriminate|]. cbn [app get_at].
    destruct (Nat.ltb_spec i n); [|reflexivity].
    assert (E : prod (sh1 ++ 1%nat :: sh2) = prod (sh1 ++ sh2)).
    { rewrite !prod_app. f_equal. unfold prod. cbn [fold_right]. apply Nat.mul_1_l. }
    rewrite E. apply IH; [cbn in Hlen; lia|].
    apply (chunk_length _ n); [exact Hb | exact H].
Qed.

Lemma nth_error_chunk_unit (b : list float) (i : nat) :
  nth_error (chunk 1 i b) 0 = nth_error b i.
Proof.
  unfold chunk. rewrite nth_error_firstn. cbn [Nat.ltb Nat.leb].
  now rewrite nth_error_skipn, Nat.mul_1_r, Nat.add_0_r.
Qed.

(** Position [t] of a 1-D array. *)
Lemma get_at_vector (n t : nat) (b : list float) :
  (t < n)%nat -> get_at [n] [t] b = nth_error b t.
Proof.
  intros H. cbn [get_at prod fold_right].
  destruct (Nat.ltb_spec t n); [|lia]. apply nth_error_chunk_unit.
Qed.

Lemma tolist_vector (b : list float) :
  tolist (NdArray [length b] b) = PyList (map PyNum b).
Proof.
  unfold tolist. cbn [shape buf tolist_at prod fold_right]. f_equal.
  apply nth_error_ext. intros i. rewrite !nth_error_map, nth_error_seq.
  destruct (Nat.ltb_spec i (length b)) as [Hi|Hi].
  - cbn [option_map Nat.add tolist_at].
    pose proof (nth_error_chunk_unit b i) as E.
    destruct (chunk 1 i b) as [|x c]; cbn [nth_error] in E; rewrite <- E; [|reflexivity].
    apply nth_error_Some in Hi. now rewrite <- E in Hi.
  - now rewrite (proj2 (nth_error_None b i)) by lia.
Qed.

Lemma gather_no_selection (sh : list nat) (sels : list (list nat)) (b : list float) :
  length sh = length sels -> In [] sels -> gather sh sels b = [].
Proof.
  revert sels b. induction sh as [|n sh IH]; intros sels b Hlen Hin.
  - destruct sels; [contradiction | discriminate].
  - destruct sels as [|sel sels]; [contradiction|]. cbn [gather].
    destruct Hin as [->|Hin]; [reflexivity|].
    assert (Hsh : length sh = length sels) by (cbn in Hlen; lia).
    clear Hlen. induction sel as [|i sel IHsel]; [reflexivity|].
    cbn [flat_map]. rewrite (IH _ _ Hsh Hin). exact IHsel.
Qed.

Lemma slice_select_unit_range (x : Z) (n : nat) :
  slice_select (Slice (Some x) (Some (x + 1)) None) n
  = Ok (if (0 <=? x) && (x <? Z.of_nat n) then [Z.to_nat x]
        else if (x <? -1) && (- Z.of_nat n <=? x) then [Z.to_nat (x + Z.of_nat n)]
        else []).
Proof.
  set (len := Z.of_nat n).
  assert (H : exists start stop,
             slice_indices (Slice (Some x) (Some (x + 1)) None) n = Ok (start, stop, 1)
             /\ 0 <= start
             /\ ((0 <= x < len /\ start = x /\ stop = x + 1) \/
                 (x < -1 /\ - len <= x /\ start = x + len /\ stop = x + 1 + len) \/
                 (~ (0 <= x < len) /\ ~ (x < -1 /\ - len <= x) /\ stop <= start))).
  { unfold slice_indices. cbn [sl_step sl_start sl_stop Z.eqb Z.ltb Z.compare].
    fold len. eexists. eexists. split; [reflexivity|].
    destruct (Z.ltb_spec x 0), (Z.ltb_spec (x + 1) 0); lia. }
  destruct H as (start & stop & Hind & Hstart & Hcases).
  rewrite (slice_select_unit _ _ _ _ _ Hind eq_refl Hstart). f_equal.
  destruct (Z.leb_spec 0 x), (Z.ltb_spec x len), (Z.ltb_spec x (-1)),
    (Z.leb_spec (- len) x); cbn [andb];
    destruct Hcases as [(? & -> & ->)|[(? & ? & -> & ->)|(? & ? & ?)]]; try lia;
    try (replace (x + 1 - x) with 1 by lia; reflexivity);
    try (replace (x + 1 + len - (x + len)) with 1 by lia; reflexivity);
    try (replace (Z.to_nat (stop - start)) with 0%nat by lia; reflexivity).
Qed.

(** ** Voxel time series: the time course and its failures *)

(** The array [get_voxel_time_series] flattens, for selections [lx] and
    [ly] of the two middle axes. *)
Lemma voxel_course_array (n0 n1 n2 n3 : nat) (b : list float) (x y z : Z)
      (lx ly : list nat) :
  slice_select (Slice (Some x) (Some (x + 1)) None) n1 = Ok lx ->
  slice_select (Slice (Some y) (Some (y + 1)) None) n2 = Ok ly ->
  (r1 <- nd_getitem (NdArray [n0; n1; n2; n3] b)
                    [ISlice (slice_to (Z.of_nat n0));
                     ISlice (Slice (Some x) (Some (x + 1)) None);
                     ISlice (Slice (Some y) (Some (y + 1)) None);
                     ISlice (slice_to (Z.of_nat n3))] ;;
   r2 <- nd_getitem r1 reverse_last ;;
   nd_getitem r2 [IEllipsis; IInt z])%result
  = (k <- normalize_index z n3 ;;
     Ok (NdArray [n0; length lx; length ly]
                 (gather [n0; length lx; length ly; n3]
                         [seq 0 n0; seq 0 (length lx); seq 0 (length ly); [k]]
                         (gather [n0; length lx; length ly; n3]
                                 [seq 0 n0; seq 0 (length lx); seq 0 (length ly);
                                  rev (seq 0 n3)]
                                 (gather [n0; n1; n2; n3] [seq 0 n0; lx; ly; seq 0 n3] b)))))%result.
Proof.
  intros Hlx Hly.
  rewrite (nd_getitem_slices4 _ _ _ _ _ _ _ _ _ _ _ _ _
             (slice_select_to n0) Hlx Hly (slice_select_to n3)).
  cbn [map rbind]. rewrite !length_seq.
  rewrite nd_getitem_reverse_last4. cbn [map rbind]. rewrite length_rev, !length_seq.
  rewrite nd_getitem_depth. cbn [map]. rewrite !length_seq. reflexivity.
Qed.

(** The time course of a voxel, element by element. *)
Lemma voxel_course_get (n0 n1 n2 n3 X Y K : nat) (b : list float) :
  length b = prod [n0; n1; n2; n3] -> (X < n1)%nat -> (Y < n2)%nat -> (K < n3)%nat ->
  length (gather [n0; 1; 1; n3]%nat [seq 0 n0; seq 0 1; seq 0 1; [K]]
            (gather [n0; 1; 1; n3]%nat [seq 0 n0; seq 0 1; seq 0 1; rev (seq 0 n3)]
               (gather [n0; n1; n2; n3] [seq 0 n0; [X]; [Y]; seq 0 n3] b))) = n0 /\
  forall t, (t < n0)%nat ->
    nth_error (gather [n0; 1; 1; n3]%nat [seq 0 n0; seq 0 1; seq 0 1; [K]]
                 (gather [n0; 1; 1; n3]%nat [seq 0 n0; seq 0 1; seq 0 1; rev (seq 0 n3)]
                    (gather [n0; n1; n2; n3] [seq 0 n0; [X]; [Y]; seq 0 n3] b))) t
    = get_at [n0; n1; n2; n3] [t; X; Y; (n3 - 1 - K)%nat] b.
Proof.
  intros Hwf HX HY HK.
  set (sels1 := [seq 0 n0; [X]; [Y]; seq 0 n3]).
  set (sels2 := [seq 0 n0; seq 0 1; seq 0 1; rev (seq 0 n3)]).
  set (sels3 := [seq 0 n0; seq 0 1; seq 0 1; [K]]).
  set (b1 := gather [n0; n1; n2; n3] sels1 b).
  set (b2 := gather [n0; 1%nat; 1%nat; n3] sels2 b1).
  set (course := gather [n0; 1%nat; 1%nat; n3] sels3 b2).
  assert (E1 : map (@length nat) sels1 = [n0; 1; 1; n3]%nat)
    by (cbn; now rewrite !length_seq).
  assert (E2 : map (@length nat) sels2 = [n0; 1; 1; n3]%nat)
    by (cbn; now rewrite length_rev, !length_seq).
  assert (E3 : map (@length nat) sels3 = [n0; 1; 1; 1]%nat)
    by (cbn; now rewrite !length_seq).
  assert (R1 : in_range [n0; n1; n2; n3] sels1).
  { repeat constructor; try (apply seq_in_range; lia); lia. }
  assert (R2 : in_range [n0; 1; 1; n3]%nat sels2).
  { repeat constructor; try (apply seq_in_range; lia). apply rev_seq_in_range. }
  assert (R3 : in_range [n0; 1; 1; n3]%nat sels3).
  { repeat constructor; try (apply seq_in_range; lia). lia. }
  assert (W1 : length b1 = prod [n0; 1; 1; n3]%nat).
  { unfold b1. rewrite <- E1. now apply gather_length. }
  assert (W2 : length b2 = prod [n0; 1; 1; n3]%nat).
  { unfold b2. rewrite <- E2 at 2. now apply gather_length. }
  assert (W3 : length course = n0).
  { unfold course. rewrite (gather_length _ _ _ R3 W2), E3. cbn. lia. }
  split; [exact W3|].
  intros t Ht.
  rewrite <- (get_at_vector n0 t course Ht).
  change [n0] with ([n0] ++ []). change [t] with ([t] ++ []).
  rewrite <- (get_at_unit_axis [n0] [] [t] [])
    by (cbn [app prod fold_right length]; lia).
  rewrite <- (get_at_unit_axis [n0] [1%nat] [t] [0%nat])
    by (cbn [app prod fold_right length]; lia).
  rewrite <- (get_at_unit_axis [n0] [1; 1]%nat [t] [0; 0]%nat)
    by (cbn [app prod fold_right length]; lia).
  cbn [app]. rewrite <- E3. unfold course.
  rewrite gather_get; [|exact R3|exact W2|].
  2: { unfold sels3. repeat constructor; rewrite ?length_seq; cbn; lia. }
  unfold sels3. cbn [combine map fst snd nth].
  rewrite !seq_nth by lia. cbn [Nat.add].
  rewrite <- E2. unfold b2. rewrite gather_get; [|exact R2|exact W1|].
  2: { unfold sels2. repeat constructor; rewrite ?length_rev, length_seq; lia. }
  unfold sels2. cbn [combine map fst snd].
  rewrite !seq_nth, nth_rev_seq by lia. cbn [Nat.add].
  rewrite <- E1. unfold b1. rewrite gather_get; [|exact R1|exact Hwf|].
  2: { unfold sels1. repeat constructor; rewrite ?length_seq; cbn; lia. }
  unfold sels1. cbn [combine map fst snd nth].
  now rewrite !seq_nth by lia.
Qed.

(** X11: for a voxel inside the volume of a non-empty, well-formed 4-D series,
    [get_voxel_time_series] returns the time course
    [raw[t, x, y, shape[3] - 1 - z]] over the whole time axis, as a list,
    with the [max] and [min] of that course and numpy's statistics of it. *)
Theorem get_voxel_time_series_course
        (numpy_mean numpy_median numpy_var numpy_std : ndarray -> float)
        (s : state) (a : ndarray) (n0 n1 n2 n3 : nat) (x y z : Z) :
  store (self s) = Stored a -> wf a -> shape a = [n0; n1; n2; n3] ->
  (0 < n0)%nat ->
  0 <= x < Z.of_nat n1 -> 0 <= y < Z.of_nat n2 -> 0 <= z < Z.of_nat n3 ->
  exists course hi lo,
    length course = n0 /\
    (forall t, (t < n0)%nat ->
       nth_error course t
       = nd_get a [t; Z.to_nat x; Z.to_nat y; (n3 - 1 - Z.to_nat z)%nat] /\
       nth_error course t <> None) /\
    py_max course = Ok hi /\ py_min course = Ok lo /\
    fst (get_voxel_time_series numpy_mean numpy_median numpy_var numpy_std x y z s)
    = Ok (MkVoxelSeries (PyList (map PyNum course)) hi lo
                        (numpy_mean (NdArray [n0] course))
                        (numpy_median (NdArray [n0] course))
                        (numpy_var (NdArray [n0] course))
                        (numpy_std (NdArray [n0] course))).
Proof.
  intros Hstore Hwf Hshape Hn0 Hx Hy Hz.
  rewrite (get_voxel_time_series_run _ _ _ _ _ _ _ _ _ _ _ _ _ Hstore Hshape)
    by lia.
  destruct a as [sh b]. unfold wf in Hwf. cbn [shape buf] in *. subst sh.
  cbn [fst].
  pose proof (slice_select_unit_range x n1) as Hlx.
  pose proof (slice_select_unit_range y n2) as Hly.
  replace ((0 <=? x) && (x <? Z.of_nat n1)) with true in Hlx
    by (symmetry; apply andb_true_iff; split; [apply Z.leb_le | apply Z.ltb_lt]; lia).
  replace ((0 <=? y) && (y <? Z.of_nat n2)) with true in Hly
    by (symmetry; apply andb_true_iff; split; [apply Z.leb_le | apply Z.ltb_lt]; lia).
  pose proof (voxel_course_array n0 n1 n2 n3 b x y z _ _ Hlx Hly) as Harr.
  rewrite (normalize_index_on_axis z n3) in Harr by lia.
  cbn [rbind length] in Harr.
  set (X := Z.to_nat x) in *. set (Y := Z.to_nat y) in *. set (K := Z.to_nat z) in *.
  destruct (voxel_course_get n0 n1 n2 n3 X Y K b Hwf ltac:(unfold X; lia)
              ltac:(unfold Y; lia) ltac:(unfold K; lia)) as (W3 & Hget).
  set (course := gather [n0; 1%nat; 1%nat; n3] [seq 0 n0; seq 0 1; seq 0 1; [K]] _) in *.
  destruct (py_max_cases course) as [(Hnil & _)|(_ & hi & Hhi)];
    [rewrite Hnil in W3; cbn in W3; lia|].
  destruct (py_min_cases course) as [(Hnil & _)|(_ & lo & Hlo)];
    [rewrite Hnil in W3; cbn in W3; lia|].
  exists course, hi, lo. split; [exact W3|]. split.
  { intros t Ht. split; [now apply Hget|].
    apply nth_error_Some. lia. }
  split; [exact Hhi|]. split; [exact Hlo|].
  assert (Hbind : forall k : ndarray -> result voxel_series,
             (r1 <- nd_getitem (NdArray [n0; n1; n2; n3] b)
                      [ISlice (slice_to (Z.of_nat n0));
                       ISlice (Slice (Some x) (Some (x + 1)) None);
                       ISlice (Slice (Some y) (Some (y + 1)) None);
                       ISlice (slice_to (Z.of_nat n3))] ;;
              r2 <- nd_getitem r1 reverse_last ;;
              r3 <- nd_getitem r2 [IEllipsis; IInt z] ;; k r3)%result
             = (r3 <- (r1 <- nd_getitem (NdArray [n0; n1; n2; n3] b)
                      [ISlice (slice_to (Z.of_nat n0));
                       ISlice (Slice (Some x) (Some (x + 1)) None);
                       ISlice (Slice (Some y) (Some (y + 1)) None);
                       ISlice (slice_to (Z.of_nat n3))] ;;
                       r2 <- nd_getitem r1 reverse_last ;;
                       nd_getitem r2 [IEllipsis; IInt z]) ;; k r3)%result).
  { intros k. destruct (nd_getitem (NdArray [n0; n1; n2; n3] b) _) as [r1|]; [|reflexivity].
    cbn [rbind]. destruct (nd_getitem r1 reverse_last); reflexivity. }
  rewrite Hbind, Harr. cbn [rbind].
  unfold flatten. cbn [shape buf]. fold course.
  replace (prod [n0; 1; 1]%nat) with n0 by (cbn; lia).
  rewrite Hhi, Hlo. cbn [rbind]. do 2 f_equal.
  rewrite <- W3 at 1. apply tolist_vector.
Qed.

Lemma get_voxel_time_series_course_witness :
  exists course hi lo,
    fst (get_voxel_time_series no_statistic no_statistic no_statistic no_statistic 1 0 0
           (series_of (arange_array [2; 2; 1; 3]%nat) 1%float))
    = Ok (MkVoxelSeries (PyList (map PyNum course)) hi lo 0%float 0%float 0%float 0%float)
    /\ nth_error course 1 = Some 11%float.
Proof.
  destruct (get_voxel_time_series_course
              no_statistic no_statistic no_statistic no_statistic
              (series_of (arange_array [2; 2; 1; 3]%nat) 1%float)
              (arange_array [2; 2; 1; 3]%nat) 2 2 1 3 1 0 0
              eq_refl eq_refl eq_refl ltac:(lia) ltac:(lia) ltac:(lia) ltac:(lia))
    as (course & hi & lo & _ & Hget & _ & _ & Hrun).
  exists course, hi, lo. split; [exact Hrun|].
  rewrite (proj1 (Hget 1%nat ltac:(lia))). reflexivity.
Defined.

Example get_voxel_time_series_example :
  fst (get_voxel_time_series no_statistic no_statistic no_statistic no_statistic 1 0 0
         (series_of (arange_array [2; 2; 1; 3]%nat) 1%float))
  = Ok (MkVoxelSeries (PyList [PyNum 5; PyNum 11]) 11 5 0 0 0 0)%float.
Proof. reflexivity. Qed.

(** X12: a coordinate on the edge of the volume passes validation and then
    fails in another way: depth [z = shape[3]] indexes past the last axis
    ([IndexError]); [x = shape[1]] or [y = shape[2]], like [-1], selects an
    empty column, so does an empty time axis, and [max] of the empty time
    course raises [ValueError]. *)
Theorem get_voxel_time_series_edges
        (numpy_mean numpy_median numpy_var numpy_std : ndarray -> float)
        (s : state) (a : ndarray) (n0 n1 n2 n3 : nat) (x y z : Z) :
  store (self s) = Stored a -> shape a = [n0; n1; n2; n3] ->
  x <= Z.of_nat n1 -> y <= Z.of_nat n2 ->
  (z = Z.of_nat n3 ->
   fst (get_voxel_time_series numpy_mean numpy_median numpy_var numpy_std x y z s)
   = Raise IndexError) /\
  (- Z.of_nat n3 <= z < Z.of_nat n3 ->
   x = Z.of_nat n1 \/ x = -1 \/ y = Z.of_nat n2 \/ y = -1 \/ n0 = 0%nat ->
   fst (get_voxel_time_series numpy_mean numpy_median numpy_var numpy_std x y z s)
   = Raise ValueError).
Proof.
  intros Hstore Hshape Hx Hy.
  destruct a as [sh b]. cbn [shape] in Hshape. subst sh.
  assert (Hrun : z <= Z.of_nat n3 ->
             fst (get_voxel_time_series numpy_mean numpy_median numpy_var numpy_std x y z s)
             = (r3 <- (r1 <- nd_getitem (NdArray [n0; n1; n2; n3] b)
                               [ISlice (slice_to (Z.of_nat n0));
                                ISlice (Slice (Some x) (Some (x + 1)) None);
                                ISlice (Slice (Some y) (Some (y + 1)) None);
                                ISlice (slice_to (Z.of_nat n3))] ;;
                       r2 <- nd_getitem r1 reverse_last ;;
                       nd_getitem r2 [IEllipsis; IInt z]) ;;
                hi <- py_max (buf (flatten r3)) ;;
                lo <- py_min (buf (flatten r3)) ;;
                Ok (MkVoxelSeries (tolist (flatten r3)) hi lo (numpy_mean (flatten r3))
                                  (numpy_median (flatten r3)) (numpy_var (flatten r3))
                                  (numpy_std (flatten r3))))%result).
  { intros Hz.
    rewrite (get_voxel_time_series_run _ _ _ _ _ _ _ _ _ _ _ _ _ Hstore eq_refl Hx Hy Hz).
    cbn [fst].
    destruct (nd_getitem (NdArray [n0; n1; n2; n3] b) _) as [r1|]; [|reflexivity].
    cbn [rbind]. destruct (nd_getitem r1 reverse_last); reflexivity. }
  rewrite (voxel_course_array n0 n1 n2 n3 b x y z _ _
             (slice_select_unit_range x n1) (slice_select_unit_range y n2)) in Hrun.
  split.
  - intros Hz. rewrite Hrun by lia.
    destruct (normalize_index_cases z n3) as [(Hin & _)|(_ & ->)]; [lia | reflexivity].
  - intros Hz Hedge. rewrite Hrun by lia.
    destruct (normalize_index_cases z n3) as [(_ & k & -> & _)|(Hout & _)]; [|lia].
    cbn [rbind flatten buf shape].
    rewrite gather_no_selection; [reflexivity | reflexivity |].
    assert (Hempty : forall (v : Z) (n : nat),
               v <= Z.of_nat n -> v = Z.of_nat n \/ v = -1 ->
               (if (0 <=? v) && (v <? Z.of_nat n) then [Z.to_nat v]
                else if (v <? -1) && (- Z.of_nat n <=? v)
                     then [Z.to_nat (v + Z.of_nat n)] else []) = []).
    { intros v n Hv Hcase.
      destruct (Z.leb_spec 0 v), (Z.ltb_spec v (Z.of_nat n)), (Z.ltb_spec v (-1));
        cbn [andb]; try reflexivity; lia. }
    destruct Hedge as [E|[E|[E|[E|E]]]].
    + right. left. rewrite (Hempty x n1 Hx) by tauto. reflexivity.
    + right. left. rewrite (Hempty x n1 Hx) by tauto. reflexivity.
    + right. right. left. rewrite (Hempty y n2 Hy) by tauto. reflexivity.
    + right. right. left. rewrite (Hempty y n2 Hy) by tauto. reflexivity.
    + left. now rewrite E.
Qed.

Lemma get_voxel_time_series_edges_witness :
  fst (get_voxel_time_series no_statistic no_statistic no_statistic no_statistic 2 0 0
         (series_of (arange_array [2; 2; 1; 3]%nat) 1%float))
  = Raise ValueError /\
  fst (get_voxel_time_series no_statistic no_statistic no_statistic no_statistic 0 0 3
         (series_of (arange_array [2; 2; 1; 3]%nat) 1%float))
  = Raise IndexError.
Proof.
  split.
  - refine (proj2 (get_voxel_time_series_edges
                     no_statistic no_statistic no_statistic no_statistic
                     (series_of (arange_array [2; 2; 1; 3]%nat) 1%float)
                     (arange_array [2; 2; 1; 3]%nat) 2 2 1 3 2 0 0 eq_refl eq_refl
                     _ _) _ (or_introl eq_refl)); cbn; lia.
  - refine (proj1 (get_voxel_time_series_edges
                     no_statistic no_statistic no_statistic no_statistic
                     (series_of (arange_array [2; 2; 1; 3]%nat) 1%float)
                     (arange_array [2; 2; 1; 3]%nat) 2 2 1 3 0 0 3 eq_refl eq_refl
                     _ _) eq_refl); cbn; lia.
Defined.

(** ** The cross-sections of a volume view *)

(** The rotated sub-volume, element by element. *)
Lemma rotated_volume_get (n0 n1 n2 n3 F L : nat) (b : list float) (t i j k : nat) :
  length b = prod [n0; n1; n2; n3] -> (F + L <= n0)%nat ->
  (t < L)%nat -> (i < n1)%nat -> (j < n2)%nat -> (k < n3)%nat ->
  get_at [L; n1; n2; n3] [t; i; j; k]
         (gather [L; n1; n2; n3] [seq 0 L; seq 0 n1; seq 0 n2; rev (seq 0 n3)]
                 (gather [n0; n1; n2; n3] [seq F L; seq 0 n1; seq 0 n2; seq 0 n3] b))
  = get_at [n0; n1; n2; n3] [(F + t)%nat; i; j; (n3 - 1 - k)%nat] b.
Proof.
  intros Hwf HFL Ht Hi Hj Hk.
  set (sels1 := [seq F L; seq 0 n1; seq 0 n2; seq 0 n3]).
  set (sels2 := [seq 0 L; seq 0 n1; seq 0 n2; rev (seq 0 n3)]).
  assert (E1 : map (@length nat) sels1 = [L; n1; n2; n3])
    by (cbn; now rewrite !length_seq).
  assert (E2 : map (@length nat) sels2 = [L; n1; n2; n3])
    by (cbn; now rewrite length_rev, !length_seq).
  assert (R1 : in_range [n0; n1; n2; n3] sels1).
  { repeat constructor; apply seq_in_range; lia. }
  assert (R2 : in_range [L; n1; n2; n3] sels2).
  { repeat constructor; try (apply seq_in_range; lia). apply rev_seq_in_range. }
  assert (W1 : length (gather [n0; n1; n2; n3] sels1 b) = prod [L; n1; n2; n3]).
  { rewrite <- E1. now apply gather_length. }
  rewrite <- E2 at 1. rewrite gather_get; [|exact R2|exact W1|].
  2: { unfold sels2. repeat constructor; rewrite ?length_rev, length_seq; lia. }
  unfold sels2. cbn [combine map fst snd].
  rewrite !seq_nth, nth_rev_seq by lia. cbn [Nat.add].
  rewrite <- E1. rewrite gather_get; [|exact R1|exact Hwf|].
  2: { unfold sels1. repeat constructor; rewrite length_seq; lia. }
  unfold sels1. cbn [combine map fst snd].
  now rewrite !seq_nth by lia.
Qed.

Lemma rotated_volume_length (n0 n1 n2 n3 F L : nat) (b : list float) :
  length b = prod [n0; n1; n2; n3] -> (F + L <= n0)%nat ->
  length (gather [L; n1; n2; n3] [seq 0 L; seq 0 n1; seq 0 n2; rev (seq 0 n3)]
                 (gather [n0; n1; n2; n3] [seq F L; seq 0 n1; seq 0 n2; seq 0 n3] b))
  = prod [L; n1; n2; n3].
Proof.
  intros Hwf HFL.
  assert (E : map (@length nat) [seq 0 L; seq 0 n1; seq 0 n2; rev (seq 0 n3)]
              = [L; n1; n2; n3]) by (cbn; now rewrite length_rev, !length_seq).
  rewrite <- E at 2. apply gather_length.
  - repeat constructor; try (apply seq_in_range; lia). apply rev_seq_in_range.
  - assert (E1 : map (@length nat) [seq F L; seq 0 n1; seq 0 n2; seq 0 n3]
                 = [L; n1; n2; n3]) by (cbn; now rewrite !length_seq).
    rewrite <- E1. apply gather_length; [|exact Hwf].
    repeat constructor; apply seq_in_range; lia.
Qed.

(** One position fixed on one axis of a 4-D array, read as a 3-D array. *)
Lemma plane_get (sh1 sh2 ix1 ix2 : list nat) (m p : nat) (b : list float) :
  length sh1 = length ix1 -> length b = prod (sh1 ++ m :: sh2) -> (p < m)%nat ->
  Forall2 (fun i n => (i < n)%nat) (ix1 ++ ix2) (sh1 ++ sh2) ->
  get_at (sh1 ++ sh2) (ix1 ++ ix2)
         (gather (sh1 ++ m :: sh2)
                 (map (seq 0) sh1 ++ [p] :: map (seq 0) sh2) b)
  = get_at (sh1 ++ m :: sh2) (ix1 ++ p :: ix2) b.
Proof.
  intros Hlen Hwf Hp Hix.
  set (sels := map (seq 0) sh1 ++ [p] :: map (seq 0) sh2).
  assert (E : map (@length nat) sels = sh1 ++ 1%nat :: sh2).
  { unfold sels. rewrite map_app. cbn [map length]. rewrite !map_map.
    f_equal; [|f_equal]; rewrite <- (map_id sh1) at 2 || rewrite <- (map_id sh2) at 2;
      apply map_ext; intros n; apply length_seq. }
  assert (R : in_range (sh1 ++ m :: sh2) sels).
  { unfold sels, in_range. apply Forall2_app; [|constructor].
    - clear. induction sh1; constructor; [apply seq_in_range; lia | assumption].
    - constructor; [exact Hp | constructor].
    - clear. induction sh2; constructor; [apply seq_in_range; lia | assumption]. }
  assert (W : length (gather (sh1 ++ m :: sh2) sels b) = prod (sh1 ++ sh2)).
  { rewrite (gather_length _ _ _ R Hwf), E, !prod_app. f_equal.
    unfold prod. cbn [fold_right]. apply Nat.mul_1_l. }
  rewrite <- (get_at_unit_axis sh1 sh2 ix1 ix2) by assumption.
  rewrite <- E. rewrite gather_get; [|exact R|exact Hwf|].
  - f_equal. unfold sels.
    assert (Hsplit : Forall2 (fun i n => (i < n)%nat) ix1 sh1
                     /\ Forall2 (fun i n => (i < n)%nat) ix2 sh2).
    { apply Forall2_app_inv_l in Hix. destruct Hix as (l1 & l2 & H1 & H2 & Heq).
      assert (length ix1 = length l1) by (eapply Forall2_length; exact H1).
      assert (Hl : l1 = sh1 /\ l2 = sh2).
      { apply app_inj_tail_iff || idtac.
        clear - Heq Hlen H. revert l1 ix1 Heq Hlen H.
        induction sh1 as [|n sh1 IH]; intros [|n' l1] ix1 Heq Hlen H; cbn in *;
          try (destruct ix1; cbn in *; discriminate); [now split|].
        destruct ix1 as [|i ix1]; [discriminate|].
        injection Heq as <- Heq. cbn in *.
        destruct (IH l1 ix1 Heq ltac:(lia) ltac:(lia)) as (-> & ->). now split. }
      destruct Hl as (-> & ->). now split. }
    destruct Hsplit as (H1 & H2).
    assert (Hmap : forall ix sh, Forall2 (fun i n => (i < n)%nat) ix sh ->
               map (fun q : list nat * nat => nth (snd q) (fst q) 0%nat)
                   (combine (map (seq 0) sh) ix) = ix).
    { clear. induction 1 as [|i n ix sh Hi _ IH]; [reflexivity|].
      cbn [map combine fst snd]. now rewrite seq_nth, IH by assumption. }
    assert (Hcomb : forall (A B : Type) (l1 l2 : list A) (r1 r2 : list B),
               length l1 = length r1 ->
               combine (l1 ++ l2) (r1 ++ r2) = combine l1 r1 ++ combine l2 r2).
    { clear. intros A B l1. induction l1 as [|x l1 IH]; intros l2 [|y r1] r2 H;
        try discriminate; [reflexivity|]. cbn. f_equal. apply IH. cbn in H. lia. }
    rewrite Hcomb by (rewrite length_map; exact Hlen).
    rewrite map_app. cbn [combine map fst snd nth].
    now rewrite (Hmap _ _ H1), (Hmap _ _ H2).
  - unfold sels.
    assert (Hsplit : Forall2 (fun i n => (i < n)%nat) ix1 sh1
                     /\ Forall2 (fun i n => (i < n)%nat) ix2 sh2).
    { apply Forall2_app_inv_l in Hix. destruct Hix as (l1 & l2 & H1 & H2 & Heq).
      assert (length ix1 = length l1) by (eapply Forall2_length; exact H1).
      assert (Hl : l1 = sh1 /\ l2 = sh2).
      { clear - Heq Hlen H. revert l1 ix1 Heq Hlen H.
        induction sh1 as [|n sh1 IH]; intros [|n' l1] ix1 Heq Hlen H; cbn in *;
          try (destruct ix1; cbn in *; discriminate); [now split|].
        destruct ix1 as [|i ix1]; [discriminate|].
        injection Heq as <- Heq. cbn in *.
        destruct (IH l1 ix1 Heq ltac:(lia) ltac:(lia)) as (-> & ->). now split. }
      destruct Hl as (-> & ->). now split. }
    destruct Hsplit as (H1 & H2).
    apply Forall2_app; [|constructor].
    + clear - H1. induction H1; constructor; [now rewrite length_seq | assumption].
    + cbn. lia.
    + clear - H2. induction H2; constructor; [now rewrite length_seq | assumption].
Qed.

(** A valid Python index counts from the end when it is negative. *)
Lemma normalize_index_wraps (c : Z) (n : nat) :
  - Z.of_nat n <= c < Z.of_nat n ->
  normalize_index c n = Ok (Z.to_nat (c mod Z.of_nat n)) /\
  (Z.to_nat (c mod Z.of_nat n) < n)%nat.
Proof.
  intros H. unfold normalize_index.
  destruct (Z.ltb_spec c (- Z.of_nat n)); [lia|].
  destruct (Z.leb_spec (Z.of_nat n) c); [lia|]. cbn [orb].
  destruct (Z.ltb_spec c 0).
  - assert (E : c mod Z.of_nat n = c + Z.of_nat n).
    { symmetry. apply (Z.mod_unique_pos _ _ (-1)); lia. }
    rewrite E. split; [reflexivity | lia].
  - rewrite Z.mod_small by lia. split; [reflexivity | lia].
Qed.

(** X13: on a well-formed 4-D series, with a valid time window and each plane
    a valid Python index of its axis, [get_volume_view] returns three
    nested lists [slicex; slicey; slicez] over the requested time steps:
    [slicex] holds the plane of constant depth, [slicey] the plane of
    constant second coordinate and [slicez] the plane of constant third
    coordinate, all read with the depth axis reversed; a negative plane
    counts from the end of its axis. *)
Theorem get_volume_view_planes
        (s : state) (a : ndarray) (n0 n1 n2 n3 : nat) (from_idx to_idx x y z : Z) :
  store (self s) = Stored a -> shape a = [n0; n1; n2; n3] -> wf a ->
  0 <= from_idx <= to_idx -> to_idx <= Z.of_nat n0 ->
  - Z.of_nat n1 <= x < Z.of_nat n1 ->
  - Z.of_nat n2 <= y < Z.of_nat n2 ->
  - Z.of_nat n3 <= z < Z.of_nat n3 ->
  exists slicex slicey slicez,
    fst (get_volume_view from_idx to_idx x y z s) = Ok [slicex; slicey; slicez] /\
    forall t i j k : nat,
      (t < Z.to_nat (to_idx - from_idx))%nat -> (i < n1)%nat -> (j < n2)%nat -> (k < n3)%nat ->
      py_get [t; i; j] slicex
      = nd_get a [(Z.to_nat from_idx + t)%nat; i; j;
                  (n3 - 1 - Z.to_nat (z mod Z.of_nat n3))%nat] /\
      py_get [t; j; k] slicey
      = nd_get a [(Z.to_nat from_idx + t)%nat; Z.to_nat (x mod Z.of_nat n1); j;
                  (n3 - 1 - k)%nat] /\
      py_get [t; i; k] slicez
      = nd_get a [(Z.to_nat from_idx + t)%nat; i; Z.to_nat (y mod Z.of_nat n2);
                  (n3 - 1 - k)%nat].
Proof.
  intros Hstore Hshape Hwf Hft Ht Hx Hy Hz.
  destruct a as [sh b]. unfold wf in Hwf. cbn [shape buf] in *. subst sh.
  rewrite (get_volume_view_run _ _ _ _ _ _ _ _ _ _ _ Hstore) by lia.
  cbn [fst map]. rewrite nd_getitem_reverse_last4. cbn [rbind map].
  repeat rewrite length_rev. repeat rewrite length_seq.
  set (F := Z.to_nat from_idx). set (L := Z.to_nat (to_idx - from_idx)).
  assert (HFL : (F + L <= n0)%nat) by lia.
  set (b2 := gather _ _ _).
  assert (Hb2 : length b2 = prod [L; n1; n2; n3])
    by (apply rotated_volume_length; assumption).
  unfold cross_sections.
  rewrite nd_getitem_depth, nd_getitem_row, nd_getitem_column.
  destruct (normalize_index_wraps z n3 Hz) as (-> & Hkz).
  destruct (normalize_index_wraps x n1 Hx) as (-> & Hkx).
  destruct (normalize_index_wraps y n2 Hy) as (-> & Hky).
  set (kx := Z.to_nat (x mod Z.of_nat n1)) in *.
  set (ky := Z.to_nat (y mod Z.of_nat n2)) in *.
  set (kz := Z.to_nat (z mod Z.of_nat n3)) in *.
  cbn [rbind map]. repeat rewrite length_seq.
  do 3 eexists. split; [reflexivity|].
  intros t i j k Ht' Hi Hj Hk.
  rewrite !py_get_tolist. unfold nd_get. cbn [shape buf].
  split; [|split].
  - pose proof (plane_get [L; n1; n2] [] [t; i; j] [] n3 kz b2 eq_refl Hb2 Hkz) as P.
    cbn [app map] in P. rewrite P by (repeat constructor; assumption).
    unfold b2. now apply rotated_volume_get.
  - pose proof (plane_get [L] [n2; n3] [t] [j; k] n1 kx b2 eq_refl Hb2 Hkx) as P.
    cbn [app map] in P. rewrite P by (repeat constructor; assumption).
    unfold b2. now apply rotated_volume_get.
  - pose proof (plane_get [L; n1] [n3] [t; i] [k] n2 ky b2 eq_refl Hb2 Hky) as P.
    cbn [app map] in P. rewrite P by (repeat constructor; assumption).
    unfold b2. now apply rotated_volume_get.
Qed.

Lemma get_volume_view_planes_witness :
  exists slicex slicey slicez,
    fst (get_volume_view 1 3 (-1) 0 1 (series_of (arange_array [4; 2; 2; 3]%nat) 1%float))
    = Ok [slicex; slicey; slicez] /\
    py_get [1; 0; 1]%nat slicex = Some 28%float /\
    py_get [1; 1; 2]%nat slicey = Some 33%float /\
    py_get [1; 0; 2]%nat slicez = Some 24%float.
Proof.
  destruct (get_volume_view_planes
              (series_of (arange_array [4; 2; 2; 3]%nat) 1%float)
              (arange_array [4; 2; 2; 3]%nat) 4 2 2 3 1 3 (-1) 0 1
              eq_refl eq_refl eq_refl ltac:(lia) ltac:(lia) ltac:(cbn; lia)
              ltac:(cbn; lia) ltac:(cbn; lia))
    as (px & py & pz & Hrun & Hget).
  exists px, py, pz. split; [exact Hrun|].
  destruct (Hget 1 0 1 0 ltac:(cbn; lia) ltac:(lia) ltac:(lia) ltac:(lia))%nat
    as (Hx & _ & _).
  destruct (Hget 1 0 1 2 ltac:(cbn; lia) ltac:(lia) ltac:(lia) ltac:(lia))%nat
    as (_ & Hy & Hz).
  rewrite Hx, Hy, Hz. repeat split; reflexivity.
Defined.

(** ** [configure]: failures and what the labels see afterwards *)

(** The attributes [configure] derives from the shape, on a readable store
    with a non-zero sample period. *)
Lemma configure_fields (super_configure : M unit) (s s1 : state) (a : ndarray) :
  super_configure s = (Ok tt, s1) ->
  store (self s1) = Stored a ->
  PrimFloat.eqb (sample_period (self s1)) 0 = false ->
  exists s2,
    configure super_configure s = (Ok tt, s2) /\
    nr_dimensions (self s2) = Z.of_nat (length (shape a)) /\
    (forall i n, (i < 4)%nat -> nth_error (shape a) i = Some n ->
                 length_nd (S i) (self s2) = Z.of_nat n) /\
    (forall i, (i < 4)%nat -> (length (shape a) <= i)%nat ->
               length_nd (S i) (self s2) = length_nd (S i) (self s1)).
Proof.
  intros Hsuper Hstore Hperiod.
  unfold configure.
  rewrite (bind_ok _ _ _ _ _ Hsuper).
  rewrite (bind_ok _ _ _ _ _ (read_data_shape_stored _ _ Hstore)).
  unfold bind at 1. unfold modify at 1. cbn [self trace].
  unfold bind at 1. unfold getattr at 1. cbn [self trace sample_period set_nr_dimensions].
  unfold bind at 1. unfold lift at 1, float_div. rewrite Hperiod.
  unfold bind at 1. unfold modify at 1. cbn [self trace].
  unfold bind at 1. unfold getattr at 1.
  cbn [self trace nr_dimensions set_nr_dimensions set_sample_rate].
  destruct s1 as [o tr]. cbn [self trace] in *.
  destruct a as [sh b]. cbn [shape] in *.
  destruct sh as [|n0 [|n1 [|n2 [|n3 rest]]]].
  5: replace (Z.min (Z.of_nat (length (n0 :: n1 :: n2 :: n3 :: rest))) 4) with 4
      by (cbn [length]; lia).
  all: cbn [length Z.of_nat Z.min Z.compare Pos.of_succ_nat Pos.succ Pos.compare Pos.compare_cont].
  all: match goal with |- context [xrange ?k] =>
         let l := eval vm_compute in (xrange k) in change (xrange k) with l end.
  all: cbn [for_each].
  all: repeat (unfold bind at 1; unfold lift at 1;
               cbn [getitem nth_error Z.to_nat Pos.to_nat Pos.iter_op Nat.add];
               match goal with |- context [setattr ?n ?v] =>
                 let t := eval vm_compute in n in change n with t end;
               unfold setattr at 1; cbn [String.eqb Ascii.eqb Bool.eqb];
               unfold modify at 1; cbn [self trace]).
  all: unfold ret.
  all: eexists; split; [reflexivity|]; cbn [self trace].
  all: repeat split; try reflexivity.
  all: intros i; intros;
    destruct i as [|[|[|[|i]]]]; cbn [nth_error length] in *; try lia;
    try discriminate;
    repeat match goal with H : Some _ = Some _ |- _ => injection H as <- end;
    reflexivity.
Qed.

(** X14: a zero sample period stops [configure] at the division: the call
    raises [ZeroDivisionError] after the shape has been requested and
    [nr_dimensions] assigned, and leaves [sample_rate] and every
    [length_kd] as the inherited [configure] left them. *)
Theorem configure_zero_period (super_configure : M unit) (s s1 : state) (a : ndarray) :
  super_configure s = (Ok tt, s1) ->
  store (self s1) = Stored a ->
  PrimFloat.eqb (sample_period (self s1)) 0 = true ->
  exists s2,
    configure super_configure s = (Raise ZeroDivisionError, s2) /\
    trace s2 = trace s1 ++ [GetDataShape "data"] /\
    nr_dimensions (self s2) = Z.of_nat (length (shape a)) /\
    sample_rate (self s2) = sample_rate (self s1) /\
    (forall k, length_nd k (self s2) = length_nd k (self s1)) /\
    store (self s2) = store (self s1) /\
    sample_period (self s2) = sample_period (self s1) /\
    start_time (self s2) = start_time (self s1).
Proof.
  intros Hsuper Hstore Hperiod.
  unfold configure.
  rewrite (bind_ok _ _ _ _ _ Hsuper).
  rewrite (bind_ok _ _ _ _ _ (read_data_shape_stored _ _ Hstore)).
  unfold bind at 1. unfold modify at 1. cbn [self trace].
  unfold bind at 1. unfold getattr at 1. cbn [self trace sample_period set_nr_dimensions].
  unfold bind at 1. unfold lift at 1, float_div. rewrite Hperiod.
  eexists. split; [reflexivity|]. cbn [self trace].
  repeat split; reflexivity.
Qed.

Lemma configure_zero_period_witness :
  exists s2,
    configure plain_configure (series_of (arange_array [3; 1; 4]%nat) (-0)%float)
    = (Raise ZeroDivisionError, s2) /\
    nr_dimensions (self s2) = 3 /\ length_1d (self s2) = 0.
Proof.
  destruct (configure_zero_period plain_configure
              (series_of (arange_array [3; 1; 4]%nat) (-0)%float)
              (series_of (arange_array [3; 1; 4]%nat) (-0)%float)
              (arange_array [3; 1; 4]%nat) eq_refl eq_refl eq_refl)
    as (s2 & Hrun & _ & Hdims & _ & Hlen & _).
  exists s2. repeat split.
  - exact Hrun.
  - exact Hdims.
  - exact (Hlen 1%nat).
Defined.

(** X15: after [configure], the generic labels name the points of the third
    axis of the stored data, none when the data has fewer than three axes;
    the surface labels are their first 100 when the data has a third axis,
    and otherwise still follow the [length_3d] found before the call, which
    that method reads without looking at the number of dimensions. *)
Theorem configure_then_space_labels
        (super_configure : M unit) (s s1 : state) (a : ndarray) :
  super_configure s = (Ok tt, s1) ->
  store (self s1) = Stored a ->
  PrimFloat.eqb (sample_period (self s1)) 0 = false ->
  exists s2,
    configure super_configure s = (Ok tt, s2) /\
    get_space_labels (self s2)
    = map (fun i => ("signal-" ++ str_of_int i)%string)
          (xrange (Z.of_nat (nth 2 (shape a) 0%nat))) /\
    length (get_space_labels (self s2)) = nth 2 (shape a) 0%nat /\
    ((2 < length (shape a))%nat ->
     TimeSeriesSurfaceFramework.get_space_labels (self s2)
     = firstn 100 (get_space_labels (self s2))) /\
    ((length (shape a) <= 2)%nat ->
     TimeSeriesSurfaceFramework.get_space_labels (self s2)
     = TimeSeriesSurfaceFramework.get_space_labels (self s1)).
Proof.
  intros Hsuper Hstore Hperiod.
  destruct (configure_fields _ _ _ _ Hsuper Hstore Hperiod)
    as (s2 & Hrun & Hdims & Hset & Hkeep).
  exists s2. split; [exact Hrun|].
  assert (Hlabels : get_space_labels (self s2)
                    = map (fun i => ("signal-" ++ str_of_int i)%string)
                          (xrange (Z.of_nat (nth 2 (shape a) 0%nat)))).
  { unfold get_space_labels. rewrite Hdims.
    destruct (Z.gtb_spec (Z.of_nat (length (shape a))) 2) as [H|H].
    - destruct (nth_error (shape a) 2) as [n|] eqn:E;
        [|apply nth_error_None in E; lia].
      pose proof (Hset 2%nat n ltac:(lia) E) as H3. cbn [length_nd] in H3.
      now rewrite H3, (nth_error_nth _ _ 0%nat E).
    - rewrite nth_overflow by lia. reflexivity. }
  split; [exact Hlabels|]. split; [|split].
  - rewrite Hlabels, length_map, xrange_length. lia.
  - intros H. rewrite Hlabels, firstn_map, xrange_firstn.
    unfold TimeSeriesSurfaceFramework.get_space_labels,
      TimeSeriesSurfaceFramework.SELECTION_LIMIT.
    destruct (nth_error (shape a) 2) as [n|] eqn:E;
      [|apply nth_error_None in E; lia].
    pose proof (Hset 2%nat n ltac:(lia) E) as H3. cbn [length_nd] in H3.
    now rewrite H3, (nth_error_nth _ _ 0%nat E).
  - intros H. unfold TimeSeriesSurfaceFramework.get_space_labels.
    pose proof (Hkeep 2%nat ltac:(lia) H) as H3. cbn [length_nd] in H3.
    now rewrite H3.
Qed.

Lemma configure_then_space_labels_witness :
  exists s2,
    configure plain_configure (series_of (arange_array [3; 1; 4]%nat) 0.5%float)
    = (Ok tt, s2) /\
    get_space_labels (self s2) = ["signal-0"; "signal-1"; "signal-2"; "signal-3"]%string.
Proof.
  destruct (configure_then_space_labels plain_configure
              (series_of (arange_array [3; 1; 4]%nat) 0.5%float)
              (series_of (arange_array [3; 1; 4]%nat) 0.5%float)
              (arange_array [3; 1; 4]%nat) eq_refl eq_refl eq_refl)
    as (s2 & Hrun & Hlabels & _).
  exists s2. split; [exact Hrun | exact Hlabels].
Defined.

(** ** The contents of a data page *)

Lemma prod_repeat_1 (k : nat) : prod (repeat 1%nat k) = 1%nat.
Proof. induction k as [|k IH]; [reflexivity|]. cbn [repeat]. unfold prod in *. cbn. lia. Qed.

(** Trailing axes of extent 1 do not change what an index reads. *)
Lemma get_at_trailing_units (sh ix : list nat) (k : nat) (b : list float) :
  length sh = length ix -> length b = prod sh ->
  get_at (sh ++ repeat 1%nat k) (ix ++ repeat 0%nat k) b = get_at sh ix b.
Proof.
  intros Hlen Hb. induction k as [|k IH]; [now rewrite !app_nil_r|].
  cbn [repeat]. rewrite get_at_unit_axis; [exact IH | exact Hlen |].
  rewrite prod_app, prod_repeat_1. lia.
Qed.

Lemma map_const_in {A B} (f : A -> B) (c : B) (l : list A) :
  (forall x, In x l -> f x = c) -> map f l = repeat c (length l).
Proof.
  intros H. induction l as [|x l IH]; [reflexivity|].
  cbn [map length repeat]. rewrite (H x (or_introl eq_refl)), IH; [reflexivity|].
  intros y Hy. apply H. now right.
Qed.

(** Selections given per axis position lie on their axes. *)
Lemma in_range_axis (g : nat -> list nat) (k0 : nat) (sh : list nat) :
  (forall i n, nth_error sh i = Some n -> Forall (fun k => (k < n)%nat) (g (k0 + i)%nat)) ->
  in_range sh (map g (seq k0 (length sh))).
Proof.
  revert k0. induction sh as [|n sh IH]; intros k0 H; [constructor|].
  cbn [length seq map]. constructor.
  - specialize (H 0%nat n eq_refl). now rewrite Nat.add_0_r in H.
  - apply IH. intros i m Hi. replace (S k0 + i)%nat with (k0 + S i)%nat by lia.
    now apply H.
Qed.

(** One position per axis of an array gathered axis by axis. *)
Lemma gather_get_axis (sh : list nat) (g : nat -> list nat) (pos : nat -> nat)
      (b : list float) :
  (forall i n, nth_error sh i = Some n -> Forall (fun k => (k < n)%nat) (g i)) ->
  length b = prod sh ->
  (forall i, (i < length sh)%nat -> (pos i < length (g i))%nat) ->
  get_at (map (fun i => length (g i)) (seq 0 (length sh))) (map pos (seq 0 (length sh)))
         (gather sh (map g (seq 0 (length sh))) b)
  = get_at sh (map (fun i => nth (pos i) (g i) 0%nat) (seq 0 (length sh))) b.
Proof.
  intros Hrange Hb Hpos.
  assert (Hcomb : forall l : list nat,
             combine (map g l) (map pos l) = map (fun i => (g i, pos i)) l).
  { induction l as [|x l IH]; [reflexivity|]. cbn. now rewrite IH. }
  rewrite <- (map_map g (@length nat)).
  rewrite gather_get.
  - now rewrite Hcomb, map_map.
  - apply (in_range_axis g 0). exact Hrange.
  - exact Hb.
  - assert (H : forall l : list nat, (forall i, In i l -> (pos i < length (g i))%nat) ->
                  Forall2 (fun sel k => (k < length sel)%nat) (map g l) (map pos l)).
    { induction l as [|x l IH]; intros H; constructor.
      - apply H. now left.
      - apply IH. intros i Hi. apply H. now right. }
    apply H. intros i Hi. apply in_seq in Hi. apply Hpos. lia.
Qed.

(** X16: on a well-formed array of rank 3 or more, under the conditions of the
    page shape, the page holds the stored values of the selected time
    steps over axis 2, read at the position [specific_slices] names on
    every other axis (position 0 without [specific_slices]): entry
    [[t, j]] of a 2-D page, or entry [[t]] of a 1-D page, is the stored
    element at the [t]-th selected time step and at [j] (or 0) on axis 2. *)
Theorem read_data_page_contents (json_loads : string -> result json) (s : state)
        (a : ndarray) (T S N : nat) (rest : list nat) (from_idx to_idx : Z)
        (step : option Z) (arg : option slices_arg) (ss : option (list Z)) :
  store (self s) = Stored a -> shape a = T :: S :: N :: rest -> wf a ->
  decode_slices json_loads arg = Ok ss ->
  step <> Some 0 ->
  (forall i n, i <> 0%nat -> i <> 2%nat -> nth_error (shape a) i = Some n ->
     match ss with
     | None => (0 < n)%nat
     | Some l => exists k, nth_error l i = Some k /\ 0 <= k < Z.of_nat n
     end) ->
  exists sel,
    slice_select (Slice (Some from_idx) (Some (Z.min to_idx (Z.of_nat T)))
                        (Some (match step with None => 1 | Some k => k end))) T
    = Ok sel /\
    (N <> 1%nat ->
     exists page,
       fst (read_data_page json_loads from_idx to_idx step arg s) = Ok page /\
       forall t j, (t < length sel)%nat -> (j < N)%nat ->
         nd_get page [t; j]
         = nd_get a (nth t sel 0%nat :: page_position ss 1 :: j
                       :: map (page_position ss) (seq 3 (length rest)))) /\
    (N = 1%nat -> length sel <> 1%nat ->
     exists page,
       fst (read_data_page json_loads from_idx to_idx step arg s) = Ok page /\
       forall t, (t < length sel)%nat ->
         nd_get page [t]
         = nd_get a (nth t sel 0%nat :: page_position ss 1 :: 0%nat
                       :: map (page_position ss) (seq 3 (length rest)))).
Proof.
  intros Hstore Hshape Hwf Hdec Hstep Haux.
  set (st := match step with None => 1 | Some k => k end).
  destruct (slice_select_ok
              (Slice (Some from_idx) (Some (Z.min to_idx (Z.of_nat T))) (Some st)) T)
    as (sel & Hsel).
  { cbn. subst st. destruct step as [k|]; congruence. }
  exists sel. split; [exact Hsel|].
  set (g := fun i : nat =>
         if (i =? 0)%nat then sel
         else if (i =? 2)%nat then seq 0 N
         else [page_position ss i]).
  assert (Hg : forall i n, nth_error (shape a) i = Some n ->
                 slice_select (axis_slice from_idx to_idx st ss (shape a) i) n = Ok (g i)).
  { intros i n Hi. unfold axis_slice, g, page_position.
    destruct (Nat.eqb_spec i 0) as [->|H0].
    - rewrite Hshape in *. cbn in Hi. injection Hi as <-. exact Hsel.
    - destruct (Nat.eqb_spec i 2) as [->|H2].
      + rewrite Hshape in *. cbn in Hi. injection Hi as <-. apply slice_select_to.
      + specialize (Haux i n H0 H2 Hi). rewrite (nth_error_nth _ _ 0%nat Hi).
        destruct ss as [l|].
        * destruct Haux as (k & Hk & Hrange).
          rewrite (nth_error_nth _ _ 0 Hk). now apply slice_select_single.
        * now apply slice_select_first. }
  assert (Hslices : mapM (page_slice from_idx to_idx st ss (shape a))
                         (seq 0 (length (shape a)))
                    = Ok (map (axis_slice from_idx to_idx st ss (shape a))
                              (seq 0 (length (shape a))))).
  { apply page_slices_closed. intros l i -> Hi H2.
    destruct (nth_error (shape a) i) as [n|] eqn:E;
      [|apply nth_error_None in E; lia].
    destruct (Haux i n ltac:(lia) H2 E) as (k & Hk & _).
    apply nth_error_Some. congruence. }
  rewrite (read_data_page_stored json_loads s a from_idx to_idx step arg ss _ Hstore Hdec Hslices).
  cbn [fst].
  change (length (shape a)) with (ndim a).
  rewrite (nd_getitem_axis_slices a _ g Hg). cbn [rbind].
  (* what a full index of the sliced array reads *)
  assert (Hrange : forall i n, nth_error (shape a) i = Some n ->
                     Forall (fun k => (k < n)%nat) (g i)).
  { intros i n Hi. eapply slice_select_in_range. exact (Hg i n Hi). }
  assert (Hones : forall i, In i (seq 3 (length rest)) -> length (g i) = 1%nat).
  { intros i Hi. apply in_seq in Hi. unfold g.
    destruct (Nat.eqb_spec i 0); [lia|]. destruct (Nat.eqb_spec i 2); [lia|]. reflexivity. }
  assert (Hread : forall t j, (t < length sel)%nat -> (j < N)%nat ->
            get_at (length sel :: 1%nat :: N :: repeat 1%nat (length rest))
                   (t :: 0%nat :: j :: repeat 0%nat (length rest))
                   (gather (shape a) (map g (seq 0 (ndim a))) (buf a))
            = nd_get a (nth t sel 0%nat :: page_position ss 1 :: j
                          :: map (page_position ss) (seq 3 (length rest)))).
  { intros t j Ht Hj.
    pose (pos := fun i : nat => if (i =? 0)%nat then t else if (i =? 2)%nat then j else 0%nat).
    pose proof (gather_get_axis (shape a) g pos (buf a) Hrange Hwf) as P.
    unfold ndim. rewrite Hshape in P |- *. cbn [length seq map] in P |- *.
    rewrite (map_const_in (fun i => length (g i)) 1%nat) in P by exact Hones.
    rewrite (map_const_in pos 0%nat) in P.
    2: { intros i Hi. apply in_seq in Hi. unfold pos.
         destruct (Nat.eqb_spec i 0); [lia|]. destruct (Nat.eqb_spec i 2); [lia|].
         reflexivity. }
    rewrite length_seq in P.
    change (g 0%nat) with sel in P. change (length (g 1%nat)) with 1%nat in P.
    change (g 2%nat) with (seq 0 N) in P. rewrite length_seq in P.
    change (pos 0%nat) with t in P. change (pos 1%nat) with 0%nat in P.
    change (pos 2%nat) with j in P.
    match type of P with _ -> _ = ?r => transitivity r end.
    - apply P. intros i Hi. unfold pos, g.
      destruct (Nat.eqb_spec i 0); [exact Ht|].
      destruct (Nat.eqb_spec i 2); [now rewrite length_seq | cbn; lia].
    - unfold nd_get. rewrite Hshape. f_equal.
      change (g 1%nat) with [page_position ss 1]. cbn [nth].
      rewrite seq_nth by exact Hj. cbn [Nat.add]. do 3 f_equal.
      apply map_ext_in. intros i Hi. apply in_seq in Hi. unfold g, pos.
      destruct (Nat.eqb_spec i 0); [lia|]. destruct (Nat.eqb_spec i 2); [lia|].
      reflexivity. }
  assert (Hlen : length (gather (shape a) (map g (seq 0 (ndim a))) (buf a))
                 = (length sel * N)%nat).
  { rewrite gather_length.
    - rewrite map_map. unfold ndim. rewrite Hshape. cbn [length seq map].
      rewrite (map_const_in (fun i => length (g i)) 1%nat) by exact Hones.
      change (g 0%nat) with sel. change (length (g 1%nat)) with 1%nat.
      change (g 2%nat) with (seq 0 N). rewrite !length_seq.
      change (length sel :: 1%nat :: N :: repeat 1%nat (length rest))
        with ([length sel; 1%nat; N] ++ repeat 1%nat (length rest)).
      rewrite prod_app, prod_repeat_1. unfold prod. cbn [fold_right]. lia.
    - apply (in_range_axis g 0). exact Hrange.
    - exact Hwf. }
  set (B := gather (shape a) (map g (seq 0 (ndim a))) (buf a)) in *.
  unfold ndim. rewrite Hshape. cbn [length seq map].
  assert (Hsq : filter (fun n => negb (n =? 1)%nat)
                       (map (fun i => length (g i)) (seq 3 (length rest))) = []).
  { apply squeeze_ones, Forall_forall. intros n Hn.
    apply in_map_iff in Hn. destruct Hn as (i & <- & Hi). now apply Hones. }
  change (g 0%nat) with sel. change (length (g 1%nat)) with 1%nat.
  change (g 2%nat) with (seq 0 N). rewrite length_seq.
  unfold squeeze_page, nd_len, squeeze. cbn [shape buf rbind filter].
  rewrite Hsq.
  split.
  - intros HN.
    assert (Hpage : forall t j, (t < length sel)%nat -> (j < N)%nat ->
              get_at [length sel; N] [t; j] B
              = nd_get a (nth t sel 0%nat :: page_position ss 1 :: j
                            :: map (page_position ss) (seq 3 (length rest)))).
    { intros t j Ht Hj. rewrite <- (Hread t j Ht Hj).
      rewrite <- (get_at_trailing_units [length sel; N] [t; j] (length rest) B eq_refl)
        by (rewrite Hlen; unfold prod; cbn [fold_right]; lia).
      symmetry.
      apply (get_at_unit_axis [length sel] (N :: repeat 1%nat (length rest))
                              [t] (j :: repeat 0%nat (length rest)) B eq_refl).
      change ([length sel] ++ N :: repeat 1%nat (length rest))
        with ([length sel; N] ++ repeat 1%nat (length rest)).
      rewrite prod_app, prod_repeat_1, Hlen. unfold prod. cbn [fold_right]. lia. }
    destruct (Nat.eqb_spec (length sel) 1) as [E|E].
    + rewrite E in *. cbn [Nat.eqb negb].
      destruct (Nat.eqb_spec N 1); [contradiction|]. cbn [negb shape rbind].
      unfold reshape. cbn [shape buf].
      rewrite (proj2 (Nat.eqb_eq _ _)) by (cbn; lia).
      eexists. split; [reflexivity|]. exact Hpage.
    + destruct (Nat.eqb_spec N 1); [contradiction|]. cbn [negb].
      eexists. split; [reflexivity|]. exact Hpage.
  - intros -> HL.
    destruct (Nat.eqb_spec (length sel) 1) as [E|E]; [contradiction|].
    cbn [Nat.eqb negb]. eexists. split; [reflexivity|].
    intros t Ht. unfold nd_get at 1. cbn [shape buf].
    rewrite <- (Hread t 0%nat Ht ltac:(lia)).
    rewrite <- (get_at_trailing_units [length sel] [t] (2 + length rest) B eq_refl)
      by (rewrite Hlen; unfold prod; cbn [fold_right]; lia).
    reflexivity.
Qed.

Lemma read_data_page_contents_witness :
  exists page,
    fst (read_data_page no_json 1 3 None (Some (SlicesList [0; 1; 0; 2]))
                        (series_of (arange_array [4; 2; 3; 3]%nat) 1%float)) = Ok page /\
    nd_get page [1; 2]%nat = Some 53%float.
Proof.
  destruct (read_data_page_contents no_json
              (series_of (arange_array [4; 2; 3; 3]%nat) 1%float)
              (arange_array [4; 2; 3; 3]%nat) 4 2 3 [3%nat] 1 3 None
              (Some (SlicesList [0; 1; 0; 2])) (Some [0; 1; 0; 2])
              eq_refl eq_refl eq_refl eq_refl ltac:(discriminate))
    as (sel & Hsel & Hpage & _).
  - intros i n H0 H2 Hi. destruct i as [|[|[|[|i]]]]; try contradiction.
    + cbn in Hi. injection Hi as <-. exists 1. split; [reflexivity | lia].
    + cbn in Hi. injection Hi as <-. exists 2. split; [reflexivity | lia].
    + cbn in Hi. destruct i; discriminate.
  - destruct (Hpage ltac:(discriminate)) as (page & Hrun & Hget).
    exists page. split; [exact Hrun|].
    vm_compute in Hsel. injection Hsel as <-.
    exact (Hget 1%nat 2%nat ltac:(cbn; lia) ltac:(lia)).
Defined.

(** ** Pages without a channel selection *)

Lemma mapM_length {A B} (f : A -> result B) (l : list A) (r : list B) :
  mapM f l = Ok r -> length r = length l.
Proof.
  revert r. induction l as [|x l IH]; intros r H.
  - cbn in H. now injection H as <-.
  - cbn [mapM] in H. destruct (f x) as [y|e]; [|discriminate]. cbn [rbind] in H.
    destruct (mapM f l) as [r'|e]; [|discriminate]. cbn [rbind] in H.
    injection H as <-. cbn [length]. now rewrite (IH r' eq_refl).
Qed.

Lemma resolve_all_slices_range (sh : list nat) (slices : list slice)
      (rs : list (list nat * bool)) :
  length slices = length sh ->
  resolve_all sh (map ISlice slices) = Ok rs ->
  in_range sh (map fst rs) /\ filter snd rs = rs.
Proof.
  revert slices rs. induction sh as [|n sh IH]; intros slices rs Hlen H.
  - cbn in H. injection H as <-. split; [constructor | reflexivity].
  - destruct slices as [|sl slices]; [discriminate|].
    cbn [map resolve_all resolve] in H.
    destruct (slice_select sl n) as [sel|e] eqn:E; [|discriminate]. cbn [rbind] in H.
    destruct (resolve_all sh (map ISlice slices)) as [rs'|e] eqn:E'; [|discriminate].
    cbn [rbind] in H. injection H as <-.
    destruct (IH slices rs' ltac:(cbn in Hlen; lia) E') as (Hr & Hf).
    split.
    + cbn [map fst]. constructor; [|exact Hr]. now apply (slice_select_in_range sl).
    + cbn [filter snd]. now rewrite Hf.
Qed.

(** Slicing every axis of a well-formed array gives a well-formed array. *)
Lemma nd_getitem_slices_wf (a d : ndarray) (slices : list slice) :
  wf a -> length slices = ndim a ->
  nd_getitem a (map ISlice slices) = Ok d -> wf d.
Proof.
  intros Hwf Hlen H. unfold nd_getitem in H.
  rewrite <- Hlen, expand_index_slices in H. cbn [rbind] in H.
  destruct (resolve_all (shape a) (map ISlice slices)) as [rs|e] eqn:E; [|discriminate].
  cbn [rbind] in H. injection H as <-.
  destruct (resolve_all_slices_range _ _ _ Hlen E) as (Hr & Hf).
  unfold wf. cbn [shape buf]. rewrite Hf, (gather_length _ _ _ Hr Hwf).
  now rewrite map_map.
Qed.

Lemma prod_squeeze (sh : list nat) :
  prod (filter (fun n => negb (n =? 1)%nat) sh) = prod sh.
Proof.
  induction sh as [|n sh IH]; [reflexivity|]. cbn [filter].
  destruct (Nat.eqb_spec n 1) as [->|H]; cbn [negb].
  - rewrite IH. unfold prod. cbn [fold_right]. lia.
  - unfold prod in *. cbn [fold_right]. now rewrite IH.
Qed.

Lemma squeeze_page_wf (d p : ndarray) : wf d -> squeeze_page d = Ok p -> wf p.
Proof.
  unfold wf, squeeze_page, nd_len, squeeze, reshape. intros Hwf H.
  destruct (shape d) as [|n sh] eqn:Hsh; [discriminate|]. cbn [rbind shape buf] in H.
  destruct (n =? 1)%nat.
  - destruct (filter _ (n :: sh)) as [|n' sh'] eqn:Hf; [discriminate|].
    cbn [rbind] in H.
    destruct (Nat.eqb_spec (prod [1%nat; n']) (prod (n' :: sh'))) as [E|E]; [|discriminate].
    injection H as <-. cbn [shape buf].
    now rewrite E, <- Hf, prod_squeeze, Hwf.
  - injection H as <-. cbn [shape buf].
    change (length (buf d) = prod (filter (fun n => negb (n =? 1)%nat) (n :: sh))).
    now rewrite prod_squeeze, Hwf.
Qed.

(** Every page read from a well-formed array is well-formed. *)
Lemma read_data_page_wf (json_loads : string -> result json) (s s' : state)
      (a page : ndarray) (from_idx to_idx : Z) (step : option Z)
      (arg : option slices_arg) :
  store (self s) = Stored a -> wf a ->
  read_data_page json_loads from_idx to_idx step arg s = (Ok page, s') -> wf page.
Proof.
  intros Hstore Hwf H.
  destruct (decode_slices json_loads arg) as [ss|e] eqn:Hdec.
  2: { unfold read_data_page in H. unfold bind at 1 in H. unfold lift at 1 in H.
       rewrite Hdec in H. discriminate. }
  rewrite (read_data_page_run _ _ _ _ _ _ _ _ Hstore Hdec) in H.
  destruct (mapM _ _) as [slices|e] eqn:Hmap; [|discriminate].
  apply mapM_length in Hmap. rewrite length_seq in Hmap.
  injection H as H _.
  destruct (nd_getitem a (map ISlice slices)) as [d|e] eqn:Hd; [|discriminate].
  cbn [rbind] in H.
  apply (squeeze_page_wf d); [|exact H].
  now apply (nd_getitem_slices_wf a d slices).
Qed.

Lemma flat_map_chunks (P n : nat) (b : list float) :
  length b = (n * P)%nat -> flat_map (fun i => chunk P i b) (seq 0 n) = b.
Proof.
  revert b. induction n as [|n IH]; intros b Hb.
  - destruct b; [reflexivity | discriminate].
  - cbn [seq flat_map]. rewrite <- seq_shift, flat_map_concat_map, map_map,
      <- flat_map_concat_map.
    rewrite (flat_map_ext _ (fun i => chunk P i (skipn P b))).
    + rewrite IH by (rewrite length_skipn; lia).
      unfold chunk. cbn [Nat.mul skipn]. apply firstn_skipn.
    + intros i. unfold chunk. cbn [Nat.mul]. now rewrite skipn_skipn, Nat.add_comm.
Qed.

(** Selecting every position of every axis copies the array. *)
Lemma gather_everything (sh : list nat) (b : list float) :
  length b = prod sh -> gather sh (map (seq 0) sh) b = b.
Proof.
  revert b. induction sh as [|n sh IH]; intros b Hb; [reflexivity|].
  cbn [map gather].
  transitivity (flat_map (fun i => chunk (prod sh) i b) (seq 0 n));
    [|now apply flat_map_chunks].
  rewrite !flat_map_concat_map. f_equal. apply map_ext_in.
  intros i Hi. apply in_seq in Hi. apply IH.
  apply (chunk_length _ n); [exact Hb | lia].
Qed.

(** X17: without a channel selection ([channels_list] absent, empty, or
    decoding to [null] or to an empty list), [read_channels_page] returns
    the 2-D page of [read_data_page] as it is, and leaves the same trace. *)
Theorem read_channels_page_every_channel (json_loads : string -> result json)
        (s s' : state) (a page : ndarray) (from_idx to_idx : Z) (step : option Z)
        (arg : option slices_arg) (channels_list : option string) (channels : json) :
  store (self s) = Stored a -> wf a ->
  decode_channels json_loads channels_list = Ok channels ->
  json_true channels = false ->
  read_data_page json_loads from_idx to_idx step arg s = (Ok page, s') ->
  ndim page = 2%nat ->
  read_channels_page json_loads from_idx to_idx step arg channels_list s = (Ok page, s').
Proof.
  intros Hstore Hwf Hdec Hfalse Hpage Hrank.
  pose proof (read_data_page_wf _ _ _ _ _ _ _ _ _ Hstore Hwf Hpage) as Hwfp.
  unfold read_channels_page. unfold bind at 1. unfold lift at 1. rewrite Hdec.
  rewrite (bind_ok _ _ _ _ _ Hpage).
  unfold ndim in Hrank. rewrite Hrank. cbn [Nat.eqb].
  replace (channel_indexer channels) with (ISlice slice_all)
    by (destruct channels as [|[|c l]]; [reflexivity | reflexivity | discriminate]).
  destruct page as [sh b]. cbn [shape] in Hrank. unfold wf in Hwfp. cbn [shape buf] in Hwfp.
  destruct sh as [|n0 [|n1 [|n2 sh]]]; try discriminate.
  unfold lift, nd_getitem, expand_index.
  cbn [ndim shape buf length filter is_ellipsis Nat.sub Nat.ltb Nat.leb orb expand repeat
       rbind resolve_all resolve].
  rewrite !slice_select_all. cbn [rbind filter snd fst map].
  rewrite !length_seq.
  change [seq 0 n0; seq 0 n1] with (map (seq 0) [n0; n1]).
  now rewrite gather_everything.
Qed.

Lemma read_channels_page_every_channel_witness :
  read_channels_page no_json 0 2 None None None
                     (series_of (arange_array [3; 1; 4]%nat) 1%float)
  = (Ok (NdArray [2; 4]%nat [0; 1; 2; 3; 4; 5; 6; 7]%float),
     MkState (self (series_of (arange_array [3; 1; 4]%nat) 1%float))
             [GetDataShape "data";
              GetData "data" [ISlice (Slice (Some 0) (Some 2) (Some 1));
                              ISlice (Slice (Some 0) (Some 1) None);
                              ISlice (slice_to 4)]]).
Proof.
  apply (read_channels_page_every_channel no_json
           (series_of (arange_array [3; 1; 4]%nat) 1%float) _
           (arange_array [3; 1; 4]%nat) _ 0 2 None None None JNull
           eq_refl eq_refl eq_refl eq_refl eq_refl eq_refl).
Defined.

(** ** The three volume queries agree *)

(** X18: for a voxel inside the volume of a well-formed 4-D series and a
    non-empty time window, the rotated sub-volume, the three
    cross-sections through the voxel and its time course all hold the
    same value at every time step of the window:
    [volume[t, x, y, z] = slicex[t][x][y] = slicey[t][y][z]
     = slicez[t][x][z] = course[from_idx + t]]. *)
Theorem volume_queries_agree
        (numpy_mean numpy_median numpy_var numpy_std : ndarray -> float)
        (s : state) (a : ndarray) (n0 n1 n2 n3 : nat) (from_idx to_idx x y z : Z) :
  store (self s) = Stored a -> wf a -> shape a = [n0; n1; n2; n3] ->
  0 <= from_idx < to_idx -> to_idx <= Z.of_nat n0 ->
  0 <= x < Z.of_nat n1 -> 0 <= y < Z.of_nat n2 -> 0 <= z < Z.of_nat n3 ->
  exists volume slicex slicey slicez voxel,
    fst (get_rotated_volume_slice from_idx to_idx s) = Ok volume /\
    fst (get_volume_view from_idx to_idx x y z s) = Ok [slicex; slicey; slicez] /\
    fst (get_voxel_time_series numpy_mean numpy_median numpy_var numpy_std x y z s)
    = Ok voxel /\
    forall t, (t < Z.to_nat (to_idx - from_idx))%nat ->
      nd_get volume [t; Z.to_nat x; Z.to_nat y; Z.to_nat z] <> None /\
      py_get [t; Z.to_nat x; Z.to_nat y] slicex
      = nd_get volume [t; Z.to_nat x; Z.to_nat y; Z.to_nat z] /\
      py_get [t; Z.to_nat y; Z.to_nat z] slicey
      = nd_get volume [t; Z.to_nat x; Z.to_nat y; Z.to_nat z] /\
      py_get [t; Z.to_nat x; Z.to_nat z] slicez
      = nd_get volume [t; Z.to_nat x; Z.to_nat y; Z.to_nat z] /\
      py_get [(Z.to_nat from_idx + t)%nat] (vs_data voxel)
      = nd_get volume [t; Z.to_nat x; Z.to_nat y; Z.to_nat z].
Proof.
  intros Hstore Hwf Hshape Hft Ht Hx Hy Hz.
  destruct a as [sh b]. unfold wf in Hwf. cbn [shape buf] in *. subst sh.
  set (F := Z.to_nat from_idx). set (L := Z.to_nat (to_idx - from_idx)).
  set (X := Z.to_nat x). set (Y := Z.to_nat y). set (K := Z.to_nat z).
  assert (HFL : (F + L <= n0)%nat) by lia.
  assert (HX : (X < n1)%nat) by lia.
  assert (HY : (Y < n2)%nat) by lia.
  assert (HK : (K < n3)%nat) by lia.
  (* the rotated sub-volume *)
  rewrite (get_rotated_volume_slice_run _ _ _ _ _ _ _ _ Hstore) by lia.
  cbn [fst rbind map]. rewrite nd_getitem_reverse_last4. cbn [map].
  repeat rewrite length_rev. repeat rewrite length_seq. fold F L.
  set (b2 := gather [L; n1; n2; n3] _ _).
  assert (Hb2 : length b2 = prod [L; n1; n2; n3])
    by (apply rotated_volume_length; assumption).
  assert (Hvol : forall t, (t < L)%nat ->
            get_at [L; n1; n2; n3] [t; X; Y; K] b2
            = get_at [n0; n1; n2; n3] [(F + t)%nat; X; Y; (n3 - 1 - K)%nat] b).
  { intros t Ht'. unfold b2. now apply rotated_volume_get. }
  (* the cross-sections *)
  rewrite (get_volume_view_run _ _ _ _ _ _ _ _ _ _ _ Hstore) by lia.
  cbn [fst map]. rewrite nd_getitem_reverse_last4. cbn [rbind map].
  repeat rewrite length_rev. repeat rewrite length_seq. fold F L b2.
  unfold cross_sections.
  rewrite nd_getitem_depth, nd_getitem_row, nd_getitem_column.
  rewrite (normalize_index_on_axis z n3 Hz), (normalize_index_on_axis x n1 Hx),
    (normalize_index_on_axis y n2 Hy).
  fold X Y K. cbn [rbind map]. repeat rewrite length_seq.
  (* the time course *)
  rewrite (get_voxel_time_series_run _ _ _ _ _ _ _ _ _ _ _ _ _ Hstore eq_refl) by lia.
  cbn [fst].
  pose proof (slice_select_unit_range x n1) as Hlx.
  pose proof (slice_select_unit_range y n2) as Hly.
  replace ((0 <=? x) && (x <? Z.of_nat n1)) with true in Hlx
    by (symmetry; apply andb_true_iff; split; [apply Z.leb_le | apply Z.ltb_lt]; lia).
  replace ((0 <=? y) && (y <? Z.of_nat n2)) with true in Hly
    by (symmetry; apply andb_true_iff; split; [apply Z.leb_le | apply Z.ltb_lt]; lia).
  pose proof (voxel_course_array n0 n1 n2 n3 b x y z _ _ Hlx Hly) as Harr.
  rewrite (normalize_index_on_axis z n3) in Harr by lia.
  cbn [rbind length] in Harr. fold X Y K in Harr.
  destruct (voxel_course_get n0 n1 n2 n3 X Y K b Hwf HX HY HK) as (W3 & Hget).
  set (course := gather [n0; 1%nat; 1%nat; n3] [seq 0 n0; seq 0 1; seq 0 1; [K]] _) in *.
  destruct (nd_getitem (NdArray [n0; n1; n2; n3] b) _) as [r1|e1] eqn:E1;
    [|discriminate].
  cbn [rbind] in Harr |- *.
  destruct (nd_getitem r1 reverse_last) as [r2|e2] eqn:E2; [|discriminate].
  cbn [rbind] in Harr |- *. rewrite Harr. cbn [rbind].
  unfold flatten. cbn [shape buf].
  replace (prod [n0; 1; 1]%nat) with n0 by (cbn; lia).
  destruct (py_max_cases course) as [(Hnil & _)|(_ & hi & ->)];
    [rewrite Hnil in W3; cbn in W3; lia|].
  destruct (py_min_cases course) as [(Hnil & _)|(_ & lo & ->)];
    [rewrite Hnil in W3; cbn in W3; lia|].
  cbn [rbind].
  do 5 eexists. split; [reflexivity|]. split; [reflexivity|]. split; [reflexivity|].
  intros t Ht'. cbn [vs_data]. rewrite !py_get_tolist. unfold nd_get. cbn [shape buf].
  rewrite (Hvol t Ht').
  split; [|split; [|split; [|split]]].
  - destruct (get_at_in_bounds [n0; n1; n2; n3] [(F + t)%nat; X; Y; (n3 - 1 - K)%nat] b Hwf)
      as (v & ->); [|discriminate].
    repeat constructor; lia.
  - pose proof (plane_get [L; n1; n2] [] [t; X; Y] [] n3 K b2 eq_refl Hb2 HK) as P.
    cbn [app map] in P. rewrite P by (repeat constructor; assumption).
    now apply Hvol.
  - pose proof (plane_get [L] [n2; n3] [t] [Y; K] n1 X b2 eq_refl Hb2 HX) as P.
    cbn [app map] in P. rewrite P by (repeat constructor; assumption).
    now apply Hvol.
  - pose proof (plane_get [L; n1] [n3] [t; X] [K] n2 Y b2 eq_refl Hb2 HY) as P.
    cbn [app map] in P. rewrite P by (repeat constructor; assumption).
    now apply Hvol.
  - rewrite get_at_vector by lia. apply Hget. lia.
Qed.

Lemma volume_queries_agree_witness :
  exists volume slicex slicey slicez voxel,
    fst (get_rotated_volume_slice 1 3 (series_of (arange_array [4; 2; 2; 3]%nat) 1%float))
    = Ok volume /\
    fst (get_volume_view 1 3 1 0 2 (series_of (arange_array [4; 2; 2; 3]%nat) 1%float))
    = Ok [slicex; slicey; slicez] /\
    fst (get_voxel_time_series no_statistic no_statistic no_statistic no_statistic 1 0 2
           (series_of (arange_array [4; 2; 2; 3]%nat) 1%float)) = Ok voxel /\
    nd_get volume [1; 1; 0; 2]%nat = Some 30%float /\
    py_get [1; 1; 0]%nat slicex = Some 30%float /\
    py_get [1; 0; 2]%nat slicey = Some 30%float /\
    py_get [1; 1; 2]%nat slicez = Some 30%float /\
    py_get [2]%nat (vs_data voxel) = Some 30%float.
Proof.
  destruct (volume_queries_agree no_statistic no_statistic no_statistic no_statistic
              (series_of (arange_array [4; 2; 2; 3]%nat) 1%float)
              (arange_array [4; 2; 2; 3]%nat) 4 2 2 3 1 3 1 0 2
              eq_refl eq_refl eq_refl ltac:(lia) ltac:(cbn; lia) ltac:(cbn; lia)
              ltac:(cbn; lia) ltac:(cbn; lia))
    as (volume & px & py & pz & voxel & Hvol & Hview & Hvox & Hget).
  exists volume, px, py, pz, voxel.
  split; [exact Hvol|]. split; [exact Hview|]. split; [exact Hvox|].
  destruct (Hget 1%nat ltac:(cbn; lia)) as (_ & Hx & Hy & Hz & Hc).
  change (py_get [1; 1; 0]%nat px = nd_get volume [1; 1; 0; 2]%nat) in Hx.
  change (py_get [1; 0; 2]%nat py = nd_get volume [1; 1; 0; 2]%nat) in Hy.
  change (py_get [1; 1; 2]%nat pz = nd_get volume [1; 1; 0; 2]%nat) in Hz.
  change (py_get [2]%nat (vs_data voxel) = nd_get volume [1; 1; 0; 2]%nat) in Hc.
  rewrite Hx, Hy, Hz, Hc.
  vm_compute in Hvol. injection Hvol as <-. repeat split; reflexivity.
Defined.

(** ** The time stamps of a page *)

Lemma float_of_int_small (z : Z) :
  0 <= z < 2 ^ 63 -> float_of_int z = Ok (float_of_uint z).
Proof.
  intros H. unfold float_of_int.
  rewrite Z.abs_eq by lia.
  destruct (Z.ltb_spec z (2 ^ 63)); [|lia].
  destruct (Z.ltb_spec z 0); [lia|]. reflexivity.
Qed.

(** [read_time_page] once its integers are doubles: the stamps are
    [numpy.arange] of the page bounds, and the store is not consulted. *)
Lemma read_time_page_run (s : state) (current_page page_size : Z) (max_size : option Z)
      (page size limit : float) :
  float_of_int current_page = Ok page ->
  float_of_int page_size = Ok size ->
  float_of_int (match max_size with None => page_size | Some m => m end) = Ok limit ->
  read_time_page current_page page_size max_size s
  = (numpy.arange
       (start_time (self s) + page * (size * sample_period (self s)))
       (start_time (self s) + page * (size * sample_period (self s))
        + py_min2 (size * sample_period (self s)) (limit * sample_period (self s)))
       (sample_period (self s)), s)%float.
Proof.
  intros Hpage Hsize Hlimit. unfold read_time_page.
  unfold bind, getattr, lift. now rewrite Hsize, Hpage, Hlimit.
Qed.

(** C2, as amended: [read_time_page] returns
    [numpy.arange(start, end, sample_period)] computed in doubles, where
    [start = start_time + current_page * (page_size * sample_period)] and
    [end = start + min(page_size * sample_period, max_size * sample_period)],
    [max_size] being [page_size] when it is absent and the value given
    otherwise: [ceil((end - start) / sample_period)] stamps, none when that
    is not positive, the first being [start], the second
    [start + sample_period] and stamp [i] being
    [start + i * ((start + sample_period) - start)]; the store is not
    consulted, so the data length clamps nothing. *)
Theorem read_time_page_stamps
        (s : state) (current_page page_size : Z) (max_size : option Z)
        (page size limit : float) (n : Z) :
  0 <= current_page -> 0 < page_size ->
  float_of_int current_page = Ok page ->
  float_of_int page_size = Ok size ->
  float_of_int (match max_size with None => page_size | Some m => m end) = Ok limit ->
  let period := sample_period (self s) in
  let start := (start_time (self s) + page * (size * period))%float in
  let stop := (start + (if (limit * period <? size * period)%float
                        then limit * period else size * period))%float in
  (period =? 0)%float = false ->
  numpy.ceil_to_intp ((stop - start) / period) = Ok n ->
  (current_page < 2 ^ 63 -> page = float_of_uint current_page) /\
  (page_size < 2 ^ 63 -> size = float_of_uint page_size) /\
  (max_size = None -> limit = size) /\
  (forall m, max_size = Some m -> 0 <= m < 2 ^ 63 -> limit = float_of_uint m) /\
  exists stamps,
    read_time_page current_page page_size max_size s = (Ok stamps, s) /\
    length stamps = Z.to_nat n /\
    (n <= 0 -> stamps = []) /\
    (0 < n -> nth_error stamps 0 = Some start) /\
    (1 < n -> nth_error stamps 1 = Some (start + period)%float) /\
    (forall i, 2 <= i < n ->
       nth_error stamps (Z.to_nat i)
       = Some (start + float_of_uint i * ((start + period) - start))%float).
Proof.
  intros Hcp Hps Hpage Hsize Hlimit period start stop Hperiod Hn.
  split; [|split; [|split; [|split]]].
  - intros H. rewrite float_of_int_small in Hpage by lia. now injection Hpage.
  - intros H. rewrite float_of_int_small in Hsize by lia. now injection Hsize.
  - intros ->. rewrite Hsize in Hlimit. now injection Hlimit.
  - intros m -> Hm. rewrite float_of_int_small in Hlimit by lia. now injection Hlimit.
  - rewrite (read_time_page_run _ _ _ _ _ _ _ Hpage Hsize Hlimit).
    fold period. fold start.
    change (py_min2 (size * period) (limit * period))
      with (if (limit * period <? size * period)%float
            then limit * period else size * period)%float.
    fold stop. unfold numpy.arange. rewrite Hperiod, Hn. cbn [rbind].
    eexists. split; [reflexivity|].
    split; [now rewrite length_map, length_seq|].
    split; [|split; [|split]].
    + intros H. now replace (Z.to_nat n) with 0%nat by lia.
    + intros H. rewrite nth_error_map, nth_error_seq.
      destruct (Nat.ltb_spec 0 (Z.to_nat n)); [reflexivity | lia].
    + intros H. rewrite nth_error_map, nth_error_seq.
      destruct (Nat.ltb_spec 1 (Z.to_nat n)); [reflexivity | lia].
    + intros i Hi. rewrite nth_error_map, nth_error_seq.
      destruct (Nat.ltb_spec (Z.to_nat i) (Z.to_nat n)); [|lia].
      cbn [option_map Nat.add]. unfold numpy.arange_item.
      destruct (Z.to_nat i) as [|[|k]] eqn:E; [lia | lia |].
      rewrite <- E, Z2Nat.id by lia. reflexivity.
Qed.

Lemma read_time_page_stamps_witness :
  read_time_page 3 4 (Some 3) (series_of (arange_array [20; 1; 2]%nat) 0.5%float)
  = (Ok [6; 6.5; 7]%float, series_of (arange_array [20; 1; 2]%nat) 0.5%float).
Proof.
  destruct (read_time_page_stamps
              (series_of (arange_array [20; 1; 2]%nat) 0.5%float) 3 4 (Some 3)
              3%float 4%float 3%float 3
              ltac:(lia) ltac:(lia) eq_refl eq_refl eq_refl eq_refl eq_refl)
    as (_ & _ & _ & _ & stamps & Hrun & Hlen & _ & H0 & H1 & Hi).
  rewrite Hrun. f_equal. f_equal.
  destruct stamps as [|t0 [|t1 [|t2 [|t3 stamps]]]]; try discriminate Hlen.
  specialize (H0 ltac:(lia)). specialize (H1 ltac:(lia)).
  specialize (Hi 2 ltac:(lia)).
  cbn in H0, H1, Hi. injection H0 as ->. injection H1 as ->. injection Hi as ->.
  reflexivity.
Defined.

(** In doubles a page of 3 stamps at period 0.1 has 4 of them, spaced by
    less than the period; started at 1 its last stamp is not below the end
    of the page, 1.3; at period 1 from 1e16 its first two stamps are
    equal.  And a [max_size] of 0 is not replaced by [page_size]: the page
    is empty. *)
Lemma read_time_page_rounding :
  (exists stamps,
     fst (read_time_page 1 3 None (series_of (arange_array [20; 1; 2]%nat) 0.1%float))
     = Ok stamps /\
     length stamps = 4%nat /\
     nth_error stamps 0 = Some 0.30000000000000004%float /\
     nth_error stamps 1 = Some 0.4%float /\
     (0.4 - 0.30000000000000004 =? 0.1)%float = false /\
     (0.4 - 0.30000000000000004 <? 0.1)%float = true) /\
  (exists stamps last,
     fst (read_time_page 0 3 None
            (MkState (MkTimeSeries (Stored (arange_array [20; 1; 2]%nat)) 0.1%float 1%float
                                   0 0%float 0 0 0 0 []) []))
     = Ok stamps /\
     (1 + 3 * 0.1 = 1.3)%float /\
     nth_error stamps 3 = Some last /\
     (last <? 1.3)%float = false) /\
  (exists stamps,
     fst (read_time_page 0 3 None
            (MkState (MkTimeSeries (Stored (arange_array [20; 1; 2]%nat)) 1%float 1e16%float
                                   0 0%float 0 0 0 0 []) []))
     = Ok stamps /\
     nth_error stamps 0 = Some 1e16%float /\
     nth_error stamps 1 = Some 1e16%float) /\
  fst (read_time_page 0 3 (Some 0) (series_of (arange_array [20; 1; 2]%nat) 1%float))
  = Ok [].
Proof.
  split; [|split; [|split; [|reflexivity]]].
  - eexists. split; [vm_compute; reflexivity|]. repeat split.
  - do 2 eexists. split; [vm_compute; reflexivity|]. repeat split.
  - eexists. split; [vm_compute; reflexivity|]. repeat split.
Qed.

(** ** Doubles: order and sign *)

Module Doubles.

Import SpecFloat FloatOps FloatAxioms.




Lemma SFltb_irrefl (a : spec_float) : SFltb a a = false.
Proof.
  unfold SFltb, SFcompare. destruct a as [sa|sa| |sa ma ea]; try destruct sa; cbn;
    try reflexivity; rewrite Z.compare_refl;
    change (Pos.compare_cont Eq ma ma) with (Pos.compare ma ma);
    now rewrite Pos.compare_refl.
Qed.



Lemma ltb_irrefl (a : float) : (a <? a)%float = false.
Proof. rewrite ltb_spec. apply SFltb_irrefl. Qed.



(** ** Maximum and minimum of a sequence *)





















End Doubles.

(** ** Sorting *)






(** ** The statistics of a voxel time course *)






(** ** Sanity checks of the array model *)

Example ex_slice1 : slice_select (Slice (Some 1) (Some 10) (Some 2)) 6 = Ok [1%nat; 3%nat; 5%nat].
Proof. reflexivity. Qed.
Example ex_slice2 : slice_select (Slice None None (Some (-1))) 4 = Ok [3%nat; 2%nat; 1%nat; 0%nat].
Proof. reflexivity. Qed.
Example ex_slice3 : slice_select (Slice (Some (-2)) (Some (-1)) (Some 1)) 4 = Ok [2%nat].
Proof. reflexivity. Qed.
Example ex_str : str_of_int (-15) = "-15"%string /\ str_of_int 0 = "0"%string /\ str_of_int 99 = "99"%string.
Proof. repeat split; reflexivity. Qed.
Example ex_get : nd_getitem (NdArray [2%nat;3%nat] [1;2;3;4;5;6]%float) [IEllipsis; ISlice (Slice None None (Some (-1)))]
  = Ok (NdArray [2%nat;3%nat] [3;2;1;6;5;4]%float).
Proof. reflexivity. Qed.
Example ex_get2 : nd_getitem (NdArray [2%nat;3%nat] [1;2;3;4;5;6]%float) [ISlice slice_all; IInt (-1)]
  = Ok (NdArray [2%nat] [3;6]%float).
Proof. reflexivity. Qed.
Example ex_get3 : nd_getitem (NdArray [2%nat;3%nat] [1;2;3;4;5;6]%float) [ISlice slice_all; ISeq [2;0]]
  = Ok (NdArray [2%nat;2%nat] [3;1;6;4]%float).
Proof. reflexivity. Qed.
Example ex_get4 : nd_getitem (NdArray [2%nat;3%nat] [1;2;3;4;5;6]%float) [ISlice slice_all; IInt 3]
  = Raise IndexError.
Proof. reflexivity. Qed.
Example ex_tolist : tolist (NdArray [2%nat;2%nat] [1;2;3;4]%float) = PyList [PyList [PyNum 1; PyNum 2]; PyList [PyNum 3; PyNum 4]].
Proof. reflexivity. Qed.
